(** * Peppol e-invoicing converter: normalizer, validator, AI merge, UBL mapping

    A shallow embedding of the invoice pipeline of the converter
    (src/mapping/normalize.ts, src/mapping/toUbl.ts, src/parser/ai.ts,
    the business-rule validator in src/unnamed/part_008,
    src/validation/xsd.ts and the validation slice of the convert
    handler in src/unnamed/part_001), followed by the properties the
    specification states about it.  The data-quality check and score of
    src/unnamed/part_008, the convert handler of src/unnamed/part_001
    from the parse result to the preview, and the update handler of
    src/unnamed/part_003 are embedded as well, with further properties
    of the code at the end.

    Conventions of the embedding.
    - A JavaScript [number] is an exact rational ([Qc]); NaN, the
      infinities and binary64 rounding error are outside the model.  The
      concrete inputs used below are chosen so that the binary64
      computation takes the same branches.
    - A JavaScript string is a [string] of one-byte characters; case
      mapping and the whitespace class are the ASCII ones.
    - An optional field is an [option]; [None] stands for [undefined]
      (and for [null], which the TypeScript interfaces do not admit).
    - Objects that are shared and written through (the two parties of an
      invoice) live in a store of party objects addressed by location.
    - The display texts of a finding ([message], [suggestedFix]) are not
      part of the model: no property below reads them. *)

From Stdlib Require Import ZArith QArith Qcanon Qround Lia Lqa.
From Stdlib Require Import Ascii String DecimalString.
From stdpp Require Import base numbers option list strings gmap.

Local Open Scope string_scope.
Local Open Scope list_scope.
Local Open Scope Qc_scope.

(* ================================================================== *)
(** * JavaScript primitives *)
(* ================================================================== *)

Module JS.

(** ** Numbers *)

Abbreviation Number := Qc.

Definition num (q : Q) : Number := Q2Qc q.
Arguments num q%_Q.

(** [Math.round]: the nearest integer, a tie going to the larger one. *)
Definition Math_round (x : Number) : Z := Qfloor (this (x + num 0.5)).

Definition Math_abs (x : Number) : Number :=
if decide (x < 0) then - x else x.

(** [x > y] on numbers, as a boolean. *)
Definition gt (x y : Number) : bool := bool_decide (y < x).

(** Truthiness: [0] is falsy, so is a missing value. *)
Definition truthy_num (o : option Number) : bool :=
match o with
| Some x => bool_decide (x ≠ 0)
| None => false
end.

(** [o || d] for a numeric field. *)
Definition num_or (o : option Number) (d : Number) : Number :=
match o with
| Some x => if bool_decide (x ≠ 0) then x else d
| None => d
end.

(** ** Strings *)

Definition truthy_str (o : option string) : bool :=
match o with
| Some s => negb (String.eqb s "")
| None => false
end.

(** [a || b] for two optional strings. *)
Definition str_or (a b : option string) : option string :=
if truthy_str a then a else b.

Definition is_whitespace (c : ascii) : bool :=
let n := nat_of_ascii c in
Nat.eqb n 32 || (Nat.leb 9 n && Nat.leb n 13).

Definition is_digit (c : ascii) : bool :=
let n := nat_of_ascii c in
Nat.leb 48 n && Nat.leb n 57.

Definition is_upper (c : ascii) : bool :=
let n := nat_of_ascii c in
Nat.leb 65 n && Nat.leb n 90.

Definition is_lower (c : ascii) : bool :=
let n := nat_of_ascii c in
Nat.leb 97 n && Nat.leb n 122.

Definition upper_char (c : ascii) : ascii :=
if is_lower c then ascii_of_nat (nat_of_ascii c - 32) else c.

(** [s.toUpperCase()] *)
Fixpoint toUpperCase (s : string) : string :=
match s with
| EmptyString => EmptyString
| String c r => String (upper_char c) (toUpperCase r)
end.

(** [s.replace(/\s/g, '')] *)
Fixpoint remove_whitespace (s : string) : string :=
match s with
| EmptyString => EmptyString
| String c r =>
    if is_whitespace c then remove_whitespace r
    else String c (remove_whitespace r)
end.

Fixpoint trimStart (s : string) : string :=
match s with
| EmptyString => EmptyString
| String c r => if is_whitespace c then trimStart r else s
end.

(** [s.trim()] *)
Definition trim (s : string) : string :=
String.rev (trimStart (String.rev (trimStart s))).

(** [s.startsWith(p)] *)
Definition startsWith (p s : string) : bool := String.prefix p s.

(** [s.substring(n)] *)
Fixpoint substring_from (n : nat) (s : string) : string :=
match n, s with
| O, _ => s
| S k, EmptyString => EmptyString
| S k, String _ r => substring_from k r
end.

(** ** The regular expressions of the sources

    Every pattern used by the pipeline is a fixed-length sequence of
    character classes, so a pattern is a list of classes. *)

Inductive cls : Type :=
| Digit              (* \d *)
| Upper              (* [A-Z] *)
| Lit (c : ascii).   (* a literal character *)

Definition cls_match (k : cls) (c : ascii) : bool :=
match k with
| Digit => is_digit c
| Upper => is_upper c
| Lit d => Ascii.eqb c d
end.

(** The pattern matches at the start of [s]; the rest of [s] is returned. *)
Fixpoint match_here (p : list cls) (s : string) : option string :=
match p, s with
| [], _ => Some s
| k :: p', String c r => if cls_match k c then match_here p' r else None
| _ :: _, EmptyString => None
end.

(** [/^p/.test(s)] *)
Definition test_prefix (p : list cls) (s : string) : bool :=
match match_here p s with Some _ => true | None => false end.

(** [/^p$/.test(s)] *)
Definition test_exact (p : list cls) (s : string) : bool :=
match match_here p s with Some EmptyString => true | _ => false end.

(** [s.match(/p/)]: the text of the leftmost match, if any. *)
Fixpoint search (p : list cls) (s : string) : option string :=
match match_here p s with
| Some _ => Some (String.substring 0 (length p) s)
| None =>
    match s with
    | EmptyString => None
    | String _ r => search p r
    end
end.

(** ** Dates

    A [Date] object holds a time value in milliseconds, or is the
    invalid date. *)

Definition Date : Type := option Z.

Definition Date_isNaN (d : Date) : bool :=
match d with Some _ => false | None => true end.

(** [a > b] on two dates compares the time values; it is false as soon as
    one of them is invalid. *)
Definition Date_gt (a b : Date) : bool :=
match a, b with
| Some x, Some y => Z.ltb y x
| _, _ => false
end.

(** ** Exceptions *)

Inductive Exc (A : Type) : Type :=
| Return (a : A)
| Throw (message : string).
Arguments Return {A} a.
Arguments Throw {A} message.

Global Instance Exc_ret : MRet Exc := @Return.
Global Instance Exc_bind : MBind Exc := λ A B k m,
  match m with
  | Return a => k a
  | Throw e => Throw e
  end.

(** [try { m } catch (e) { h e }] *)
Definition try_catch {A : Type} (m : Exc A) (h : string → Exc A) : Exc A :=
match m with
| Return a => Return a
| Throw e => h e
end.

(** [String(n)] for a non-negative integer. *)
Definition String_of_nat (n : nat) : string :=
NilZero.string_of_uint (Nat.to_uint n).

End JS.


(* ================================================================== *)
(** * Data model (src/types/invoice.ts) *)
(* ================================================================== *)

Module Model.
Import JS.

Record Address : Type := mkAddress {
  street : option string;
  city : option string;
  postalCode : option string;
  countryCode : option string;
  country : option string
}.

Record Party : Type := mkParty {
  name : option string;
  address : option Address;
  vatNumber : option string;
  kboNumber : option string;
  taxRegistrationId : option string
}.

Record InvoiceLine : Type := mkLine {
  description : option string;
  quantity : option Number;
  unitPrice : option Number;
  unitOfMeasure : option string;
  vatRate : option Number;
  vatCategory : option string;
  lineTotal : option Number;
  line_confidence : option Number;
  line_source : option string
}.

(** The interface declares the two date fields as [Date]; the normalizer
    and the validator also accept a value that is not yet a [Date] and
    hand it to [new Date(...)], so a date field holds either. *)
Inductive DateField : Type :=
| DateObj (d : Date)
| DateStr (s : string).

(** [!!v] for a date field: every [Date] object is truthy, a string is
    truthy unless empty. *)
Definition truthy_date (o : option DateField) : bool :=
match o with
| Some (DateObj _) => true
| Some (DateStr s) => negb (String.eqb s "")
| None => false
end.

Inductive SourceType : Type := pdf | xlsx.

(** The invoice record, over the representation [P] of a party: a
    [Party] value where the record is only read, a location of the party
    store where parties are written through a shared reference. *)
Record Invoice_ (P : Type) : Type := mkInvoice {
  invoiceNumber : option string;
  issueDate : option DateField;
  dueDate : option DateField;
  currency : option string;
  supplier : option P;
  customer : option P;
  paymentReference : option string;
  iban : option string;
  bic : option string;
  lines : list InvoiceLine;
  subtotalExclVat : option Number;
  vatTotal : option Number;
  totalInclVat : option Number;
  sourceType : option SourceType;
  sourceFile : option string;
  extractionConfidence : option Number
}.
Arguments mkInvoice {P}.
Arguments invoiceNumber {P}.
Arguments issueDate {P}.
Arguments dueDate {P}.
Arguments currency {P}.
Arguments supplier {P}.
Arguments customer {P}.
Arguments paymentReference {P}.
Arguments iban {P}.
Arguments bic {P}.
Arguments lines {P}.
Arguments subtotalExclVat {P}.
Arguments vatTotal {P}.
Arguments totalInclVat {P}.
Arguments sourceType {P}.
Arguments sourceFile {P}.
Arguments extractionConfidence {P}.

Abbreviation InvoiceNormalized := (Invoice_ Party).

(** Locations of party objects, and the store they live in. *)
Abbreviation loc := nat.
Abbreviation Store := (gmap nat Party).

(** The value a mapping field records ([any] in the interface). *)
Inductive FieldValue : Type :=
| VString (s : string)
| VNumber (n : Number)
| VDate (d : Date).

Record MappingField : Type := mkField {
  field : string;
  value : FieldValue;
  source : string;
  confidence : Number;
  rawValue : option string
}.

Inductive Severity : Type := error | warning.

Global Instance Severity_eq_dec : EqDecision Severity.
Proof. solve_decision. Defined.

Record ValidationError : Type := mkError {
  code : string;
  severity : Severity;
  fieldPath : option string
}.

Record ValidationReport : Type := mkReport {
  errors : list ValidationError;
  warnings : list ValidationError;
  isValid : bool
}.

(** Field updates ([o.f = v] on a record value). *)

Definition set_vatNumber (p : Party) (v : option string) : Party :=
mkParty (name p) (address p) v (kboNumber p) (taxRegistrationId p).

Section Updates.
Context {P : Type}.
Implicit Type i : Invoice_ P.

Definition set_issueDate i (v : option DateField) : Invoice_ P :=
mkInvoice (invoiceNumber i) v (dueDate i) (currency i)
  (supplier i) (customer i) (paymentReference i) (iban i) (bic i) (lines i)
  (subtotalExclVat i) (vatTotal i) (totalInclVat i)
  (sourceType i) (sourceFile i) (extractionConfidence i).

Definition set_dueDate i (v : option DateField) : Invoice_ P :=
mkInvoice (invoiceNumber i) (issueDate i) v (currency i)
  (supplier i) (customer i) (paymentReference i) (iban i) (bic i) (lines i)
  (subtotalExclVat i) (vatTotal i) (totalInclVat i)
  (sourceType i) (sourceFile i) (extractionConfidence i).

Definition set_currency i (v : option string) : Invoice_ P :=
mkInvoice (invoiceNumber i) (issueDate i) (dueDate i) v
  (supplier i) (customer i) (paymentReference i) (iban i) (bic i) (lines i)
  (subtotalExclVat i) (vatTotal i) (totalInclVat i)
  (sourceType i) (sourceFile i) (extractionConfidence i).

Definition set_iban i (v : option string) : Invoice_ P :=
mkInvoice (invoiceNumber i) (issueDate i) (dueDate i) (currency i)
  (supplier i) (customer i) (paymentReference i) v (bic i) (lines i)
  (subtotalExclVat i) (vatTotal i) (totalInclVat i)
  (sourceType i) (sourceFile i) (extractionConfidence i).

Definition set_lines i (v : list InvoiceLine) : Invoice_ P :=
mkInvoice (invoiceNumber i) (issueDate i) (dueDate i) (currency i)
  (supplier i) (customer i) (paymentReference i) (iban i) (bic i) v
  (subtotalExclVat i) (vatTotal i) (totalInclVat i)
  (sourceType i) (sourceFile i) (extractionConfidence i).

Definition set_subtotalExclVat i (v : option Number) : Invoice_ P :=
mkInvoice (invoiceNumber i) (issueDate i) (dueDate i) (currency i)
  (supplier i) (customer i) (paymentReference i) (iban i) (bic i) (lines i)
  v (vatTotal i) (totalInclVat i)
  (sourceType i) (sourceFile i) (extractionConfidence i).

Definition set_vatTotal i (v : option Number) : Invoice_ P :=
mkInvoice (invoiceNumber i) (issueDate i) (dueDate i) (currency i)
  (supplier i) (customer i) (paymentReference i) (iban i) (bic i) (lines i)
  (subtotalExclVat i) v (totalInclVat i)
  (sourceType i) (sourceFile i) (extractionConfidence i).

Definition set_totalInclVat i (v : option Number) : Invoice_ P :=
mkInvoice (invoiceNumber i) (issueDate i) (dueDate i) (currency i)
  (supplier i) (customer i) (paymentReference i) (iban i) (bic i) (lines i)
  (subtotalExclVat i) (vatTotal i) v
  (sourceType i) (sourceFile i) (extractionConfidence i).

End Updates.

(** The invoice [{ lines: [] }]. *)
Definition emptyInvoice {P : Type} : Invoice_ P :=
mkInvoice None None None None None None None None None []
  None None None None None None.

(** Reading an invoice out of the store: every party reference is
    replaced by the object it points to. *)
Definition deref (h : Store) (i : Invoice_ loc) : InvoiceNormalized :=
mkInvoice (invoiceNumber i) (issueDate i) (dueDate i) (currency i)
  (supplier i ≫= λ l, h !! l) (customer i ≫= λ l, h !! l)
  (paymentReference i) (iban i) (bic i) (lines i)
  (subtotalExclVat i) (vatTotal i) (totalInclVat i)
  (sourceType i) (sourceFile i) (extractionConfidence i).

End Model.

(* ================================================================== *)
(** * Normalizer (src/mapping/normalize.ts) *)
(* ================================================================== *)

Module Normalize.
Import JS Model.

Definition roundTo2Decimals (value : Number) : Number :=
Qc_of_Z (Math_round (value * num 100)) / num 100.

Definition normalizeLine (line : InvoiceLine) (index : nat) : InvoiceLine :=
(* quantity defaults to 1 *)
let quantity' :=
  match quantity line with None => Some (num 1) | q => q end in
(* line total, when missing, from unit price and quantity *)
let lineTotal' :=
  match unitPrice line, quantity' with
  | Some p, Some q =>
      match lineTotal line with
      | None => Some (roundTo2Decimals (p * q))
      | t => t
      end
  | _, _ => lineTotal line
  end in
(* VAT rate, and the category that goes with it *)
let vatRate' := roundTo2Decimals <$> vatRate line in
let vatCategory' :=
  match vatRate line with
  | Some _ =>
      if truthy_str (vatCategory line) then vatCategory line else Some "S"
  | None => vatCategory line
  end in
(* unit of measure *)
let unitOfMeasure' :=
  if truthy_str (unitOfMeasure line) then unitOfMeasure line
  else Some "C62" in
mkLine (description line) quantity' (unitPrice line) unitOfMeasure'
  vatRate' vatCategory' lineTotal' (line_confidence line) (line_source line).

(** [lines.reduce((sum, line) => sum + (line.lineTotal || 0), 0)] *)
Definition sumLineTotals (ls : list InvoiceLine) : Number :=
fold_left (λ sum line, sum + num_or (lineTotal line) 0) ls 0.

(** The VAT amount of one line, before any rounding; it counts only when
    line total and rate are both truthy. *)
Definition lineVat (line : InvoiceLine) : option Number :=
match lineTotal line, vatRate line with
| Some t, Some r =>
    if bool_decide (t ≠ 0) && bool_decide (r ≠ 0)
    then Some (t * r / num 100) else None
| _, _ => None
end.

(** The reduce of [calculateTotals] for the VAT total. *)
Definition sumLineVat (ls : list InvoiceLine) : Number :=
fold_left
  (λ sum line, match lineVat line with Some v => sum + v | None => sum end)
  ls 0.

(** [calculateTotals] writes into the record it is given; here it returns
    the record as written. *)
Definition calculateTotals {P : Type} (invoice : Invoice_ P) : Invoice_ P :=
let invoice :=
  if Nat.ltb 0 (length (lines invoice)) then
    let calculatedSubtotal := sumLineTotals (lines invoice) in
    match subtotalExclVat invoice with
    | None =>
        set_subtotalExclVat invoice
          (Some (roundTo2Decimals calculatedSubtotal))
    | Some _ => invoice
    end
  else invoice in
let invoice :=
  if Nat.ltb 0 (length (lines invoice)) then
    match vatTotal invoice with
    | None =>
        let calculatedVatTotal := sumLineVat (lines invoice) in
        set_vatTotal invoice (Some (roundTo2Decimals calculatedVatTotal))
    | Some _ => invoice
    end
  else invoice in
match subtotalExclVat invoice, vatTotal invoice with
| Some s, Some v =>
    match totalInclVat invoice with
    | None => set_totalInclVat invoice (Some (roundTo2Decimals (s + v)))
    | Some _ => invoice
    end
| _, _ => invoice
end.

Definition normalizeVATNumber (vat : string) : string :=
let normalized := toUpperCase (remove_whitespace vat) in
if negb (test_prefix [Upper; Upper] normalized) then
  if test_exact (replicate 10 Digit) normalized then
    "BE" +:+ normalized
  else if test_exact (replicate 9 Digit ++ [Lit "B"] ++ replicate 2 Digit)
            normalized then
    "NL" +:+ normalized
  else normalized
else normalized.

Definition normalizeIBAN (iban : string) : string :=
toUpperCase (remove_whitespace iban).

Section WithPlatform.

(** [new Date(s)] for a string [s]: the platform's date parser. *)
Variable Date_parse : string → Date.

Definition coerceDate (d : option DateField) : option DateField :=
match d with
| Some (DateStr s) =>
    if negb (String.eqb s "") then Some (DateObj (Date_parse s)) else d
| _ => d
end.

(** [p.vatNumber = normalizeVATNumber(p.vatNumber)] through the reference
    [r], when there is a party and its VAT number is truthy. *)
Definition normalizePartyVat (h : Store) (r : option loc) : Store :=
match r with
| Some l =>
    match h !! l with
    | Some p =>
        match vatNumber p with
        | Some v =>
            if negb (String.eqb v "")
            then <[l := set_vatNumber p (Some (normalizeVATNumber v))]> h
            else h
        | None => h
        end
    | None => h
    end
| None => h
end.

(** [normalizeInvoice] copies the top-level record ([{ ...invoice }]),
    which keeps the references to the two party objects; the result is
    the store after the call and the record returned. *)
Definition normalizeInvoice (h : Store) (invoice : Invoice_ loc)
  : Store * Invoice_ loc :=
let normalized := invoice in
(* currency, default EUR *)
let normalized :=
  if negb (truthy_str (currency normalized))
  then set_currency normalized (Some "EUR") else normalized in
let normalized :=
  set_currency normalized (toUpperCase <$> currency normalized) in
(* dates *)
let normalized := set_issueDate normalized (coerceDate (issueDate normalized)) in
let normalized := set_dueDate normalized (coerceDate (dueDate normalized)) in
(* VAT numbers *)
let h := normalizePartyVat h (supplier normalized) in
let h := normalizePartyVat h (customer normalized) in
(* IBAN *)
let normalized :=
  if truthy_str (iban normalized)
  then set_iban normalized (normalizeIBAN <$> iban normalized)
  else normalized in
(* lines *)
let normalized :=
  set_lines normalized (imap (λ index line, normalizeLine line index)
                          (lines normalized)) in
(* totals *)
(h, calculateTotals normalized).

End WithPlatform.

(** Field by field: the currency, the IBAN and a party object as the
    normalizer leaves them. *)
Definition normalizedCurrency (c : option string) : option string :=
toUpperCase <$> (if negb (truthy_str c) then Some "EUR" else c).

Definition normalizedIban (ib : option string) : option string :=
if truthy_str ib then normalizeIBAN <$> ib else ib.

Definition normalizedParty (p : Party) : Party :=
match vatNumber p with
| Some v =>
    if negb (String.eqb v "")
    then set_vatNumber p (Some (normalizeVATNumber v)) else p
| None => p
end.

End Normalize.

(* ================================================================== *)
(** * Business rules (src/unnamed/part_008) and the XSD placeholder *)
(* ================================================================== *)

Module Rules.
Import JS Model Normalize.

(** [errors.push(e)] under a condition. *)
Definition finding (cond : bool) (code : string) (sev : Severity)
  (path : string) : list ValidationError :=
if cond then [mkError code sev (Some path)] else [].

(** [!s || s.trim() === ''] *)
Definition blank (o : option string) : bool :=
negb (truthy_str o)
|| match o with Some s => String.eqb (trim s) "" | None => false end.

(** [party] is ['supplier'] or ['customer']. *)
Definition validateVATNumberFormat (vatNumber : string) (party : string)
  : option ValidationError :=
let normalized := toUpperCase (remove_whitespace vatNumber) in
let path :=
  "Invoice.Accounting"
  +:+ (if String.eqb party "supplier" then "Supplier" else "Customer")
  +:+ "Party.Party.PartyTaxScheme.CompanyID" in
if startsWith "BE" normalized
   && negb (test_exact (replicate 10 Digit) (substring_from 2 normalized))
then Some (mkError "ERR_INVALID_VAT_FORMAT" error (Some path))
else if startsWith "NL" normalized
   && negb (test_exact (replicate 9 Digit ++ [Lit "B"] ++ replicate 2 Digit)
              (substring_from 2 normalized))
then Some (mkError "ERR_INVALID_VAT_FORMAT" error (Some path))
else None.

(** The validator's own VAT recomputation: each line's VAT amount is
    rounded before it is added. *)
Definition sumRoundedLineVat (ls : list InvoiceLine) : Number :=
fold_left
  (λ sum line,
     match lineVat line with
     | Some v => sum + roundTo2Decimals v
     | None => sum
     end)
  ls 0.

(** The two checks made on one line. *)
Definition lineFindings (index : nat) (line : InvoiceLine)
  : list ValidationError :=
let linePath := "InvoiceLine[" +:+ String_of_nat index +:+ "]" in
finding (blank (description line))
  "WARN_MISSING_LINE_DESCRIPTION" warning (linePath +:+ ".Item.Description")
++
match quantity line, unitPrice line, lineTotal line with
| Some q, Some p, Some t =>
    let calculatedTotal := roundTo2Decimals (num_or (Some q) 0 * num_or (Some p) 0) in
    let actualTotal := roundTo2Decimals t in
    let difference := Math_abs (calculatedTotal - actualTotal) in
    finding (gt difference (num 0.01))
      "ERR_INVALID_LINE_AMOUNT" error (linePath +:+ ".LineExtensionAmount")
| _, _, _ => []
end.

(** The reconciliation of the three header totals against the lines. *)
Definition totalsFindings (invoice : InvoiceNormalized)
  : list ValidationError :=
if Nat.ltb 0 (length (lines invoice)) then
  let calculatedSubtotal := sumLineTotals (lines invoice) in
  match subtotalExclVat invoice with
  | Some s =>
      let difference := Math_abs (calculatedSubtotal - s) in
      finding (gt difference (num 0.01))
        "ERR_INVALID_SUBTOTAL" error
        "Invoice.LegalMonetaryTotal.TaxExclusiveAmount"
  | None => []
  end
  ++
  let calculatedVatTotal := sumRoundedLineVat (lines invoice) in
  match vatTotal invoice with
  | Some v =>
      if gt calculatedVatTotal 0 then
        let difference := Math_abs (calculatedVatTotal - v) in
        finding (gt difference (num 0.01))
          "ERR_INVALID_VAT_TOTAL" error "Invoice.TaxTotal.TaxAmount"
      else []
  | None => []
  end
  ++
  match subtotalExclVat invoice, vatTotal invoice, totalInclVat invoice with
  | Some s, Some v, Some t =>
      let calculatedTotal := roundTo2Decimals (s + v) in
      let actualTotal := roundTo2Decimals t in
      let difference := Math_abs (calculatedTotal - actualTotal) in
      finding (gt difference (num 0.01))
        "ERR_INVALID_TOTAL" error
        "Invoice.LegalMonetaryTotal.TaxInclusiveAmount"
  | _, _, _ => []
  end
else [].

(** [p?.name], [p?.address?.countryCode], [p?.vatNumber] *)
Definition name_of (p : option Party) : option string := p ≫= name.
Definition countryCode_of (p : option Party) : option string :=
(p ≫= address) ≫= countryCode.
Definition vatNumber_of (p : option Party) : option string := p ≫= vatNumber.

Definition partyVatFindings (p : option Party) (party : string)
  : list ValidationError :=
match vatNumber_of p with
| Some v =>
    if negb (String.eqb v "")
    then option_list (validateVATNumberFormat v party)
    else []
| None => []
end.

Section WithPlatform.

(** [new Date(s)] and [new Date()]. *)
Variable Date_parse : string → Date.
Variable now : Date.

(** The finding for a missing, unparsable or future issue date. *)
Definition issueDateFindings (invoice : InvoiceNormalized)
  : list ValidationError :=
if negb (truthy_date (issueDate invoice)) then
  [mkError "WARN_MISSING_ISSUE_DATE" warning (Some "Invoice.IssueDate")]
else
  let issueDate' :=
    match issueDate invoice with
    | Some (DateObj d) => d
    | Some (DateStr s) => Date_parse s
    | None => None
    end in
  if Date_isNaN issueDate' then
    [mkError "ERR_INVALID_ISSUE_DATE" error (Some "Invoice.IssueDate")]
  else if Date_gt issueDate' now then
    [mkError "ERR_FUTURE_ISSUE_DATE" warning (Some "Invoice.IssueDate")]
  else [].

(** [validateBusinessRules]: the findings in the order they are pushed. *)
Definition validateBusinessRules (invoice : InvoiceNormalized)
  : list ValidationError :=
finding (blank (invoiceNumber invoice))
  "WARN_MISSING_INVOICE_ID" warning "Invoice.ID"
++ issueDateFindings invoice
++ finding (blank (name_of (supplier invoice)))
     "WARN_MISSING_SUPPLIER_NAME" warning
     "Invoice.AccountingSupplierParty.Party.PartyName.Name"
++ finding (negb (truthy_str (countryCode_of (supplier invoice))))
     "WARN_MISSING_SUPPLIER_COUNTRY" warning
     "Invoice.AccountingSupplierParty.Party.PostalAddress.Country.IdentificationCode"
++ finding (blank (name_of (customer invoice)))
     "WARN_MISSING_CUSTOMER_NAME" warning
     "Invoice.AccountingCustomerParty.Party.PartyName.Name"
++ finding (Nat.eqb (length (lines invoice)) 0)
     "WARN_NO_INVOICE_LINES" warning "Invoice.InvoiceLine"
++ concat (imap lineFindings (lines invoice))
++ totalsFindings invoice
++ partyVatFindings (supplier invoice) "supplier"
++ partyVatFindings (customer invoice) "customer"
++ finding (truthy_str (currency invoice)
            && negb (bool_decide (currency invoice = Some "EUR")))
     "WARN_NON_EUR_CURRENCY" warning "Invoice.DocumentCurrencyCode".

End WithPlatform.

Definition has_severity (s : Severity) (e : ValidationError) : bool :=
bool_decide (severity e = s).

Definition buildValidationReport (errors : list ValidationError)
  : ValidationReport :=
let reportErrors := List.filter (has_severity error) errors in
let warnings := List.filter (has_severity warning) errors in
mkReport reportErrors warnings (Nat.eqb (length reportErrors) 0).

(** [validateXSD] (src/validation/xsd.ts): the placeholder. *)
Definition validateXSD (xml : string) : list ValidationError :=
[mkError "INFO_XSD_VALIDATION_SKIPPED" warning (Some "Invoice")].

(** The validation step of the convert handler: the findings of the
    three validators are concatenated and turned into the report.  The
    findings of the data-quality validator enter as they are. *)
Definition handlerValidation
  (businessRuleErrors dataQualityErrors : list ValidationError)
  (ublXml : string) : ValidationReport :=
let xsdWarnings := validateXSD ublXml in
let allValidationErrors :=
  businessRuleErrors ++ dataQualityErrors ++ xsdWarnings in
buildValidationReport allValidationErrors.

(** A finding with code [c] is among [es]. *)
Definition emits (c : string) (es : list ValidationError) : Prop :=
c ∈ code <$> es.

Global Instance emits_dec (c : string) (es : list ValidationError) :
  Decision (emits c es).
Proof. unfold emits. apply _. Defined.

(** The codes of the six required-field findings, and the codes of the
    findings of severity [error]. *)
Definition requiredFieldCodes : list string :=
["WARN_MISSING_INVOICE_ID"; "WARN_MISSING_ISSUE_DATE";
 "WARN_MISSING_SUPPLIER_NAME"; "WARN_MISSING_SUPPLIER_COUNTRY";
 "WARN_MISSING_CUSTOMER_NAME"; "WARN_NO_INVOICE_LINES"].

Definition errorCodes : list string :=
["ERR_INVALID_ISSUE_DATE"; "ERR_INVALID_LINE_AMOUNT"; "ERR_INVALID_SUBTOTAL";
 "ERR_INVALID_VAT_TOTAL"; "ERR_INVALID_TOTAL"; "ERR_INVALID_VAT_FORMAT"].

(** The codes of the reconciliation of the three header totals. *)
Definition totalCodes : list string :=
["ERR_INVALID_SUBTOTAL"; "ERR_INVALID_VAT_TOTAL"; "ERR_INVALID_TOTAL"].

(** A finding is a warning or carries one of the error codes. *)
Definition classified (e : ValidationError) : Prop :=
severity e = warning ∨ code e ∈ errorCodes.

End Rules.

(* ================================================================== *)
(** * AI enhancer (src/parser/ai.ts) *)
(* ================================================================== *)

Module AI.
Import JS Model.

(** The object parsed from the completion service's answer, read at the
    fields the merge looks at.  [None] is a field that is missing or
    [null]. *)
Record AIData : Type := mkAIData {
  ai_invoiceNumber : option string;
  ai_issueDate : option string;
  ai_dueDate : option string;
  ai_currency : option string;
  ai_supplier : option Party;
  ai_customer : option Party;
  ai_lines : option (list InvoiceLine);
  ai_subtotalExclVat : option Number;
  ai_vatTotal : option Number;
  ai_totalInclVat : option Number;
  ai_iban : option string;
  ai_paymentReference : option string
}.

Record AIResult : Type := mkAIResult {
  invoice : InvoiceNormalized;
  mappingFields : list MappingField;
  aiUsed : bool
}.

(** [a?.f || b?.f] on the addresses of two parties. *)
Definition addr_or (f : Address → option string) (a b : option Address)
  : option string :=
str_or (a ≫= f) (b ≫= f).

Definition mergeParty (existing aiData : option Party) : option Party :=
match aiData, existing with
| None, _ => existing
| Some _, None => aiData
| Some a, Some e =>
    Some (mkParty
      (str_or (name a) (name e))
      (Some (mkAddress
         (addr_or street (address a) (address e))
         (addr_or city (address a) (address e))
         (addr_or postalCode (address a) (address e))
         (addr_or countryCode (address a) (address e))
         None))
      (str_or (vatNumber a) (vatNumber e))
      (str_or (kboNumber a) (kboNumber e))
      (str_or (taxRegistrationId a) (taxRegistrationId e)))
end.

(** The four date shapes [parseDate] falls back to. *)
Definition fmt_ymd : list cls :=
replicate 4 Digit ++ [Lit "-"] ++ replicate 2 Digit ++ [Lit "-"]
  ++ replicate 2 Digit.
Definition fmt_dmy (sep : ascii) : list cls :=
replicate 2 Digit ++ [Lit sep] ++ replicate 2 Digit ++ [Lit sep]
  ++ replicate 4 Digit.

(** From a match [dd?mm?yyyy] to the text [yyyy-mm-dd]. *)
Definition dmy_to_iso (m : string) : string :=
String.substring 6 4 m +:+ "-" +:+ String.substring 3 2 m +:+ "-"
  +:+ String.substring 0 2 m.

(** [cond ? a : b] where [a] is the AI value, for a total. *)
Definition num_override (a e : option Number) : option Number :=
match a with Some _ => a | None => e end.

Section Merge.

Variable Date_parse : string → Date.

Definition parseDate (dateStr : option string) : option Date :=
match dateStr with
| None => None
| Some s =>
    if String.eqb s "" || String.eqb s "null" then None
    else
      match Date_parse s with
      | Some t => Some (Some t)
      | None =>
          match search fmt_ymd s with
          | Some m => Some (Date_parse m)
          | None =>
          match search (fmt_dmy "/") s with
          | Some m => Some (Date_parse (dmy_to_iso m))
          | None =>
          match search (fmt_dmy "-") s with
          | Some m => Some (Date_parse (dmy_to_iso m))
          | None =>
          match search (fmt_dmy ".") s with
          | Some m => Some (Date_parse (dmy_to_iso m))
          | None => None
          end end end end
      end
end.

(** [ai ? parseDate(ai) : existing] *)
Definition date_override (a : option string) (e : option DateField)
  : option DateField :=
if truthy_str a then DateObj <$> parseDate a else e.

Definition mergeAIResults (existing : InvoiceNormalized) (aiData : AIData)
  : InvoiceNormalized :=
mkInvoice
  (str_or (ai_invoiceNumber aiData) (invoiceNumber existing))
  (date_override (ai_issueDate aiData) (issueDate existing))
  (date_override (ai_dueDate aiData) (dueDate existing))
  (str_or (ai_currency aiData) (str_or (currency existing) (Some "EUR")))
  (mergeParty (supplier existing) (ai_supplier aiData))
  (mergeParty (customer existing) (ai_customer aiData))
  (str_or (ai_paymentReference aiData) (paymentReference existing))
  (str_or (ai_iban aiData) (iban existing))
  (bic existing)
  (match ai_lines aiData with
   | Some (l :: ls) => l :: ls
   | _ => lines existing
   end)
  (num_override (ai_subtotalExclVat aiData) (subtotalExclVat existing))
  (num_override (ai_vatTotal aiData) (vatTotal existing))
  (num_override (ai_totalInclVat aiData) (totalInclVat existing))
  (sourceType existing) (sourceFile existing)
  (extractionConfidence existing).

End Merge.

(** The mapping field pushed for one AI-extracted header value. *)
Definition aiField (path : string) (v : option string) (source : string)
  : list MappingField :=
match v with
| Some s =>
    if negb (String.eqb s "")
    then [mkField path (VString s) source (num 0.9) (Some s)]
    else []
| None => []
end.

Definition aiFieldsOf (aiData : AIData) (source : string)
  : list MappingField :=
aiField "invoiceNumber" (ai_invoiceNumber aiData) source
++ aiField "issueDate" (ai_issueDate aiData) source
++ aiField "supplier.name" (ai_supplier aiData ≫= name) source
++ aiField "customer.name" (ai_customer aiData ≫= name) source.

(** The state of the three loops of [mergeAIMappingFields]: the merged
    array and the set of processed field paths. *)
Abbreviation MergeState := (list MappingField * gset string)%type.

Definition addAI (st : MergeState) (aiField : MappingField) : MergeState :=
(st.1 ++ [aiField], {[field aiField]} ∪ st.2).

Definition addExisting (st : MergeState) (f : MappingField) : MergeState :=
if decide (field f ∈ st.2) then st
else (st.1 ++ [f], {[field f]} ∪ st.2).

Definition addNewAI (st : MergeState) (aiField : MappingField) : MergeState :=
if decide (field aiField ∈ st.2) then st
else (st.1 ++ [aiField], st.2).

Definition mergeAIMappingFields (existing : list MappingField)
  (aiData : AIData) (source : string) : list MappingField :=
let aiFields := aiFieldsOf aiData source in
let st := fold_left addAI aiFields ([], ∅) in
let st := fold_left addExisting existing st in
let st := fold_left addNewAI aiFields st in
st.1.

(** ** The call to the completion service *)

Abbreviation Buffer := (list Byte.byte).

Inductive Part : Type :=
| InlineData (mimeType data : string)
| TextPart (text : string).

Record Request : Type := mkRequest {
  url : string;
  parts : list Part
}.

(** An HTTP response: [ok], the body read by [text()], and the text of
    the first candidate of the body read by [json()]
    ([data.candidates?.[0]?.content?.parts?.[0]?.text]).  Reading the
    body may fail. *)
Record Response : Type := mkResponse {
  ok : bool;
  text : Exc string;
  content : Exc (option string)
}.

Definition newline : ascii := ascii_of_nat 10.

(** [s.replace(/pat\n?/g, '')] for a literal [pat]: [skip] counts the
    characters of the current match still to be dropped. *)
Fixpoint remove_fence (pat : string) (skip : nat) (s : string) : string :=
match s with
| EmptyString => EmptyString
| String c r =>
    match skip with
    | S k => remove_fence pat k r
    | O =>
        if String.prefix pat s then
          let after := substring_from (String.length pat) s in
          let nl := match after with
                    | String d _ => if Ascii.eqb d newline then 1%nat else 0%nat
                    | EmptyString => 0%nat
                    end in
          remove_fence pat (String.length pat - 1 + nl) r
        else String c (remove_fence pat 0 r)
    end
end.

(** The unwrapping of a fenced answer before [JSON.parse]. *)
Definition stripFences (content : string) : string :=
let jsonText := trim content in
if startsWith "```json" jsonText then
  trim (remove_fence "```" 0 (remove_fence "```json" 0 jsonText))
else if startsWith "```" jsonText then
  trim (remove_fence "```" 0 jsonText)
else jsonText.

Definition mime_pdf : string := "application/pdf".
Definition mime_xlsx : string :=
"application/vnd.openxmlformats-officedocument.spreadsheetml.sheet".

(** The surroundings of the enhancer: the environment variable, the two
    text extractors, the HTTP client and the JSON parser.  [JSON_parse]
    yields [None] for a falsy value.  The prompt texts are fixed
    templates around their arguments; their wording plays no part. *)
Record World : Type := mkWorld {
  GEMINI_API_KEY : option string;
  pdfParse : Buffer → Exc string;
  xlsxToText : Buffer → Exc string;
  fetch : Request → Exc Response;
  JSON_parse : string → Exc (option AIData);
  base64 : Buffer → string;
  buildAIPrompt : InvoiceNormalized → list MappingField → string → string;
  pdfPrompt : string → string;
  excelSuffix : string → string;
  textOnlyPrompt : string → string → string;
  apiErrorMessage : string → string
}.

Definition geminiUrl (apiKey : string) : string :=
"https://generativelanguage.googleapis.com/v1beta/models/gemini-2.5-flash:generateContent?key="
  +:+ apiKey.

Section WithWorld.

Variable Date_parse : string → Date.
Variable w : World.

(** The retry of [callGeminiAPI] with the extracted text only; [None]
    when the retry gives nothing and the first failure stands. *)
Definition retryTextOnly (apiKey prompt extractedText : string)
  : Exc (option (option AIData)) :=
retryResponse ←
  fetch w (mkRequest (geminiUrl apiKey)
             [TextPart (textOnlyPrompt w extractedText prompt)]);
if ok retryResponse then
  retryContent ← content retryResponse;
  match retryContent with
  | Some c =>
      if negb (String.eqb c "")
      then (r ← JSON_parse w (stripFences c); mret (Some r))
      else mret None
  | None => mret None
  end
else mret None.

Definition callGeminiAPI (apiKey prompt extractedText mimeType : string)
  (buffer : Buffer) : Exc (option AIData) :=
let base64Data := base64 w buffer in
let parts :=
  if String.eqb mimeType mime_pdf
  then [InlineData mime_pdf base64Data] else [] in
let enhancedPrompt :=
  if String.eqb mimeType mime_pdf then pdfPrompt w prompt
  else prompt +:+ (if negb (String.eqb extractedText "")
                   then excelSuffix w extractedText else "") in
let parts := parts ++ [TextPart enhancedPrompt] in
response ← fetch w (mkRequest (geminiUrl apiKey) parts);
if negb (ok response) then
  errorText ← text response;
  retry ←
    (if String.eqb mimeType mime_pdf
        && match parts with InlineData _ _ :: _ => true | _ => false end
        && negb (String.eqb extractedText "")
     then retryTextOnly apiKey prompt extractedText
     else mret None);
  match retry with
  | Some r => mret r
  | None => Throw ("Gemini API error: " +:+ apiErrorMessage w errorText)
  end
else
  content ← content response;
  match content with
  | Some c =>
      if negb (String.eqb c "") then
        try_catch (JSON_parse w (stripFences c))
          (λ e, Throw ("Gemini returned invalid JSON response: " +:+ e))
      else Throw "Gemini returned empty response"
  | None => Throw "Gemini returned empty response"
  end.

(** The text handed to the prompt: a failing extractor leaves it empty. *)
Definition extractText (mimeType : string) (buffer : Buffer) : string :=
if String.eqb mimeType mime_pdf then
  match pdfParse w buffer with Return t => t | Throw _ => "" end
else if String.eqb mimeType mime_xlsx then
  match xlsxToText w buffer with Return t => t | Throw _ => "" end
else "".

Definition parseWithAI (buffer : Buffer) (filename mimeType : string)
  (existingInvoice : InvoiceNormalized)
  (existingMappingFields : list MappingField) : Exc AIResult :=
let geminiKey := trim <$> GEMINI_API_KEY w in
match geminiKey with
| Some key =>
    if String.eqb key "" then
      mret (mkAIResult existingInvoice existingMappingFields false)
    else
      try_catch
        (let extractedText := extractText mimeType buffer in
         let prompt :=
           buildAIPrompt w existingInvoice existingMappingFields
             extractedText in
         let aiProvider := "gemini" in
         aiResponse ←
           try_catch (callGeminiAPI key prompt extractedText mimeType buffer)
             (λ geminiError, Throw geminiError);
         match aiResponse with
         | None => Throw "Gemini API returned no response"
         | Some r =>
             let enhancedInvoice :=
               mergeAIResults Date_parse existingInvoice r in
             let enhancedMappingFields :=
               mergeAIMappingFields existingMappingFields r
                 ("ai-" +:+ aiProvider) in
             mret (mkAIResult enhancedInvoice enhancedMappingFields true)
         end)
        (λ _, mret (mkAIResult existingInvoice existingMappingFields false))
| None => mret (mkAIResult existingInvoice existingMappingFields false)
end.

End WithWorld.


End AI.

(* ================================================================== *)
(** * UBL mapping (src/mapping/toUbl.ts) *)
(* ================================================================== *)

Module ToUbl.
Import JS Model Normalize.

(** The object handed to the XML builder: strings, numbers, objects
    with their keys in insertion order, arrays. *)
#[warnings="-register-all"]
Inductive JV : Type :=
| JStr (s : string)
| JNum (n : Number)
| JObj (fields : list (string * JV))
| JArr (items : list JV).

(** [o[k] = v]: an existing key keeps its place, a new one goes last. *)
Fixpoint obj_set (k : string) (v : JV) (o : list (string * JV))
  : list (string * JV) :=
match o with
| [] => [(k, v)]
| (k', v') :: r =>
    if String.eqb k' k then (k, v) :: r else (k', v') :: obj_set k v r
end.

(** [o[k]] *)
Fixpoint obj_get (k : string) (o : list (string * JV)) : option JV :=
match o with
| [] => None
| (k', v') :: r => if String.eqb k' k then Some v' else obj_get k r
end.

(** [v[k]] on any value. *)
Definition get (k : string) (v : JV) : option JV :=
match v with
| JObj o => obj_get k o
| _ => None
end.

(** [o || d] for a string with a literal default. *)
Definition str_default (o : option string) (d : string) : string :=
match o with
| Some s => if negb (String.eqb s "") then s else d
| None => d
end.

(** An amount element: the currency attribute and the number. *)
Definition amount (currency : string) (v : Number) : JV :=
JObj [("@_currencyID", JStr currency); ("#", JNum v)].

Definition taxScheme : JV := JObj [("cbc:ID", JStr "VAT")].

Definition set_if (c : bool) (k : string) (v : JV)
  (o : list (string * JV)) : list (string * JV) :=
if c then obj_set k v o else o.

Definition buildParty (party : option Party) : JV :=
let addr := party ≫= address in
let ublParty : list (string * JV) := [] in
let ublParty :=
  obj_set "cac:PartyName"
    (JObj [("cbc:Name", JStr (str_default (party ≫= name) ""))]) ublParty in
let postal : list (string * JV) :=
  [("cac:Country",
    JObj [("cbc:IdentificationCode",
           JStr (str_default (addr ≫= countryCode) "BE"))])] in
let postal :=
  set_if (truthy_str (addr ≫= street)) "cbc:StreetName"
    (JStr (str_default (addr ≫= street) "")) postal in
let postal :=
  set_if (truthy_str (addr ≫= city)) "cbc:CityName"
    (JStr (str_default (addr ≫= city) "")) postal in
let postal :=
  set_if (truthy_str (addr ≫= postalCode)) "cbc:PostalZone"
    (JStr (str_default (addr ≫= postalCode) "")) postal in
let ublParty := obj_set "cac:PostalAddress" (JObj postal) ublParty in
let ublParty :=
  set_if (truthy_str (party ≫= vatNumber)) "cac:PartyTaxScheme"
    (JObj [("cbc:CompanyID", JStr (str_default (party ≫= vatNumber) ""));
           ("cac:TaxScheme", taxScheme)]) ublParty in
let ublParty :=
  set_if (truthy_str (party ≫= name)) "cac:PartyLegalEntity"
    (JObj (set_if (truthy_str (party ≫= kboNumber)) "cac:CompanyID"
             (JObj [("@_schemeID", JStr "BE:CBE");
                    ("#", JStr (str_default (party ≫= kboNumber) ""))])
             [("cbc:RegistrationName",
               JStr (str_default (party ≫= name) ""))]))
    ublParty in
JObj ublParty.

Definition taxCategory (id : string) (percent : Number) : JV :=
JObj [("cbc:ID", JStr id); ("cbc:Percent", JNum percent);
      ("cac:TaxScheme", taxScheme)].

Definition buildInvoiceLine (line : InvoiceLine) (lineNumber : nat)
  (currency : string) : JV :=
let quantity := num_or (quantity line) (num 1) in
let unitPrice := num_or (unitPrice line) 0 in
let lineTotal :=
  num_or (lineTotal line) (roundTo2Decimals (quantity * unitPrice)) in
let vatRate := num_or (vatRate line) 0 in
let vatAmount := roundTo2Decimals (lineTotal * vatRate / num 100) in
JObj [
  ("cbc:ID", JStr (String_of_nat lineNumber));
  ("cbc:InvoicedQuantity",
   JObj [("@_unitCode", JStr (str_default (unitOfMeasure line) "C62"));
         ("#", JNum quantity)]);
  ("cbc:LineExtensionAmount", amount currency lineTotal);
  ("cac:Item",
   JObj [("cbc:Description", JStr (str_default (description line) "Item"))]);
  ("cac:Price", JObj [("cbc:PriceAmount", amount currency unitPrice)]);
  ("cac:TaxTotal",
   JObj [("cbc:TaxAmount", amount currency vatAmount);
         ("cac:TaxSubtotal",
          JObj [("cbc:TaxableAmount", amount currency lineTotal);
                ("cbc:TaxAmount", amount currency vatAmount);
                ("cac:TaxCategory",
                 taxCategory (str_default (vatCategory line) "S") vatRate)])])
].

(** The [Map] from VAT rate to the sums of its group, in insertion
    order. *)
Definition VatGroups : Type := list (Number * (Number * Number)).

Fixpoint group_add (rate taxable tax : Number) (g : VatGroups) : VatGroups :=
match g with
| [] => [(rate, (taxable, tax))]
| (r, (a, b)) :: rest =>
    if decide (r = rate) then (r, (a + taxable, b + tax)) :: rest
    else (r, (a, b)) :: group_add rate taxable tax rest
end.

Definition vatGroupsOf (ls : list InvoiceLine) : VatGroups :=
fold_left
  (λ g line,
     match vatRate line, lineTotal line with
     | Some rate, Some taxable =>
         group_add rate taxable (roundTo2Decimals (taxable * rate / num 100)) g
     | _, _ => g
     end)
  ls [].

Definition taxTotalBlock (currency : string)
  (taxAmount taxable percent : Number) : JV :=
JObj [("cbc:TaxAmount", amount currency taxAmount);
      ("cac:TaxSubtotal",
       JObj [("cbc:TaxableAmount", amount currency taxable);
             ("cbc:TaxAmount", amount currency taxAmount);
             ("cac:TaxCategory", taxCategory "S" percent)])].

Definition buildTaxTotals {P : Type} (invoice : Invoice_ P)
  (currency : string) : list JV :=
let vatGroups := vatGroupsOf (lines invoice) in
let taxTotals :=
  (λ '(rate, (taxable, tax)),
     taxTotalBlock currency (roundTo2Decimals tax)
       (roundTo2Decimals taxable) rate) <$> vatGroups in
if Nat.eqb (length taxTotals) 0 && truthy_num (vatTotal invoice)
then taxTotals
     ++ [taxTotalBlock currency (num_or (vatTotal invoice) 0)
           (num_or (subtotalExclVat invoice) 0) 0]
else taxTotals.

(** The element emitted when [buildTaxTotals] returns nothing. *)
Definition zeroTaxTotal (currency : string) : JV :=
JObj [("cbc:TaxAmount", amount currency 0)].

Definition buildLegalMonetaryTotal {P : Type} (invoice : Invoice_ P)
  (currency : string) : JV :=
let nonempty := Nat.ltb 0 (length (lines invoice)) in
let subtotal :=
  match subtotalExclVat invoice with
  | None => if nonempty then Some (sumLineTotals (lines invoice)) else None
  | s => s
  end in
let vatTotal :=
  match vatTotal invoice with
  | None =>
      if nonempty then Some (Rules.sumRoundedLineVat (lines invoice))
      else None
  | v => v
  end in
let subtotal := num_or subtotal 0 in
let vatTotal := num_or vatTotal 0 in
let total :=
  num_or (totalInclVat invoice) (roundTo2Decimals (subtotal + vatTotal)) in
JObj [
  ("cbc:LineExtensionAmount", amount currency (roundTo2Decimals subtotal));
  ("cbc:TaxExclusiveAmount", amount currency (roundTo2Decimals subtotal));
  ("cbc:TaxInclusiveAmount", amount currency (roundTo2Decimals total));
  ("cbc:PayableAmount", amount currency (roundTo2Decimals total))
].

Definition Z_toString (z : Z) : string :=
NilZero.string_of_int (Z.to_int z).

(** [s.padStart(2, '0')] *)
Definition padStart2 (s : string) : string :=
match String.length s with
| 0%nat => "00"
| 1%nat => "0" +:+ s
| _ => s
end.

Section WithPlatform.

(** The clock and the local calendar of the platform: [new Date()] and
    the three accessors on a valid time value. *)
Variable now : Date.
Variable getFullYear getMonth getDate : Z → Z.

(** [formatDateForUBL] (src/mapping/normalize.ts); on the invalid date
    the three accessors give NaN. *)
Definition formatDateForUBL (date : Date) : string :=
match date with
| Some t =>
    Z_toString (getFullYear t) +:+ "-"
    +:+ padStart2 (Z_toString (getMonth t + 1)) +:+ "-"
    +:+ padStart2 (Z_toString (getDate t))
| None => "NaN-NaN-NaN"
end.

(** [formatDateForUBL] applied to a date field: a value that is not a
    [Date] has no [getFullYear]. *)
Definition formatDateField (d : DateField) : Exc string :=
match d with
| DateObj date => mret (formatDateForUBL date)
| DateStr _ => Throw "date.getFullYear is not a function"
end.

(** [convertToUBL] up to the object given to the XML builder. *)
Definition convertToUBL (invoice : InvoiceNormalized) : Exc JV :=
let currency := str_default (currency invoice) "EUR" in
(* safeInvoice *)
let safeNumber := str_default (invoiceNumber invoice) "UNKNOWN" in
let safeIssueDate :=
  if truthy_date (issueDate invoice)
  then default (DateObj now) (issueDate invoice) else DateObj now in
let safeLines := lines invoice in
let safeSupplier :=
  match supplier invoice with
  | Some p => p
  | None =>
      mkParty (Some "")
        (Some (mkAddress None None None (Some "BE") None)) None None None
  end in
let safeCustomer :=
  match customer invoice with
  | Some p => p
  | None => mkParty (Some "") None None None None
  end in
issueText ← formatDateField safeIssueDate;
let ublInvoice : list (string * JV) := [
  ("cbc:CustomizationID",
   JStr "urn:cen.eu:en16931:2017#compliant#urn:fdc:peppol.eu:2017:poacc:billing:3.0");
  ("cbc:ProfileID", JStr "urn:fdc:peppol.eu:2017:poacc:billing:01:1.0");
  ("cbc:ID", JStr safeNumber);
  ("cbc:IssueDate", JStr issueText);
  ("cbc:DocumentCurrencyCode", JStr currency);
  ("cbc:InvoiceTypeCode",
   JObj [("@_listID", JStr "UN/ECE 1001"); ("#", JStr "380")]);
  ("cac:AccountingSupplierParty", JObj []);
  ("cac:AccountingCustomerParty", JObj []);
  ("cac:TaxTotal", JArr []);
  ("cac:LegalMonetaryTotal", JObj []);
  ("cac:InvoiceLine", JArr [])
] in
ublInvoice ←
  (if truthy_date (dueDate invoice) then
     dueText ← formatDateField (default (DateObj now) (dueDate invoice));
     mret (obj_set "cbc:DueDate" (JStr dueText) ublInvoice)
   else mret ublInvoice);
let ublInvoice :=
  obj_set "cac:AccountingSupplierParty"
    (JObj [("cac:Party", buildParty (Some safeSupplier))]) ublInvoice in
let ublInvoice :=
  obj_set "cac:AccountingCustomerParty"
    (JObj [("cac:Party", buildParty (Some safeCustomer))]) ublInvoice in
let invoiceLines :=
  imap (λ index line, buildInvoiceLine line (index + 1) currency) safeLines in
let ublInvoice := obj_set "cac:InvoiceLine" (JArr invoiceLines) ublInvoice in
let taxTotals := buildTaxTotals invoice currency in
let ublInvoice :=
  obj_set "cac:TaxTotal"
    (JArr (if Nat.ltb 0 (length taxTotals) then taxTotals
           else [zeroTaxTotal currency]))
    ublInvoice in
let ublInvoice :=
  obj_set "cac:LegalMonetaryTotal"
    (buildLegalMonetaryTotal invoice currency) ublInvoice in
mret (JObj [
  ("Invoice",
   JObj ([("@xmlns",
           JStr "urn:oasis:names:specification:ubl:schema:xsd:Invoice-2");
          ("@xmlns:cac",
           JStr "urn:oasis:names:specification:ubl:schema:xsd:CommonAggregateComponents-2");
          ("@xmlns:cbc",
           JStr "urn:oasis:names:specification:ubl:schema:xsd:CommonBasicComponents-2")]
         ++ ublInvoice))
]).

End WithPlatform.

(** A date field [formatDateForUBL] is never applied to, or can format:
    absent, a [Date] object, or the empty string. *)
Definition date_ok (d : option DateField) : bool :=
match d with
| Some (DateStr s) => String.eqb s ""
| _ => true
end.

(** Reading the document: the children of the root, and the amount
    carried by an amount element. *)
Definition invoiceElement (doc : JV) (k : string) : option JV :=
get "Invoice" doc ≫= get k.

Definition amountValue (v : JV) : option Number :=
match get "#" v with
| Some (JNum n) => Some n
| _ => None
end.

(** The four amounts of [LegalMonetaryTotal], in document order. *)
Definition legalMonetaryAmounts (doc : JV) : list (option Number) :=
(λ k, (invoiceElement doc "cac:LegalMonetaryTotal" ≫= get k) ≫= amountValue)
<$> ["cbc:LineExtensionAmount"; "cbc:TaxExclusiveAmount";
     "cbc:TaxInclusiveAmount"; "cbc:PayableAmount"].

(** The tax amount of a tax-total block. *)
Definition taxAmountOf (block : JV) : option Number :=
get "cbc:TaxAmount" block ≫= amountValue.

(** The party element emitted for a party without data: an empty name
    and the default country. *)
Definition emptyPartyElement : JV :=
JObj [("cac:Party",
       JObj [("cac:PartyName", JObj [("cbc:Name", JStr "")]);
             ("cac:PostalAddress",
              JObj [("cac:Country",
                     JObj [("cbc:IdentificationCode", JStr "BE")])])])].

End ToUbl.

(* ================================================================== *)
(** * Reference definitions taken from the specification *)
(* ================================================================== *)

Module Spec.
Import JS.


End Spec.

(* ================================================================== *)
(** * Concrete inputs *)
(* ================================================================== *)

Module Examples.
Import JS Model.

(** The line of the specification's rounding example: quantity 3, unit
    price 19.995, no line total. *)
Definition exampleLine : InvoiceLine :=
mkLine None (Some (num 3)) (Some (num 19.995)) None None None None None None.

(** An invoice whose supplier is the party object at location 0 of the
    store, with a VAT number in lower case and with spaces. *)
Definition sharedSupplier : Party :=
mkParty (Some "Acme") None (Some "be 0123 456 789") None None.

Definition storeBefore : Store := {[ 0%nat := sharedSupplier ]}.

Definition invoiceWithSupplier : Invoice_ loc :=
mkInvoice (Some "INV-1") None None (Some "EUR") (Some 0%nat) None None None
  None [] None None None None None None.

(** A platform for the closed examples: a date parser that rejects
    every string, and a clock at the epoch. *)
Definition noDateParser : string → Date := λ _, None.
Definition epoch : Date := Some 0%Z.



(** The invoice of the specification's end-to-end scenario: one line
    "Consulting 10 100.00 21% 1000.00" and the totals 1000, 210, 1210. *)
Definition consultingLine : InvoiceLine :=
mkLine (Some "Consulting") (Some (num 10)) (Some (num 100)) (Some "C62")
  (Some (num 21)) (Some "S") (Some (num 1000)) None None.

Definition consultingInvoice : InvoiceNormalized :=
mkInvoice (Some "INV-2024-001") None None (Some "EUR") None None None None
  None [consultingLine]
  (Some (num 1000)) (Some (num 210)) (Some (num 1210)) None None None.

(** Four lines of 12.50 at 1% VAT, no totals stated. *)
Definition smallVatLine : InvoiceLine :=
mkLine (Some "Part") (Some (num 1)) (Some (num 12.5)) (Some "C62")
  (Some (num 1)) (Some "S") (Some (num 12.5)) None None.

Definition smallVatInvoice : Invoice_ loc :=
mkInvoice (Some "INV-4") None None (Some "EUR") None None None None None
  [smallVatLine; smallVatLine; smallVatLine; smallVatLine]
  None None None None None None.

(** One line of 100 without a VAT rate, a stated VAT total of 21. *)
Definition zeroVatInvoice : InvoiceNormalized :=
mkInvoice (Some "INV-5") None None (Some "EUR") None None None None None
  [mkLine (Some "Item") (Some (num 1)) (Some (num 100)) None None None
     (Some (num 100)) None None]
  (Some (num 100)) (Some (num 21)) (Some (num 121)) None None None.

(** The candidate of the specification's merge example: invoice number
    OLD-1, found by the first pass with confidence 0.6. *)
Definition candidateInvoice : InvoiceNormalized :=
mkInvoice (Some "OLD-1") None None None None None None None None []
  None None None (Some pdf) None None.

Definition candidateFields : list MappingField :=
[mkField "invoiceNumber" (VString "OLD-1") "pdf-text" (num 0.6)
   (Some "OLD-1")].

(** An answer with nothing in it. *)
Definition aiNothing : AI.AIData :=
AI.mkAIData None None None None None None None None None None None None.

(** The answer [{ invoiceNumber: "NEW-2" }]. *)
Definition aiNewNumber : AI.AIData :=
AI.mkAIData (Some "NEW-2") None None None None None None None None None
  None None.


(** A world with a credential, in which the PDF text extractor fails
    and the completion service answers [{ invoiceNumber: "NEW-2" }]. *)
Definition pdfTextFails : AI.World :=
AI.mkWorld (Some "key")
  (λ _, Throw "bad XRef entry") (λ _, Return "")
  (λ _, Return (AI.mkResponse true (Return "")
                  (Return (Some "{ invoiceNumber: NEW-2 }"))))
  (λ _, Return (Some aiNewNumber))
  (λ _, "") (λ _ _ _, "") (λ s, s) (λ s, s) (λ _ s, s) (λ s, s).

(** A world without the credential. *)
Definition noCredential : AI.World :=
AI.mkWorld None (λ _, Return "") (λ _, Return "")
  (λ _, Throw "unreachable") (λ _, Throw "unreachable")
  (λ _, "") (λ _ _ _, "") (λ s, s) (λ s, s) (λ _ s, s) (λ s, s).

(** A calendar for the closed examples: every instant is 1 January
    1970. *)
Definition year1970 : Z → Z := λ _, 1970%Z.
Definition january : Z → Z := λ _, 0%Z.
Definition firstDay : Z → Z := λ _, 1%Z.

End Examples.

(* ================================================================== *)
(** * Data quality (src/unnamed/part_008, first half) *)
(* ================================================================== *)

Module DataQuality.
Import JS Model Rules.

(** [x < y] on numbers, as a boolean. *)
Definition lt (x y : Number) : bool := bool_decide (x < y).

(** [x >= y] on numbers, as a boolean. *)
Definition ge (x y : Number) : bool := bool_decide (y ≤ x).

(** [s.includes(sub)] *)
Fixpoint includes (sub s : string) : bool :=
String.prefix sub s
|| match s with
   | EmptyString => false
   | String _ r => includes sub r
   end.

(** [mappingFields.find((m) => m.field === field)] *)
Definition findField (mappingFields : list MappingField) (fld : string)
  : option MappingField :=
List.find (λ m, String.eqb (field m) fld) mappingFields.

(** The critical fields with the path reported and the confidence
    below which a warning is raised. *)
Definition criticalFields : list (string * string * Number) :=
[("invoiceNumber", "Invoice.ID", num 0.5);
 ("issueDate", "Invoice.IssueDate", num 0.6);
 ("supplier.name", "Invoice.AccountingSupplierParty.Party.PartyName.Name",
  num 0.5);
 ("customer.name", "Invoice.AccountingCustomerParty.Party.PartyName.Name",
  num 0.5)].

Definition confidenceFindings (mappingFields : list MappingField)
  : list ValidationError :=
concat
  ((λ '(fld, path, minConfidence),
      match findField mappingFields fld with
      | Some mapping =>
          finding (lt (confidence mapping) minConfidence)
            "WARN_LOW_CONFIDENCE" warning path
      | None => []
      end) <$> criticalFields).

Definition invoiceNumberFindings (invoice : InvoiceNormalized)
  : list ValidationError :=
match invoiceNumber invoice with
| Some n =>
    if negb (String.eqb n "") then
      let normalized := toUpperCase (trim n) in
      finding (String.eqb normalized "UNKNOWN" || String.eqb normalized "N/A"
               || String.eqb normalized "NULL"
               || Nat.ltb (String.length normalized) 3)
        "WARN_SUSPICIOUS_INVOICE_NUMBER" warning "Invoice.ID"
    else []
| None => []
end.

(** The checks made on one line: signs, size, a zero total, the range
    and the format of the VAT rate. *)
Definition lineQuality (index : nat) (line : InvoiceLine)
  : list ValidationError :=
let linePath := "InvoiceLine[" +:+ String_of_nat index +:+ "]" in
(match quantity line with
 | Some q =>
     finding (lt q 0) "ERR_NEGATIVE_QUANTITY" error
       (linePath +:+ ".InvoicedQuantity")
 | None => []
 end)
++ (match unitPrice line with
    | Some p =>
        finding (lt p 0) "ERR_NEGATIVE_PRICE" error
          (linePath +:+ ".Price.PriceAmount")
    | None => []
    end)
++ (match lineTotal line with
    | Some t =>
        finding (lt t 0) "ERR_NEGATIVE_LINE_TOTAL" error
          (linePath +:+ ".LineExtensionAmount")
    | None => []
    end)
++ (let maxReasonableAmount := num 10000000 in
    match lineTotal line with
    | Some t =>
        finding (gt t maxReasonableAmount) "WARN_SUSPICIOUSLY_LARGE_AMOUNT"
          warning (linePath +:+ ".LineExtensionAmount")
    | None => []
    end)
++ (match lineTotal line, quantity line, unitPrice line with
    | Some t, Some q, Some p =>
        finding (bool_decide (t = 0) && gt q 0 && gt p 0)
          "WARN_ZERO_LINE_TOTAL" warning (linePath +:+ ".LineExtensionAmount")
    | _, _, _ => []
    end)
++ (match vatRate line with
    | Some r =>
        if lt r 0 || gt r (num 100) then
          [mkError "ERR_INVALID_VAT_RATE" error
             (Some (linePath +:+ ".TaxCategory.Percent"))]
        else
          finding (gt r 0 && lt r 1) "WARN_VAT_RATE_FORMAT" warning
            (linePath +:+ ".TaxCategory.Percent")
    | None => []
    end).

Definition totalQuality (invoice : InvoiceNormalized)
  : list ValidationError :=
match totalInclVat invoice with
| Some t =>
    finding (lt t 0) "ERR_NEGATIVE_TOTAL" error
      "Invoice.LegalMonetaryTotal.TaxInclusiveAmount"
    ++ (let maxReasonableTotal := num 100000000 in
        finding (gt t maxReasonableTotal) "WARN_SUSPICIOUSLY_LARGE_TOTAL"
          warning "Invoice.LegalMonetaryTotal.TaxInclusiveAmount")
| None => []
end.

Definition suspiciousNames : list string :=
["UNKNOWN"; "N/A"; "NULL"; "TBD"; "TO BE DETERMINED"; "EXAMPLE"; "TEST"].

Definition nameQuality (p : option Party) (c path : string)
  : list ValidationError :=
match name_of p with
| Some n =>
    if negb (String.eqb n "") then
      let nm := trim n in
      finding (existsb (λ s, includes s (toUpperCase nm)) suspiciousNames
               || Nat.ltb (String.length nm) 2)
        c warning path
    else []
| None => []
end.

Definition validCountryCodes : list string :=
["BE"; "NL"; "DE"; "FR"; "GB"; "IT"; "ES"; "AT"; "DK"; "SE"; "NO"; "FI";
 "PL"; "CZ"; "HU"; "RO"; "BG"; "HR"; "SI"; "SK"; "EE"; "LV"; "LT"; "IE";
 "PT"; "GR"; "LU"; "MT"; "CY"].

Definition countryQuality (p : option Party) (path : string)
  : list ValidationError :=
match countryCode_of p with
| Some c =>
    if negb (String.eqb c "") then
      let countryCode := toUpperCase (trim c) in
      finding (negb (existsb (String.eqb countryCode) validCountryCodes))
        "WARN_INVALID_COUNTRY_CODE" warning path
    else []
| None => []
end.

(** [lines.filter((line) => line.confidence !== undefined &&
    line.confidence < 0.4)] *)
Definition lowConfidenceLines (ls : list InvoiceLine) : list InvoiceLine :=
List.filter
  (λ line,
     match line_confidence line with
     | Some c => lt c (num 0.4)
     | None => false
     end) ls.

Section WithPlatform.

(** [new Date(s)], the time value of [new Date()], the three local
    calendar accessors and [new Date(year, month, day)]. *)
Variable Date_parse : string → Date.
Variable now : Z.
Variable getFullYear getMonth getDate : Z → Z.
Variable Date_of : Z → Z → Z → Date.

Definition dateQuality (invoice : InvoiceNormalized)
  : list ValidationError :=
if truthy_date (issueDate invoice) then
  let issueDate' :=
    match issueDate invoice with
    | Some (DateObj d) => d
    | Some (DateStr s) => Date_parse s
    | None => None
    end in
  if negb (Date_isNaN issueDate') then
    let fiveYearsAgo :=
      Date_of (getFullYear now - 5) (getMonth now) (getDate now) in
    let oneYearFuture :=
      Date_of (getFullYear now + 1) (getMonth now) (getDate now) in
    finding (Date_gt fiveYearsAgo issueDate') "WARN_VERY_OLD_DATE" warning
      "Invoice.IssueDate"
    ++ finding (Date_gt issueDate' oneYearFuture) "WARN_FAR_FUTURE_DATE"
         warning "Invoice.IssueDate"
  else []
else [].

(** [validateDataQuality]: the findings in the order they are pushed. *)
Definition validateDataQuality (invoice : InvoiceNormalized)
  (mappingFields : list MappingField) : list ValidationError :=
confidenceFindings mappingFields
++ invoiceNumberFindings invoice
++ dateQuality invoice
++ (if Nat.ltb 0 (length (lines invoice))
    then concat (imap lineQuality (lines invoice)) else [])
++ totalQuality invoice
++ nameQuality (supplier invoice) "WARN_SUSPICIOUS_SUPPLIER_NAME"
     "Invoice.AccountingSupplierParty.Party.PartyName.Name"
++ nameQuality (customer invoice) "WARN_SUSPICIOUS_CUSTOMER_NAME"
     "Invoice.AccountingCustomerParty.Party.PartyName.Name"
++ countryQuality (supplier invoice)
     "Invoice.AccountingSupplierParty.Party.PostalAddress.Country.IdentificationCode"
++ countryQuality (customer invoice)
     "Invoice.AccountingCustomerParty.Party.PostalAddress.Country.IdentificationCode"
++ (if Nat.ltb 0 (length (lines invoice)) then
      finding (Nat.ltb 0 (length (lowConfidenceLines (lines invoice))))
        "WARN_LOW_CONFIDENCE_LINES" warning "Invoice.InvoiceLine"
    else []).

End WithPlatform.

(** ** The quality score *)

Inductive Level : Type := excellent | good | fair | poor.

Record DataQualityScore : Type := mkScore {
  score : Number;
  level : Level;
  issues : list string
}.

(** [fieldNames[field] || field], at the keys of the table. *)
Definition getFieldName (fld : string) : string :=
if String.eqb fld "invoiceNumber" then "factuurnummer"
else if String.eqb fld "issueDate" then "factuurdatum"
else if String.eqb fld "supplier.name" then "leveranciersnaam"
else if String.eqb fld "customer.name" then "klantnaam"
else fld.

Definition Math_max (a b : Number) : Number := if decide (a < b) then b else a.
Definition Math_min (a b : Number) : Number := if decide (b < a) then b else a.

Definition Qc_of_nat (n : nat) : Number := Qc_of_Z (Z.of_nat n).

(** The body of the loop over the critical fields: the running score
    and the issues collected so far. *)
Definition scoreField (mappingFields : list MappingField)
  (st : Number * list string) (fld : string) : Number * list string :=
match findField mappingFields fld with
| Some mapping =>
    if lt (confidence mapping) (num 0.5) then
      (st.1 - num 0.15,
       st.2 ++ ["Lage betrouwbaarheid voor " +:+ getFieldName fld])
    else if lt (confidence mapping) (num 0.7) then (st.1 - num 0.05, st.2)
    else st
| None => (st.1 - num 0.1, st.2 ++ ["Ontbrekend veld: " +:+ getFieldName fld])
end.

Definition levelOf (sc : Number) : Level :=
if ge sc (num 0.9) then excellent
else if ge sc (num 0.7) then good
else if ge sc (num 0.5) then fair
else poor.

Definition calculateDataQualityScore (invoice : InvoiceNormalized)
  (mappingFields : list MappingField)
  (validationErrors : list ValidationError) : DataQualityScore :=
let st :=
  fold_left (scoreField mappingFields)
    ["invoiceNumber"; "issueDate"; "supplier.name"; "customer.name"]
    (1, []) in
let errorCount := length (List.filter (has_severity error) validationErrors) in
let warningCount :=
  length (List.filter (has_severity warning) validationErrors) in
let sc := st.1 - Qc_of_nat errorCount * num 0.1 in
let sc := sc - Qc_of_nat warningCount * num 0.02 in
let st :=
  match invoiceNumber invoice with
  | Some n =>
      if negb (String.eqb n "")
         && (String.eqb (toUpperCase n) "UNKNOWN"
             || Nat.ltb (String.length n) 3)
      then (sc - num 0.1, st.2 ++ ["Verdacht factuurnummer"])
      else (sc, st.2)
  | None => (sc, st.2)
  end in
let sc := Math_max 0 (Math_min 1 st.1) in
mkScore sc (levelOf sc) st.2.

End DataQuality.

(* ================================================================== *)
(** * The two request handlers (src/unnamed/part_001, part_003) *)
(* ================================================================== *)

Module Handler.
Import JS Model Normalize Rules ToUbl.

(** The invoice handed to [normalizeInvoice] is not read again by its
    caller, so the call is taken on values: the parties are placed in a
    store of their own, the supplier at location 0 and the customer at
    location 1, and the result is read back. *)
Definition alloc (x : InvoiceNormalized) : Store * Invoice_ loc :=
let h : Store := ∅ in
let h := match supplier x with Some p => <[0%nat := p]> h | None => h end in
let h := match customer x with Some p => <[1%nat := p]> h | None => h end in
(h,
 mkInvoice (invoiceNumber x) (issueDate x) (dueDate x) (currency x)
   (supplier x ≫= λ _, Some 0%nat) (customer x ≫= λ _, Some 1%nat)
   (paymentReference x) (iban x) (bic x) (lines x)
   (subtotalExclVat x) (vatTotal x) (totalInclVat x)
   (sourceType x) (sourceFile x) (extractionConfidence x)).

Definition normalizeValue (Date_parse : string → Date)
  (x : InvoiceNormalized) : InvoiceNormalized :=
let r := normalizeInvoice Date_parse (alloc x).1 (alloc x).2 in
deref r.1 r.2.

(** [findMissingRequiredFields]; the invoice is not looked at. *)
Definition findMissingRequiredFields (invoice : InvoiceNormalized)
  (validationReport : ValidationReport) : list string :=
fold_left
  (λ missing e,
     if startsWith "WARN_MISSING_" (code e)
        || startsWith "ERR_MISSING_" (code e)
     then missing ++ [str_default (fieldPath e) (code e)]
     else missing)
  (errors validationReport ++ warnings validationReport) [].

(** [s.split('\n')] and [l.join('\n')] *)
Fixpoint split_nl (s : string) : list string :=
match s with
| EmptyString => [EmptyString]
| String c r =>
    if Ascii.eqb c AI.newline then EmptyString :: split_nl r
    else
      match split_nl r with
      | l :: ls => String c l :: ls
      | [] => [String c EmptyString]
      end
end.

Fixpoint join_nl (l : list string) : string :=
match l with
| [] => EmptyString
| [x] => x
| x :: rest => x +:+ String AI.newline (join_nl rest)
end.

(** The preview kept for an anonymous user: the first 50 lines. *)
Definition previewOf (ublXml : string) : string :=
let xmlLines := split_nl ublXml in
join_nl (take 50 xmlLines)
+:+ (if Nat.ltb 50 (length xmlLines)
     then String AI.newline "<!-- ... truncated ... -->" else "").




Section WithPlatform.

(** The platform: the date parser, the surroundings of the enhancer, the
    XML builder ([create(obj).end(...)]), the clock as read by the
    serializer, by the business rules and by the data-quality check, and
    the local calendar. *)
Variable Date_parse : string → Date.
Variable w : AI.World.
Variable render : JV → Exc string.
Variable nowUbl nowRules : Date.
Variable nowQuality : Z.
Variable getFullYear getMonth getDate : Z → Z.
Variable Date_of : Z → Z → Z → Date.



End WithPlatform.

End Handler.

(** Reading the order of a document. *)
Module Shape.
Import JS Model ToUbl.

(** The names of the children of an element, in document order. *)
Definition childKeys (v : JV) : list string :=
match v with
| JObj fs => fs.*1
| _ => []
end.

(** The names of the children of the root element. *)
Definition invoiceKeys (doc : JV) : list string :=
from_option childKeys [] (get "Invoice" doc).

End Shape.

(** Further inputs for closed examples. *)
Module MoreExamples.
Import JS Model.

(** One line, quantity 3 at 19.995, which states no line total; the
    invoice states no totals. *)
Definition derivedLineInvoice : Invoice_ loc :=
mkInvoice (Some "INV-6") None None (Some "EUR") None None None None None
  [Examples.exampleLine] None None None None None None.

(** An issue date that is a string no parser reads. *)
Definition soonInvoice : Invoice_ loc :=
mkInvoice (Some "INV-7") (Some (DateStr "soon")) None (Some "EUR") None None
  None None None [] None None None None None None.

(** Mapping entries for the four critical fields, each with confidence
    0.9. *)
Definition confidentFields : list MappingField :=
[mkField "invoiceNumber" (VString "INV-2024-001") "pdf-text" (num 0.9) None;
 mkField "issueDate" (VString "2024-01-15") "pdf-text" (num 0.9) None;
 mkField "supplier.name" (VString "Acme") "pdf-text" (num 0.9) None;
 mkField "customer.name" (VString "Client") "pdf-text" (num 0.9) None].

End MoreExamples.

(* ================================================================== *)
(** * Properties *)
(* ================================================================== *)

Import JS Model.

(** From canonical rationals to [Q], where [lra] decides linear goals. *)
Ltac qc2q :=
  unfold Qcle, Qclt, Qcplus, Qcminus, Qcopp, Qcmult, Qcdiv, Qcinv, num,
    Qc_of_Z in *;
  simpl this in *; rewrite ?Qred_correct in *;
  change (inject_Z 1) with 1%Q in *;
  change (/ 100)%Q with (1 # 100)%Q in *.

(** ** Rounding *)

Section Rounding.
Import Normalize.

Lemma Math_round_spec (x : Number) :
  Qc_of_Z (Math_round x) ≤ x + num 0.5
  ∧ x + num 0.5 < Qc_of_Z (Math_round x) + 1.
Proof.
  unfold Math_round.
  pose proof (Qfloor_le (this (x + num 0.5))) as Hlo.
  pose proof (Qlt_floor (this (x + num 0.5))) as Hhi.
  set (k := Qfloor _) in *. clearbody k.
  rewrite inject_Z_plus in Hhi. qc2q. split; lra.
Qed.

Lemma Qc_of_Z_lt_succ (a b : Z) : Qc_of_Z a < Qc_of_Z b + 1 → (a ≤ b)%Z.
Proof.
  intros H. apply Z.lt_succ_r. unfold Z.succ.
  rewrite Zlt_Qlt, inject_Z_plus. qc2q. lra.
Qed.

Lemma Qc_of_Z_le (a b : Z) : (a ≤ b)%Z → Qc_of_Z a ≤ Qc_of_Z b.
Proof. intros H. rewrite Zle_Qle in H. qc2q. lra. Qed.

(** An integer [k] with [k ≤ x + 1/2 < k + 1] is the rounding of [x]. *)
Lemma Math_round_unique (x : Number) (k : Z) :
  Qc_of_Z k ≤ x + num 0.5 → x + num 0.5 < Qc_of_Z k + 1 → Math_round x = k.
Proof.
  intros Hlo Hhi. destruct (Math_round_spec x) as [Hlo' Hhi'].
  revert Hlo' Hhi'. generalize (Math_round x). intros j Hlo' Hhi'.
  apply Z.le_antisymm; apply Qc_of_Z_lt_succ; qc2q; lra.
Qed.


Lemma Math_round_of_Z (k : Z) : Math_round (Qc_of_Z k) = k.
Proof. apply Math_round_unique; qc2q; lra. Qed.


Lemma cents_times_100 (k : Z) : Qc_of_Z k / num 100 * num 100 = Qc_of_Z k.
Proof. apply Qc_is_canon. qc2q. field. Qed.

(** A whole number of cents is left as it is. *)
Lemma roundTo2Decimals_cents (k : Z) :
  roundTo2Decimals (Qc_of_Z k / num 100) = Qc_of_Z k / num 100.
Proof.
  unfold roundTo2Decimals. by rewrite cents_times_100, Math_round_of_Z.
Qed.

Lemma roundTo2Decimals_idem (v : Number) :
  roundTo2Decimals (roundTo2Decimals v) = roundTo2Decimals v.
Proof. unfold roundTo2Decimals at 2 3. apply roundTo2Decimals_cents. Qed.




Lemma gt_true (x y : Number) : gt x y = true ↔ y < x.
Proof. unfold gt. by rewrite bool_decide_eq_true. Qed.




End Rounding.

(** ** Canonical forms of strings *)

Section Strings.
Import Normalize.

Ltac each_char c := destruct c as [[] [] [] [] [] [] [] []]; reflexivity.

Lemma upper_char_idem (c : ascii) : upper_char (upper_char c) = upper_char c.
Proof. each_char c. Qed.

Lemma is_whitespace_upper (c : ascii) :
  is_whitespace (upper_char c) = is_whitespace c.
Proof. each_char c. Qed.

Lemma toUpperCase_idem (s : string) :
  toUpperCase (toUpperCase s) = toUpperCase s.
Proof.
  induction s as [|c s IH]; simpl; [done|]. by rewrite upper_char_idem, IH.
Qed.


Lemma remove_whitespace_idem (s : string) :
  remove_whitespace (remove_whitespace s) = remove_whitespace s.
Proof.
  induction s as [|c s IH]; simpl; [done|].
  destruct (is_whitespace c) eqn:Hc; simpl; [done|]. by rewrite Hc, IH.
Qed.

Lemma remove_whitespace_upper (s : string) :
  remove_whitespace (toUpperCase s) = toUpperCase (remove_whitespace s).
Proof.
  induction s as [|c s IH]; simpl; [done|].
  rewrite is_whitespace_upper. destruct (is_whitespace c); simpl; by rewrite IH.
Qed.

(** Stripping whitespace and upper-casing, the canonical form shared by
    VAT numbers and IBANs, is idempotent. *)
Lemma canonical_idem (s : string) :
  toUpperCase (remove_whitespace (toUpperCase (remove_whitespace s)))
  = toUpperCase (remove_whitespace s).
Proof.
  by rewrite remove_whitespace_upper, remove_whitespace_idem, toUpperCase_idem.
Qed.

Lemma canonical_prefixed (a b : ascii) (n : string) :
  is_whitespace a = false → is_whitespace b = false →
  upper_char a = a → upper_char b = b →
  toUpperCase (remove_whitespace n) = n →
  toUpperCase (remove_whitespace (String a (String b n)))
  = String a (String b n).
Proof.
  intros Ha Hb Ua Ub Hn. cbn [remove_whitespace]. rewrite Ha, Hb.
  cbn [toUpperCase]. by rewrite Ua, Ub, Hn.
Qed.



End Strings.

(** ** The normalizer *)

(** Reduction of the projections and field updates of an invoice. *)
Ltac fields :=
  cbn [invoiceNumber issueDate dueDate currency supplier customer
       paymentReference iban bic lines subtotalExclVat vatTotal totalInclVat
       sourceType sourceFile extractionConfidence
       set_issueDate set_dueDate set_currency set_iban set_lines
       set_subtotalExclVat set_vatTotal set_totalInclVat fst snd].

Section Normalizer.
Import Normalize.



Lemma normalizeLines_map (ls : list InvoiceLine) :
  imap (λ index line, normalizeLine line index) ls
  = (λ line, normalizeLine line 0) <$> ls.
Proof. apply imap_const. Qed.

(** What [calculateTotals] leaves in the three total fields; every other
    field is kept. *)
Lemma calculateTotals_fields {P : Type} (i : Invoice_ P) :
  let nonempty := Nat.ltb 0 (length (lines i)) in
  let s' := match subtotalExclVat i with
            | Some s => Some s
            | None => if nonempty
                      then Some (roundTo2Decimals (sumLineTotals (lines i)))
                      else None
            end in
  let v' := match vatTotal i with
            | Some v => Some v
            | None => if nonempty
                      then Some (roundTo2Decimals (sumLineVat (lines i)))
                      else None
            end in
  let t' := match totalInclVat i with
            | Some t => Some t
            | None => match s', v' with
                      | Some s, Some v => Some (roundTo2Decimals (s + v))
                      | _, _ => None
                      end
            end in
  calculateTotals i =
  mkInvoice (invoiceNumber i) (issueDate i) (dueDate i) (currency i)
    (supplier i) (customer i) (paymentReference i) (iban i) (bic i) (lines i)
    s' v' t' (sourceType i) (sourceFile i) (extractionConfidence i).
Proof.
  destruct i as [n i d c s cu pr ib b ls st vt tt sty sf ec].
  unfold calculateTotals. cbv zeta. simpl.
  destruct ls, st, vt, tt; reflexivity.
Qed.

Lemma calculateTotals_idem {P : Type} (i : Invoice_ P) :
  calculateTotals (calculateTotals i) = calculateTotals i.
Proof.
  rewrite (calculateTotals_fields (calculateTotals i)).
  rewrite (calculateTotals_fields i). cbv zeta.
  destruct i as [n i d c s cu pr ib b ls st vt tt sty sf ec]. simpl.
  destruct ls, st, vt, tt; reflexivity.
Qed.




(** The store after [normalizePartyVat]: the party behind the reference
    is normalized, every other location is as before. *)
Lemma normalizePartyVat_lookup (h : Store) (r : option loc) (l : loc) :
  normalizePartyVat h r !! l
  = if decide (r = Some l) then normalizedParty <$> h !! l else h !! l.
Proof.
  unfold normalizePartyVat.
  destruct r as [l'|]; [|case_decide; [congruence|done]].
  case_decide as Hl.
  - injection Hl as ->. unfold normalizedParty.
    destruct (h !! l) as [p|] eqn:Hp; [|by rewrite Hp].
    cbn [fmap option_fmap option_map].
    destruct (vatNumber p) as [v|]; [|by rewrite Hp].
    destruct (String.eqb v ""); cbn [negb]; [by rewrite Hp|].
    by rewrite lookup_insert_eq.
  - assert (l' ≠ l) by congruence.
    destruct (h !! l') as [p|]; [|done].
    destruct (vatNumber p) as [v|]; [|done].
    destruct (String.eqb v ""); cbn [negb]; [done|].
    by rewrite lookup_insert_ne.
Qed.


Section WithPlatform.
Variable Date_parse : string → Date.


(** The record returned by [normalizeInvoice], field by field. *)
Lemma normalizeInvoice_snd (h : Store) (x : Invoice_ loc) :
  (normalizeInvoice Date_parse h x).2 =
  calculateTotals
    (mkInvoice (invoiceNumber x) (coerceDate Date_parse (issueDate x))
       (coerceDate Date_parse (dueDate x)) (normalizedCurrency (currency x))
       (supplier x) (customer x) (paymentReference x)
       (normalizedIban (iban x))
       (bic x) ((λ line, normalizeLine line 0) <$> lines x)
       (subtotalExclVat x) (vatTotal x) (totalInclVat x)
       (sourceType x) (sourceFile x) (extractionConfidence x)).
Proof.
  destruct x as [n i d c s cu pr ib b ls st vt tt sty sf ec].
  unfold normalizeInvoice, normalizedCurrency, normalizedIban. fields.
  destruct (truthy_str c); cbn [negb]; fields;
    destruct (truthy_str ib); fields; by rewrite normalizeLines_map.
Qed.

(** The store left by [normalizeInvoice]. *)
Lemma normalizeInvoice_fst (h : Store) (x : Invoice_ loc) :
  (normalizeInvoice Date_parse h x).1
  = normalizePartyVat (normalizePartyVat h (supplier x)) (customer x).
Proof.
  destruct x as [n i d c s cu pr ib b ls st vt tt sty sf ec].
  unfold normalizeInvoice. fields.
  destruct (truthy_str c); cbn [negb]; fields; reflexivity.
Qed.

Lemma normalizeInvoice_parties (h : Store) (x : Invoice_ loc) :
  supplier (normalizeInvoice Date_parse h x).2 = supplier x
  ∧ customer (normalizeInvoice Date_parse h x).2 = customer x.
Proof. rewrite normalizeInvoice_snd, calculateTotals_fields. by fields. Qed.



(** Outside the two parties of the invoice the store is not written. *)
Lemma normalizeInvoice_frame (h : Store) (x : Invoice_ loc) (l : loc) :
  supplier x ≠ Some l → customer x ≠ Some l →
  (normalizeInvoice Date_parse h x).1 !! l = h !! l.
Proof.
  intros Hs Hc. rewrite normalizeInvoice_fst, !normalizePartyVat_lookup.
  by repeat case_decide.
Qed.

(** C9 fails on the code.  [normalizeInvoice] copies only the top-level
    record; the supplier object is shared with its argument and its
    [vatNumber] is overwritten in place: after the call the party at
    location 0 of the caller's store holds the normalized number. *)
Theorem normalizeInvoice_writes_shared_party :
  let h' :=
    (normalizeInvoice Date_parse Examples.storeBefore
       Examples.invoiceWithSupplier).1 in
  (Examples.storeBefore !! 0%nat) ≫= vatNumber = Some "be 0123 456 789"
  ∧ (h' !! 0%nat) ≫= vatNumber = Some "BE0123456789"
  ∧ h' ≠ Examples.storeBefore.
Proof.
  cbv zeta. rewrite normalizeInvoice_fst.
  assert ((normalizePartyVat
             (normalizePartyVat Examples.storeBefore
                (supplier Examples.invoiceWithSupplier))
             (customer Examples.invoiceWithSupplier) !! 0%nat) ≫= vatNumber
          = Some "BE0123456789") as Hafter by (vm_compute; reflexivity).
  split; [vm_compute; reflexivity|]. split; [exact Hafter|].
  intros Heq. rewrite Heq in Hafter. vm_compute in Hafter. discriminate Hafter.
Qed.

End WithPlatform.
End Normalizer.

(** ** The validator *)

Section Validator.
Import Normalize Rules.

Lemma emits_app (c : string) (a b : list ValidationError) :
  emits c (a ++ b) ↔ emits c a ∨ emits c b.
Proof. unfold emits. by rewrite fmap_app, elem_of_app. Qed.

Lemma emits_nil (c : string) : ¬ emits c [].
Proof. unfold emits. cbn. apply not_elem_of_nil. Qed.

Lemma emits_finding (c : string) (cond : bool) (c' : string) (sev : Severity)
  (path : string) :
  emits c (finding cond c' sev path) ↔ cond = true ∧ c = c'.
Proof.
  unfold emits, finding. destruct cond; cbn.
  - rewrite list_elem_of_singleton. tauto.
  - split; [by intros ?%elem_of_nil|by intros [? _]].
Qed.

Lemma finding_classified (cond : bool) (c : string) (sev : Severity)
  (path : string) :
  sev = warning ∨ c ∈ errorCodes →
  Forall classified (finding cond c sev path).
Proof. intros H. destruct cond; constructor; [exact H|constructor]. Qed.

Lemma Forall_concat_imap {A B : Type} (Q : B → Prop) (f : nat → A → list B)
  (l : list A) :
  (∀ i x, Forall Q (f i x)) → Forall Q (concat (imap f l)).
Proof.
  revert f. induction l as [|x l IH]; intros f Hf; cbn; [constructor|].
  apply Forall_app. split; [apply Hf|]. apply IH. intros i y. apply Hf.
Qed.

Ltac in_codes := cbv [errorCodes requiredFieldCodes]; 
  repeat first [ apply list_elem_of_here | apply list_elem_of_further ].

Lemma lineFindings_classified (index : nat) (line : InvoiceLine) :
  Forall classified (lineFindings index line).
Proof.
  unfold lineFindings. apply Forall_app. split.
  - apply finding_classified. by left.
  - destruct (quantity line), (unitPrice line), (lineTotal line);
      try constructor.
    apply finding_classified. right. in_codes.
Qed.

Lemma totalsFindings_classified (invoice : InvoiceNormalized) :
  Forall classified (totalsFindings invoice).
Proof.
  unfold totalsFindings. destruct (Nat.ltb 0 _); [|constructor].
  repeat (apply Forall_app; split).
  - destruct (subtotalExclVat invoice); [|constructor].
    apply finding_classified. right. in_codes.
  - destruct (vatTotal invoice); [|constructor].
    destruct (gt _ 0); [|constructor].
    apply finding_classified. right. in_codes.
  - destruct (subtotalExclVat invoice), (vatTotal invoice),
      (totalInclVat invoice); try constructor.
    apply finding_classified. right. in_codes.
Qed.

Lemma partyVatFindings_classified (p : option Party) (party : string) :
  Forall classified (partyVatFindings p party).
Proof.
  unfold partyVatFindings. destruct (vatNumber_of p) as [v|]; [|constructor].
  destruct (negb _); [|constructor].
  unfold validateVATNumberFormat.
  repeat match goal with |- context [if ?b then _ else _] => destruct b end;
    repeat constructor; right; in_codes.
Qed.

Section WithPlatform.
Variable Date_parse : string → Date.
Variable now : Date.

Lemma issueDateFindings_classified (invoice : InvoiceNormalized) :
  Forall classified (issueDateFindings Date_parse now invoice).
Proof.
  unfold issueDateFindings.
  repeat match goal with |- context [if ?b then _ else _] => destruct b end;
    repeat constructor; first [by left | right; in_codes].
Qed.

(** Every finding of the business-rule validator is a warning or carries
    one of the six error codes. *)
Lemma validateBusinessRules_classified (invoice : InvoiceNormalized) :
  Forall classified (validateBusinessRules Date_parse now invoice).
Proof.
  unfold validateBusinessRules.
  repeat (apply Forall_app; split);
    first [ apply finding_classified; by left
          | apply issueDateFindings_classified
          | apply Forall_concat_imap, lineFindings_classified
          | apply totalsFindings_classified
          | apply partyVatFindings_classified ].
Qed.

Lemma required_not_error (c : string) :
  c ∈ requiredFieldCodes → c ∈ errorCodes → False.
Proof.
  intros Hr He.
  assert (Forall (λ c, c ∉ errorCodes) requiredFieldCodes) as HF
    by compute_done.
  rewrite Forall_forall in HF. by apply (HF c).
Qed.


Lemma buildValidationReport_isValid (es : list ValidationError) :
  isValid (buildValidationReport es) = true
  ↔ Forall (λ e, severity e = warning) es.
Proof.
  unfold buildValidationReport. cbn [isValid].
  rewrite Nat.eqb_eq. induction es as [|e es IH]; cbn.
  - split; [constructor|done].
  - rewrite Forall_cons. unfold has_severity at 1.
    destruct (severity e); cbn.
    + split; [done|]. by intros [? _].
    + rewrite IH. split; [done|]. by intros [_ ?].
Qed.

Lemma emits_issueDate_missing (invoice : InvoiceNormalized) :
  truthy_date (issueDate invoice) = false →
  emits "WARN_MISSING_ISSUE_DATE" (issueDateFindings Date_parse now invoice).
Proof.
  intros H. unfold issueDateFindings. rewrite H. cbn. apply list_elem_of_here.
Qed.

(** C8. Every required-field-absence finding of the business-rule
    validator (missing invoice number, issue date, supplier name,
    supplier country code, customer name, empty line list) has severity
    warning, and each is raised when its field is absent.  Hence an
    invoice produces a report with [isValid = true] as soon as its
    findings other than the required-field ones are warnings, however
    many required fields are missing. *)
Theorem required_field_findings_are_warnings (invoice : InvoiceNormalized) :
  let es := validateBusinessRules Date_parse now invoice in
  Forall (λ e, code e ∈ requiredFieldCodes → severity e = warning) es
  ∧ (blank (invoiceNumber invoice) = true
     → emits "WARN_MISSING_INVOICE_ID" es)
  ∧ (truthy_date (issueDate invoice) = false
     → emits "WARN_MISSING_ISSUE_DATE" es)
  ∧ (blank (name_of (supplier invoice)) = true
     → emits "WARN_MISSING_SUPPLIER_NAME" es)
  ∧ (truthy_str (countryCode_of (supplier invoice)) = false
     → emits "WARN_MISSING_SUPPLIER_COUNTRY" es)
  ∧ (blank (name_of (customer invoice)) = true
     → emits "WARN_MISSING_CUSTOMER_NAME" es)
  ∧ (lines invoice = [] → emits "WARN_NO_INVOICE_LINES" es)
  ∧ (Forall (λ e, code e ∈ requiredFieldCodes ∨ severity e = warning) es
     → isValid (buildValidationReport es) = true).
Proof.
  cbv zeta.
  pose proof (validateBusinessRules_classified invoice) as Hcl.
  assert (Forall (λ e, code e ∈ requiredFieldCodes → severity e = warning)
            (validateBusinessRules Date_parse now invoice)) as Hw.
  { eapply Forall_impl; [exact Hcl|]. intros e [Hs|He] Hr; [done|].
    destruct (required_not_error _ Hr He). }
  split; [exact Hw|].
  repeat split.
  - intros H. unfold validateBusinessRules.
    rewrite !emits_app, !emits_finding. auto.
  - intros H. unfold validateBusinessRules. rewrite !emits_app.
    right; left. by apply emits_issueDate_missing.
  - intros H. unfold validateBusinessRules.
    rewrite !emits_app, !emits_finding. auto 10.
  - intros H. unfold validateBusinessRules.
    rewrite !emits_app, !emits_finding. rewrite H. auto 10.
  - intros H. unfold validateBusinessRules.
    rewrite !emits_app, !emits_finding. auto 10.
  - intros H. unfold validateBusinessRules.
    rewrite !emits_app, !emits_finding. rewrite H. auto 10.
  - intros H. apply buildValidationReport_isValid.
    rewrite Forall_forall in *. intros e He.
    destruct (H e He) as [Hr|Hs]; [|done]. by apply (Hw e He).
Qed.



Lemma emits_codes (c : string) (cs : list string) (es : list ValidationError) :
  Forall (λ e, code e ∈ cs) es → emits c es → c ∈ cs.
Proof.
  intros HF Hc. unfold emits in Hc.
  apply list_elem_of_fmap in Hc as (e & -> & He).
  rewrite Forall_forall in HF. by apply HF.
Qed.

Ltac in_list := repeat first [ apply list_elem_of_here | apply list_elem_of_further ].

Lemma issueDateFindings_codes (invoice : InvoiceNormalized) :
  Forall (λ e, code e ∈ ["WARN_MISSING_ISSUE_DATE"; "ERR_INVALID_ISSUE_DATE";
                         "ERR_FUTURE_ISSUE_DATE"])
    (issueDateFindings Date_parse now invoice).
Proof.
  unfold issueDateFindings.
  repeat match goal with |- context [if ?b then _ else _] => destruct b end;
    repeat constructor; cbn [code]; in_list.
Qed.


Lemma partyVatFindings_codes (p : option Party) (party : string) :
  Forall (λ e, code e ∈ ["ERR_INVALID_VAT_FORMAT"])
    (partyVatFindings p party).
Proof.
  unfold partyVatFindings. destruct (vatNumber_of p) as [v|]; [|constructor].
  destruct (negb _); [|constructor].
  unfold validateVATNumberFormat.
  repeat match goal with |- context [if ?b then _ else _] => destruct b end;
    repeat constructor; cbn [code]; in_list.
Qed.











End WithPlatform.

(** The invoice [{ lines: [] }] misses all six required fields and its
    report is valid. *)
Lemma required_field_findings_witness :
  isValid (buildValidationReport
             (validateBusinessRules Examples.noDateParser Examples.epoch
                emptyInvoice)) = true.
Proof.
  apply (required_field_findings_are_warnings Examples.noDateParser
           Examples.epoch emptyInvoice).
  compute_done.
Defined.





(** The two VAT derivations disagree.  On four lines of 12.50 at 1% the
    normalizer derives the VAT total 0.50 (it rounds the sum 0.5), the
    validator recomputes 0.52 (it rounds each 0.125 to 0.13), and the
    validator rejects the normalizer's own output. *)
Lemma normalizer_output_fails_vat_check :
  let r := Normalize.normalizeInvoice Examples.noDateParser ∅
             Examples.smallVatInvoice in
  vatTotal r.2 = Some (num 0.5)
  ∧ sumRoundedLineVat (lines r.2) = num 0.52
  ∧ emits "ERR_INVALID_VAT_TOTAL"
      (validateBusinessRules Examples.noDateParser Examples.epoch
         (deref r.1 r.2)).
Proof. cbv zeta. repeat split; compute_done. Qed.

(** C10. [validateXSD] returns, for every XML string, exactly one finding,
    with code INFO_XSD_VALIDATION_SKIPPED and severity warning.  So the
    report built by the convert handler never has an empty list of
    warnings, and its [isValid] is that of the report without the
    placeholder's finding. *)
Theorem validateXSD_single_warning (xml : string) :
  (∃ e, validateXSD xml = [e]
        ∧ code e = "INFO_XSD_VALIDATION_SKIPPED" ∧ severity e = warning)
  ∧ ∀ businessRuleErrors dataQualityErrors,
      warnings (handlerValidation businessRuleErrors dataQualityErrors xml)
        ≠ []
      ∧ isValid (handlerValidation businessRuleErrors dataQualityErrors xml)
        = isValid (buildValidationReport
                     (businessRuleErrors ++ dataQualityErrors)).
Proof.
  split; [by eexists|].
  intros b d. unfold handlerValidation, buildValidationReport, validateXSD.
  cbn [warnings isValid]. rewrite !app_assoc, !List.filter_app. cbn.
  split.
  - intros H. by apply app_eq_nil in H as [_ H].
  - by rewrite app_nil_r.
Qed.

End Validator.

(** ** The AI enhancer *)

Section Enhancer.
Import AI.

(** The first loop leaves the AI fields, in order, and their paths. *)
Lemma fold_addAI (l : list MappingField) (st : MergeState) :
  fold_left addAI l st = (st.1 ++ l, list_to_set (field <$> l) ∪ st.2).
Proof.
  revert st. induction l as [|a l IH]; intros [m p]; cbn.
  - rewrite app_nil_r. f_equal. by rewrite (left_id_L ∅ (∪)).
  - rewrite IH. cbn. rewrite <-app_assoc. f_equal.
    by rewrite (assoc_L (∪)), (comm_L (∪) _ {[field a]}).
Qed.

(** The second loop appends only fields whose path was not processed. *)
Lemma fold_addExisting (l : list MappingField) (m : list MappingField)
  (p : gset string) :
  ∃ kept p', fold_left addExisting l (m, p) = (m ++ kept, p')
             ∧ Forall (λ f, field f ∉ p) kept ∧ p ⊆ p'.
Proof.
  revert m p. induction l as [|f l IH]; intros m p; cbn [fold_left].
  - exists [], p. by rewrite app_nil_r.
  - unfold addExisting at 2. cbn [fst snd].
    destruct (decide (field f ∈ p)) as [Hin|Hout]; [apply IH|].
    destruct (IH (m ++ [f]) ({[field f]} ∪ p)) as (kept & p' & Heq & Hk & Hsub).
    exists (f :: kept), p'. rewrite <-app_assoc in Heq. split; [exact Heq|].
    split.
    + constructor; [done|]. eapply Forall_impl; [exact Hk|].
      intros g Hg Hin. apply Hg. by apply elem_of_union_r.
    + intros x Hx. apply Hsub. by apply elem_of_union_r.
Qed.

(** The third loop adds nothing: every AI path is processed already. *)
Lemma fold_addNewAI (l : list MappingField) (st : MergeState) :
  Forall (λ a, field a ∈ st.2) l → fold_left addNewAI l st = st.
Proof.
  revert st. induction l as [|a l IH]; intros [m p] Hl; cbn; [done|].
  apply Forall_cons in Hl as [Ha Hl]. unfold addNewAI at 2. cbn in *.
  rewrite decide_True by done. by apply IH.
Qed.




Lemma aiFieldsOf_NoDup (aiData : AIData) (src : string) :
  NoDup (field <$> aiFieldsOf aiData src).
Proof.
  unfold aiFieldsOf, aiField.
  destruct (ai_invoiceNumber aiData) as [a|]; [destruct (negb (String.eqb a ""))|];
  (destruct (ai_issueDate aiData) as [b|]; [destruct (negb (String.eqb b ""))|]);
  (destruct (ai_supplier aiData ≫= name) as [c|]; [destruct (negb (String.eqb c ""))|]);
  (destruct (ai_customer aiData ≫= name) as [d|]; [destruct (negb (String.eqb d ""))|]);
  cbn [app fmap list_fmap field]; apply (bool_decide_unpack _); vm_compute; exact I.
Qed.



Section WithPlatform.
Variable Date_parse : string → Date.


Lemma str_or_falsy (a b : option string) :
  truthy_str a = false → str_or a b = b.
Proof. intros H. unfold str_or. by rewrite H. Qed.

Lemma truthy_str_Some (s : string) : s ≠ "" → truthy_str (Some s) = true.
Proof. intros Hs. cbn. by destruct (String.eqb_spec s ""). Qed.



End WithPlatform.



End Enhancer.

Section NeverFatal.
Import AI.

Variable Date_parse : string → Date.
Variable w : World.

(** [parseWithAI] in terms of the outcome of the call. *)
Lemma parseWithAI_cases (buffer : Buffer) (filename mimeType : string)
  (existingInvoice : InvoiceNormalized)
  (existingMappingFields : list MappingField) :
  let candidate := mkAIResult existingInvoice existingMappingFields false in
  let extracted := extractText w mimeType buffer in
  let prompt :=
    buildAIPrompt w existingInvoice existingMappingFields extracted in
  parseWithAI Date_parse w buffer filename mimeType existingInvoice
    existingMappingFields =
  match trim <$> GEMINI_API_KEY w with
  | Some key =>
      if String.eqb key "" then Return candidate
      else
        match callGeminiAPI w key prompt extracted mimeType buffer with
        | Return (Some r) =>
            Return (mkAIResult (mergeAIResults Date_parse existingInvoice r)
                      (mergeAIMappingFields existingMappingFields r "ai-gemini")
                      true)
        | Return None => Return candidate
        | Throw _ => Return candidate
        end
  | None => Return candidate
  end.
Proof.
  cbv zeta. unfold parseWithAI.
  destruct (trim <$> GEMINI_API_KEY w) as [key|]; [|done].
  destruct (String.eqb key ""); [done|].
  destruct (callGeminiAPI _ _ _ _ _ _) as [[r|]|e]; reflexivity.
Qed.

(** A failing HTTP client makes the call raise. *)
Lemma callGeminiAPI_fetch_throws (key prompt extracted mimeType : string)
  (buffer : Buffer) :
  (∀ req, ∃ e, fetch w req = Throw e) →
  ∃ e, callGeminiAPI w key prompt extracted mimeType buffer = Throw e.
Proof.
  intros Hf. unfold callGeminiAPI.
  match goal with |- context [fetch w ?r] => destruct (Hf r) as [e ->] end.
  by exists e.
Qed.

(** A failing JSON parser makes the call raise, whatever the service
    answers. *)
Lemma callGeminiAPI_parse_throws (key prompt extracted mimeType : string)
  (buffer : Buffer) :
  (∀ s, ∃ e, JSON_parse w s = Throw e) →
  ∃ e, callGeminiAPI w key prompt extracted mimeType buffer = Throw e.
Proof.
  intros Hp. unfold callGeminiAPI.
  match goal with
  | |- context [fetch w ?r] => destruct (fetch w r) as [resp|e]
  end; [|by exists e]. cbn.
  destruct (ok resp); cbn.
  - destruct (content resp) as [[c|]|e]; cbn; eauto.
    destruct (String.eqb c ""); cbn; eauto.
    destruct (Hp (stripFences c)) as [e ->]. cbn. eauto.
  - destruct (text resp) as [errorText|e]; cbn; eauto.
    destruct (_ && _ && _); cbn; eauto.
    unfold retryTextOnly.
    match goal with
    | |- context [fetch w ?r] => destruct (fetch w r) as [resp'|e]
    end; cbn; eauto.
    destruct (ok resp'); cbn; eauto.
    destruct (content resp') as [[c|]|e]; cbn; eauto.
    destruct (String.eqb c ""); cbn; eauto.
    destruct (Hp (stripFences c)) as [e ->]. cbn. eauto.
Qed.

(** C6 (amended). [parseWithAI] never throws.  It returns the candidate
    invoice and mapping fields it was given, with [aiUsed = false], when
    no credential is configured, when the HTTP client raises, when the
    JSON parser raises, and more generally whenever the call to the
    completion service raises or yields a falsy answer; otherwise it
    returns the merge with [aiUsed = true].  A failure of the text
    extraction is not one of these cases: it only leaves the extracted
    text empty. *)
Theorem parseWithAI_never_fatal (buffer : Buffer) (filename mimeType : string)
  (existingInvoice : InvoiceNormalized)
  (existingMappingFields : list MappingField) :
  let candidate := mkAIResult existingInvoice existingMappingFields false in
  let run := parseWithAI Date_parse w buffer filename mimeType
               existingInvoice existingMappingFields in
  let extracted := extractText w mimeType buffer in
  let prompt :=
    buildAIPrompt w existingInvoice existingMappingFields extracted in
  (∃ r, run = Return r)
  ∧ (truthy_str (trim <$> GEMINI_API_KEY w) = false → run = Return candidate)
  ∧ ((∀ req, ∃ e, fetch w req = Throw e) → run = Return candidate)
  ∧ ((∀ s, ∃ e, JSON_parse w s = Throw e) → run = Return candidate)
  ∧ (∀ key, trim <$> GEMINI_API_KEY w = Some key → key ≠ "" →
       (∀ e, callGeminiAPI w key prompt extracted mimeType buffer = Throw e
             → run = Return candidate)
       ∧ (callGeminiAPI w key prompt extracted mimeType buffer = Return None
          → run = Return candidate)
       ∧ (∀ r,
            callGeminiAPI w key prompt extracted mimeType buffer
            = Return (Some r)
            → run = Return
                      (mkAIResult
                         (mergeAIResults Date_parse existingInvoice r)
                         (mergeAIMappingFields existingMappingFields r
                            "ai-gemini")
                         true)))
  ∧ (mimeType = mime_pdf → (∃ e, pdfParse w buffer = Throw e)
     → extracted = "").
Proof.
  cbv zeta. rewrite parseWithAI_cases. cbv zeta.
  assert (mimeType = mime_pdf → (∃ e, pdfParse w buffer = Throw e)
          → extractText w mimeType buffer = "") as Htext.
  { intros -> [e He]. unfold extractText. by rewrite String.eqb_refl, He. }
  destruct (trim <$> GEMINI_API_KEY w) as [key|] eqn:Hkey; cbn [truthy_str].
  2:{ split; [eauto|]. repeat (split; [done|]). exact Htext. }
  destruct (String.eqb_spec key "") as [->|Hne]; cbn [negb].
  { split; [eauto|]. do 3 (split; [done|]). split; [|exact Htext].
    by intros key' [= <-]. }
  split; [|split; [|split; [|split; [|split]]]].
  - destruct (callGeminiAPI _ _ _ _ _ _) as [[r|]|e]; eauto.
  - done.
  - intros Hf.
    match goal with
    | |- context [callGeminiAPI w key ?p ?t mimeType buffer] =>
        by destruct (callGeminiAPI_fetch_throws key p t mimeType buffer Hf)
          as [e ->]
    end.
  - intros Hp.
    match goal with
    | |- context [callGeminiAPI w key ?p ?t mimeType buffer] =>
        by destruct (callGeminiAPI_parse_throws key p t mimeType buffer Hp)
          as [e ->]
    end.
  - intros key' [= <-] _. split; [|split].
    + by intros e ->.
    + by intros ->.
    + by intros r ->.
  - exact Htext.
Qed.

End NeverFatal.

(** Without a credential the candidate comes back as it is. *)
Lemma parseWithAI_never_fatal_witness :
  AI.parseWithAI Examples.noDateParser Examples.noCredential [] "invoice.pdf"
    AI.mime_pdf Examples.candidateInvoice Examples.candidateFields
  = Return (AI.mkAIResult Examples.candidateInvoice Examples.candidateFields
              false).
Proof.
  exact (proj1 (proj2 (parseWithAI_never_fatal Examples.noDateParser
                         Examples.noCredential [] "invoice.pdf" AI.mime_pdf
                         Examples.candidateInvoice Examples.candidateFields))
           eq_refl).
Defined.

(** C6, as stated, fails on the code: an exception of the text
    extraction is swallowed and the enhancer goes on.  With a PDF whose
    text layer cannot be read and a service that answers, the result is
    the merge, with [aiUsed = true], not the candidate. *)
Lemma text_extraction_failure_is_not_fallback :
  AI.pdfParse Examples.pdfTextFails [] = Throw "bad XRef entry"
  ∧ invoiceNumber Examples.candidateInvoice = Some "OLD-1"
  ∧ ∃ r,
      AI.parseWithAI Examples.noDateParser Examples.pdfTextFails []
        "invoice.pdf" AI.mime_pdf Examples.candidateInvoice
        Examples.candidateFields = Return r
      ∧ AI.aiUsed r = true
      ∧ invoiceNumber (AI.invoice r) = Some "NEW-2".
Proof.
  split; [reflexivity|]. split; [reflexivity|].
  eexists. split; [vm_compute; reflexivity|]. by split.
Qed.

(** ** The UBL mapping *)

Section Serializer.
Import Normalize ToUbl.

Lemma obj_get_set_eq (k : string) (v : JV) (o : list (string * JV)) :
  obj_get k (obj_set k v o) = Some v.
Proof.
  induction o as [|[k' v'] o IH]; cbn.
  - by rewrite String.eqb_refl.
  - destruct (String.eqb k' k) eqn:Hk; cbn; [by rewrite String.eqb_refl|].
    by rewrite Hk.
Qed.

Lemma obj_get_set_ne (k k' : string) (v : JV) (o : list (string * JV)) :
  k ≠ k' → obj_get k (obj_set k' v o) = obj_get k o.
Proof.
  intros Hne. induction o as [|[k0 v0] o IH]; cbn.
  - destruct (String.eqb_spec k' k); congruence.
  - destruct (String.eqb_spec k0 k') as [->|Hk0]; cbn.
    + destruct (String.eqb_spec k' k); congruence.
    + by rewrite IH.
Qed.

(** No line with both a VAT rate and a line total: no VAT group. *)
Lemma vatGroupsOf_none (ls : list InvoiceLine) :
  Forall (λ line, vatRate line = None ∨ lineTotal line = None) ls →
  vatGroupsOf ls = [].
Proof.
  unfold vatGroupsOf. intros Hls.
  assert (∀ g : VatGroups,
            fold_left
              (λ g line,
                 match vatRate line, lineTotal line with
                 | Some rate, Some taxable =>
                     group_add rate taxable
                       (roundTo2Decimals (taxable * rate / num 100)) g
                 | _, _ => g
                 end) ls g = g) as Hfold.
  { induction Hls as [|line ls [Hl|Hl] _ IH]; intros g; cbn [fold_left];
      [done| |]; rewrite Hl; [|destruct (vatRate line)]; apply IH. }
  apply Hfold.
Qed.

Lemma buildTaxTotals_no_group {P : Type} (invoice : Invoice_ P)
  (currency : string) :
  vatGroupsOf (lines invoice) = [] →
  buildTaxTotals invoice currency =
  if truthy_num (vatTotal invoice)
  then [taxTotalBlock currency (num_or (vatTotal invoice) 0)
          (num_or (subtotalExclVat invoice) 0) 0]
  else [].
Proof. intros Hg. unfold buildTaxTotals. rewrite Hg. reflexivity. Qed.

Section WithPlatform.
Variable now : Date.
Variable getFullYear getMonth getDate : Z → Z.

Lemma formatDateField_ok (d : option DateField) :
  date_ok d = true → truthy_date d = true →
  ∃ s, formatDateField getFullYear getMonth getDate (default (DateObj now) d)
       = Return s.
Proof.
  destruct d as [[t|s]|]; cbn; try done; [eauto|].
  intros ->. done.
Qed.

(** The elements of the document the properties read. *)
Lemma convertToUBL_elements (invoice : InvoiceNormalized) :
  date_ok (issueDate invoice) = true → date_ok (dueDate invoice) = true →
  ∃ doc,
    convertToUBL now getFullYear getMonth getDate invoice = Return doc
    ∧ invoiceElement doc "cac:TaxTotal"
      = Some (JArr
          (let taxTotals :=
             buildTaxTotals invoice (str_default (currency invoice) "EUR") in
           if Nat.ltb 0 (length taxTotals) then taxTotals
           else [zeroTaxTotal (str_default (currency invoice) "EUR")]))
    ∧ invoiceElement doc "cac:LegalMonetaryTotal"
      = Some (buildLegalMonetaryTotal invoice
                (str_default (currency invoice) "EUR")).
Proof.
  intros Hi Hd. unfold convertToUBL.
  set (issue := if truthy_date (issueDate invoice)
                then default (DateObj now) (issueDate invoice)
                else DateObj now).
  assert (∃ s, formatDateField getFullYear getMonth getDate issue = Return s)
    as [issueText ->].
  { subst issue. destruct (truthy_date (issueDate invoice)) eqn:Ht.
    - by apply formatDateField_ok.
    - cbn. eauto. }
  cbn [mbind Exc_bind].
  destruct (truthy_date (dueDate invoice)) eqn:Ht.
  - destruct (formatDateField_ok _ Hd Ht) as [dueText ->].
    cbn [mbind Exc_bind mret Exc_ret].
    eexists. split; [reflexivity|].
    unfold invoiceElement. cbn [get obj_get String.eqb Ascii.eqb Bool.eqb mbind option_bind app].
    split.
    + rewrite obj_get_set_ne by discriminate. apply obj_get_set_eq.
    + apply obj_get_set_eq.
  - cbn [mbind Exc_bind mret Exc_ret].
    eexists. split; [reflexivity|].
    unfold invoiceElement. cbn [get obj_get String.eqb Ascii.eqb Bool.eqb mbind option_bind app].
    split.
    + rewrite obj_get_set_ne by discriminate. apply obj_get_set_eq.
    + apply obj_get_set_eq.
Qed.

(** C7 (amended). For every invoice whose two date fields are absent,
    [Date] objects or empty, [convertToUBL] returns a document with at
    least one TaxTotal element.  When the invoice has no VAT group (no
    line with both [vatRate] and [lineTotal]) there is exactly one: the
    zero-valued block when [vatTotal] is absent or zero, and otherwise a
    block that carries [vatTotal] as its tax amount, the subtotal (or 0)
    as taxable amount and percent 0.  For the invoice [{ lines: [] }]
    the document has the invoice number UNKNOWN, the current date as
    issue date, supplier and customer parties with an empty name and
    country BE, the zero-valued tax total, and the four amounts of
    LegalMonetaryTotal equal to 0. *)
Theorem convertToUBL_defensive (invoice : InvoiceNormalized) :
  let cur := str_default (currency invoice) "EUR" in
  (date_ok (issueDate invoice) = true → date_ok (dueDate invoice) = true →
   ∃ doc items,
     convertToUBL now getFullYear getMonth getDate invoice = Return doc
     ∧ invoiceElement doc "cac:TaxTotal" = Some (JArr items)
     ∧ (0 < length items)%nat
     ∧ (Forall (λ line, vatRate line = None ∨ lineTotal line = None)
          (lines invoice) →
        (truthy_num (vatTotal invoice) = false
         → items = [zeroTaxTotal cur])
        ∧ (∀ v, vatTotal invoice = Some v → v ≠ 0 →
             items = [taxTotalBlock cur v
                        (num_or (subtotalExclVat invoice) 0) 0])))
  ∧ (∃ doc,
       convertToUBL now getFullYear getMonth getDate emptyInvoice = Return doc
       ∧ invoiceElement doc "cbc:ID" = Some (JStr "UNKNOWN")
       ∧ invoiceElement doc "cbc:IssueDate"
         = Some (JStr (formatDateForUBL getFullYear getMonth getDate now))
       ∧ invoiceElement doc "cac:AccountingSupplierParty"
         = Some emptyPartyElement
       ∧ invoiceElement doc "cac:AccountingCustomerParty"
         = Some emptyPartyElement
       ∧ invoiceElement doc "cac:TaxTotal" = Some (JArr [zeroTaxTotal "EUR"])
       ∧ taxAmountOf (zeroTaxTotal "EUR") = Some 0
       ∧ legalMonetaryAmounts doc = [Some 0; Some 0; Some 0; Some 0]).
Proof.
  cbv zeta. split.
  - intros Hi Hd.
    destruct (convertToUBL_elements invoice Hi Hd) as (doc & Hdoc & Htax & _).
    exists doc. eexists. split; [exact Hdoc|]. split; [exact Htax|].
    cbv zeta. split.
    + destruct (buildTaxTotals invoice _) as [|b bs]; cbn; lia.
    + intros Hno. rewrite buildTaxTotals_no_group by by apply vatGroupsOf_none.
      split.
      * by intros ->.
      * intros v Hv Hv0. rewrite Hv. cbn [truthy_num num_or].
        by rewrite bool_decide_eq_true_2.
  - eexists. split; [reflexivity|].
    repeat split; try reflexivity. compute_done.
Qed.
End WithPlatform.

(** The invoice with one line without VAT is serialized, with one
    TaxTotal element at least. *)
Lemma convertToUBL_defensive_witness :
  ∃ doc items,
    convertToUBL Examples.epoch Examples.year1970 Examples.january
      Examples.firstDay Examples.zeroVatInvoice = Return doc
    ∧ invoiceElement doc "cac:TaxTotal" = Some (JArr items)
    ∧ (0 < length items)%nat.
Proof.
  destruct (proj1 (convertToUBL_defensive Examples.epoch Examples.year1970
                     Examples.january Examples.firstDay
                     Examples.zeroVatInvoice) eq_refl eq_refl)
    as (doc & items & Hdoc & Htax & Hlen & _).
  exists doc, items. by repeat split.
Defined.

(** C7, as stated, fails on the code: without a VAT group the tax-total
    block is not zero-valued when the invoice states a VAT total.  One
    line without VAT rate and a stated VAT total of 21 give a single
    block with tax amount 21. *)
Lemma no_vat_group_nonzero_tax_total :
  Forall (λ line, vatRate line = None ∨ lineTotal line = None)
    (lines Examples.zeroVatInvoice)
  ∧ ∃ doc block,
      convertToUBL Examples.epoch Examples.year1970 Examples.january
        Examples.firstDay Examples.zeroVatInvoice = Return doc
      ∧ invoiceElement doc "cac:TaxTotal" = Some (JArr [block])
      ∧ taxAmountOf block = Some (num 21).
Proof.
  split; [repeat constructor; by left|].
  eexists. eexists. split; [reflexivity|]. split; [reflexivity|].
  compute_done.
Qed.

End Serializer.

(* ================================================================== *)
(** * Further properties of the code *)
(* ================================================================== *)

(* ================================================================== *)
(** * Further properties of the normalizer and the validator *)
(* ================================================================== *)

Section NormalizerOutput.
Import Normalize Rules.

Variable Date_parse : string → Date.
Variable now : Date.

(** The fields of the record returned by [normalizeInvoice]. *)
Lemma normalized_lines (h : Store) (x : Invoice_ loc) :
  lines (normalizeInvoice Date_parse h x).2
  = (λ line, normalizeLine line 0) <$> lines x.
Proof. rewrite normalizeInvoice_snd, calculateTotals_fields. by fields. Qed.

Lemma normalized_header (h : Store) (x : Invoice_ loc) :
  let r := (normalizeInvoice Date_parse h x).2 in
  invoiceNumber r = invoiceNumber x
  ∧ issueDate r = coerceDate Date_parse (issueDate x)
  ∧ dueDate r = coerceDate Date_parse (dueDate x)
  ∧ currency r = normalizedCurrency (currency x)
  ∧ iban r = normalizedIban (iban x).
Proof.
  cbv zeta. rewrite normalizeInvoice_snd, calculateTotals_fields. by fields.
Qed.

Lemma normalized_totals (h : Store) (x : Invoice_ loc) :
  let r := (normalizeInvoice Date_parse h x).2 in
  let ls := (λ line, normalizeLine line 0) <$> lines x in
  let nonempty := Nat.ltb 0 (length ls) in
  let s' := match subtotalExclVat x with
            | Some s => Some s
            | None => if nonempty
                      then Some (roundTo2Decimals (sumLineTotals ls))
                      else None
            end in
  let v' := match vatTotal x with
            | Some v => Some v
            | None => if nonempty
                      then Some (roundTo2Decimals (sumLineVat ls))
                      else None
            end in
  subtotalExclVat r = s' ∧ vatTotal r = v'
  ∧ totalInclVat r
    = match totalInclVat x with
      | Some t => Some t
      | None => match s', v' with
                | Some s, Some v => Some (roundTo2Decimals (s + v))
                | _, _ => None
                end
      end.
Proof.
  cbv zeta. rewrite normalizeInvoice_snd, calculateTotals_fields. by fields.
Qed.

Lemma deref_fields (h : Store) (i : Invoice_ loc) :
  invoiceNumber (deref h i) = invoiceNumber i
  ∧ issueDate (deref h i) = issueDate i
  ∧ dueDate (deref h i) = dueDate i
  ∧ currency (deref h i) = currency i
  ∧ lines (deref h i) = lines i
  ∧ subtotalExclVat (deref h i) = subtotalExclVat i
  ∧ vatTotal (deref h i) = vatTotal i
  ∧ totalInclVat (deref h i) = totalInclVat i.
Proof. by repeat split. Qed.


Lemma num_or_same (x : Number) : num_or (Some x) 0 = x.
Proof. unfold num_or. case_bool_decide as H; [done|]. by rewrite H. Qed.

Lemma Math_abs_self (x : Number) : Math_abs (x - x) = 0.
Proof.
  unfold Math_abs. destruct (decide (x - x < 0)) as [H|H]; apply Qc_is_canon;
    qc2q; lra.
Qed.

Lemma gt_zero_cent : gt 0 (num 0.01) = false.
Proof. compute_done. Qed.

(** A line total derived by [normalizeLine] is what the validator
    recomputes. *)
Lemma derived_lineTotal_passes (line : InvoiceLine) (i j : nat) :
  lineTotal line = None →
  ¬ emits "ERR_INVALID_LINE_AMOUNT" (lineFindings j (normalizeLine line i)).
Proof.
  intros Ht. unfold lineFindings. rewrite emits_app, emits_finding.
  intros [[_ [=]]|H].
  destruct line as [d q p u r c t cf src]. cbn in Ht. subst t.
  unfold normalizeLine in H.
  cbn [quantity unitPrice lineTotal description vatRate vatCategory
       unitOfMeasure line_confidence line_source] in H.
  destruct p as [p|]; [|destruct q; by apply emits_nil in H].
  assert (∀ (q' : Number) (path : string),
            ¬ emits "ERR_INVALID_LINE_AMOUNT"
                (finding
                   (gt (Math_abs
                          (roundTo2Decimals (num_or (Some q') 0 * num_or (Some p) 0)
                           - roundTo2Decimals (roundTo2Decimals (p * q'))))
                       (num 0.01))
                   "ERR_INVALID_LINE_AMOUNT" error path)) as Hq.
  { intros q' path. rewrite emits_finding, !num_or_same, roundTo2Decimals_idem.
    rewrite (Qcmult_comm q' p), Math_abs_self, gt_zero_cent. by intros [? _]. }
  destruct q as [q|]; by apply Hq in H.
Qed.

Ltac in_list := repeat first [ apply list_elem_of_here | apply list_elem_of_further ].


Lemma totalsFindings_codes (invoice : InvoiceNormalized) :
  Forall (λ e, code e ∈ totalCodes) (totalsFindings invoice).
Proof.
  unfold totalsFindings, finding. destruct (Nat.ltb 0 _); [|constructor].
  repeat (apply Forall_app; split).
  - destruct (subtotalExclVat invoice); [|constructor].
    destruct (gt _ _); repeat constructor; cbn [code]; cbv [totalCodes]; in_list.
  - destruct (vatTotal invoice); [|constructor].
    destruct (gt _ 0); [|constructor].
    destruct (gt _ _); repeat constructor; cbn [code]; cbv [totalCodes]; in_list.
  - destruct (subtotalExclVat invoice), (vatTotal invoice),
      (totalInclVat invoice); try constructor.
    destruct (gt _ _); repeat constructor; cbn [code]; cbv [totalCodes]; in_list.
Qed.

(** ERR_INVALID_LINE_AMOUNT comes from the per-line checks alone. *)
Lemma emits_line_amount (invoice : InvoiceNormalized) :
  emits "ERR_INVALID_LINE_AMOUNT" (validateBusinessRules Date_parse now invoice)
  → emits "ERR_INVALID_LINE_AMOUNT" (concat (imap lineFindings (lines invoice))).
Proof.
  unfold validateBusinessRules. rewrite !emits_app, !emits_finding.
  intros [[_ [=]]|[H|[[_ [=]]|[[_ [=]]|[[_ [=]]|[[_ [=]]|[H|[H|[H|[H|[_ [=]]]]]]]]]]]];
    try done.
  - apply (emits_codes _ _ _ (issueDateFindings_codes _ _ invoice)) in H.
    exfalso. revert H. compute_done.
  - apply (emits_codes _ _ _ (totalsFindings_codes invoice)) in H.
    exfalso. revert H. compute_done.
  - apply (emits_codes _ _ _ (partyVatFindings_codes _ _)) in H.
    exfalso. revert H. compute_done.
  - apply (emits_codes _ _ _ (partyVatFindings_codes _ _)) in H.
    exfalso. revert H. compute_done.
Qed.

Lemma emits_concat_imap {A : Type} (c : string)
  (f : nat → A → list ValidationError) (l : list A) :
  emits c (concat (imap f l)) → ∃ i x, l !! i = Some x ∧ emits c (f i x).
Proof.
  revert f. induction l as [|x l IH]; intros f; cbn.
  - by intros ?%emits_nil.
  - rewrite emits_app. intros [H|H].
    + exists 0%nat, x. by split.
    + apply IH in H as (i & y & Hi & Hy). exists (S i), y. by split.
Qed.

(** X2. The line totals the normalizer derives pass the validator: on
    the normalized form of an invoice none of whose lines states a line
    total, the business rules raise no ERR_INVALID_LINE_AMOUNT. *)
Theorem derived_line_totals_pass (h : Store) (x : Invoice_ loc) :
  Forall (λ line, lineTotal line = None) (lines x) →
  let r := normalizeInvoice Date_parse h x in
  ¬ emits "ERR_INVALID_LINE_AMOUNT"
      (validateBusinessRules Date_parse now (deref r.1 r.2)).
Proof.
  intros Hls. cbv zeta. intros H.
  apply emits_line_amount, emits_concat_imap in H as (i & l & Hi & Hl).
  destruct (deref_fields (normalizeInvoice Date_parse h x).1
              (normalizeInvoice Date_parse h x).2)
    as (_ & _ & _ & _ & Hlines & _).
  rewrite Hlines, normalized_lines, list_lookup_fmap in Hi.
  destruct (lines x !! i) as [line|] eqn:Hline; [|done].
  injection Hi as <-.
  rewrite Forall_forall in Hls.
  apply (derived_lineTotal_passes line 0 i); [|done].
  apply Hls. by eapply list_elem_of_lookup_2.
Qed.


(** X4. The normalizer never overwrites a stated total, and it leaves
    no total open on an invoice with lines: a subtotal, VAT total or
    grand total that is present is returned as it is; with at least one
    line all three are present afterwards; without lines the subtotal
    and the VAT total are left as they were. *)
Theorem normalizeInvoice_totals (h : Store) (x : Invoice_ loc) :
  let r := (normalizeInvoice Date_parse h x).2 in
  (∀ s, subtotalExclVat x = Some s → subtotalExclVat r = Some s)
  ∧ (∀ v, vatTotal x = Some v → vatTotal r = Some v)
  ∧ (∀ t, totalInclVat x = Some t → totalInclVat r = Some t)
  ∧ (lines x ≠ [] →
     is_Some (subtotalExclVat r) ∧ is_Some (vatTotal r)
     ∧ is_Some (totalInclVat r))
  ∧ (lines x = [] →
     subtotalExclVat r = subtotalExclVat x ∧ vatTotal r = vatTotal x).
Proof.
  cbv zeta. destruct (normalized_totals h x) as (-> & -> & ->).
  split; [by intros s ->|]. split; [by intros v ->|].
  split; [by intros t ->|]. split.
  - intros Hne. destruct (lines x) as [|l ls]; [done|].
    cbn [fmap list_fmap length Nat.ltb Nat.leb].
    destruct (subtotalExclVat x), (vatTotal x), (totalInclVat x); by eauto.
  - intros ->. cbn [fmap list_fmap length Nat.ltb Nat.leb].
    by destruct (subtotalExclVat x), (vatTotal x).
Qed.

Lemma coerceDate_ok (d : option DateField) :
  ToUbl.date_ok (coerceDate Date_parse d) = true.
Proof.
  destruct d as [[d|s]|]; cbn; try done.
  by destruct (String.eqb s "") eqn:Hs; cbn.
Qed.

Lemma toUpperCase_empty (s : string) : toUpperCase s = "" → s = "".
Proof. by destruct s. Qed.

(** X5. The header of a normalized invoice: the currency is always
    present, non-empty and in upper case; neither date is left as a
    non-empty string; an IBAN is in upper case and free of whitespace;
    the invoice number, the two party references and the number of
    lines are those of the input. *)
Theorem normalizeInvoice_header (h : Store) (x : Invoice_ loc) :
  let r := (normalizeInvoice Date_parse h x).2 in
  (∃ c, currency r = Some c ∧ c ≠ "" ∧ toUpperCase c = c)
  ∧ ToUbl.date_ok (issueDate r) = true
  ∧ ToUbl.date_ok (dueDate r) = true
  ∧ (∀ ib, iban r = Some ib →
       toUpperCase ib = ib ∧ remove_whitespace ib = ib)
  ∧ invoiceNumber r = invoiceNumber x
  ∧ supplier r = supplier x ∧ customer r = customer x
  ∧ length (lines r) = length (lines x).
Proof.
  cbv zeta. destruct (normalized_header h x) as (-> & -> & -> & -> & ->).
  destruct (normalizeInvoice_parties Date_parse h x) as [-> ->].
  rewrite normalized_lines, length_fmap.
  split; [|split; [|split; [|split]]]; try done.
  - unfold normalizedCurrency. destruct (truthy_str (currency x)) eqn:Hc;
      cbn [negb fmap option_fmap option_map].
    + destruct (currency x) as [c|]; [|done]. cbn in Hc.
      exists (toUpperCase c). split; [done|]. split.
      * intros ->%toUpperCase_empty. done.
      * apply toUpperCase_idem.
    + by exists "EUR".
  - apply coerceDate_ok.
  - apply coerceDate_ok.
  - intros ib. unfold normalizedIban.
    destruct (truthy_str (iban x)) eqn:Hi.
    + destruct (iban x) as [s|]; [|done]. cbn. intros [= <-].
      unfold normalizeIBAN. split; [apply toUpperCase_idem|].
      by rewrite remove_whitespace_upper, remove_whitespace_idem.
    + destruct (iban x) as [s|]; [|done]. cbn in Hi. intros [= <-].
      apply negb_false_iff, String.eqb_eq in Hi. by subst.
Qed.


End NormalizerOutput.

(** The line 3 at 19.995 states no total; the derived 59.99 passes. *)
Lemma derived_line_totals_pass_witness :
  ¬ Rules.emits "ERR_INVALID_LINE_AMOUNT"
      (Rules.validateBusinessRules Examples.noDateParser Examples.epoch
         (deref (Normalize.normalizeInvoice Examples.noDateParser ∅
                   MoreExamples.derivedLineInvoice).1
            (Normalize.normalizeInvoice Examples.noDateParser ∅
               MoreExamples.derivedLineInvoice).2)).
Proof.
  apply (derived_line_totals_pass Examples.noDateParser Examples.epoch ∅
           MoreExamples.derivedLineInvoice).
  by repeat constructor.
Defined.


Lemma normalizeInvoice_totals_witness :
  is_Some (subtotalExclVat (Normalize.normalizeInvoice Examples.noDateParser ∅
                              Examples.smallVatInvoice).2)
  ∧ is_Some (vatTotal (Normalize.normalizeInvoice Examples.noDateParser ∅
                         Examples.smallVatInvoice).2)
  ∧ is_Some (totalInclVat (Normalize.normalizeInvoice Examples.noDateParser ∅
                             Examples.smallVatInvoice).2).
Proof.
  apply (normalizeInvoice_totals Examples.noDateParser ∅
           Examples.smallVatInvoice).
  discriminate.
Defined.

(** ** VAT numbers, severities and the report *)

Section VatNumbers.
Import Normalize Rules.

Lemma prefix_two_upper (a b : ascii) (n : string) :
  is_upper a = true → is_upper b = true →
  startsWith (String a (String b "")) n = true →
  test_prefix [Upper; Upper] n = true.
Proof.
  intros Ha Hb. unfold startsWith, test_prefix.
  destruct n as [|c [|d r]]; cbn; try done.
  - by destruct (ascii_dec a c).
  - destruct (ascii_dec a c) as [<-|]; [|done].
    destruct (ascii_dec b d) as [<-|]; [|done].
    by rewrite Ha, Hb.
Qed.

Lemma digit_not_upper (c : ascii) : is_digit c = true → is_upper c = false.
Proof. destruct c as [[] [] [] [] [] [] [] []]; by cbn. Qed.

Lemma digits_no_prefix (k : nat) (n : string) :
  test_exact (replicate (S k) Digit) n = true →
  test_prefix [Upper; Upper] n = false.
Proof.
  unfold test_exact, test_prefix. destruct n as [|c r]; cbn; [done|].
  destruct (is_digit c) eqn:Hc; [|done]. by rewrite (digit_not_upper c Hc).
Qed.

(** The verdict of the format check on a string in canonical form. *)
Lemma validateVATNumberFormat_canonical (v party : string) :
  validateVATNumberFormat (toUpperCase (remove_whitespace v)) party
  = validateVATNumberFormat v party.
Proof. unfold validateVATNumberFormat. by rewrite canonical_idem. Qed.

Lemma no_prefix_no_country (n : string) :
  test_prefix [Upper; Upper] n = false →
  startsWith "BE" n = false ∧ startsWith "NL" n = false.
Proof.
  intros Hp. split.
  - destruct (startsWith "BE" n) eqn:H; [|done].
    apply prefix_two_upper in H; [congruence|done|done].
  - destruct (startsWith "NL" n) eqn:H; [|done].
    apply prefix_two_upper in H; [congruence|done|done].
Qed.

Lemma startsWith_two (a b : ascii) (n : string) :
  startsWith (String a (String b "")) (String a (String b n)) = true.
Proof.
  unfold startsWith. cbn [String.prefix].
  destruct (ascii_dec a a); [|done]. cbn [String.prefix].
  destruct (ascii_dec b b); [|done]. by destruct n.
Qed.

Lemma startsWith_other (a c : ascii) (p n : string) :
  a ≠ c → startsWith (String a p) (String c n) = false.
Proof.
  intros Hne. unfold startsWith. cbn [String.prefix].
  by destruct (ascii_dec a c).
Qed.

(** X7. Normalizing a VAT number never changes the verdict of the
    format check, and the country prefix it infers is one the check
    accepts: the check gives the same result before and after
    [normalizeVATNumber]; a number of ten digits becomes BE followed by
    the digits and passes; the result is in the canonical form (upper
    case, no whitespace) the check works on. *)
Theorem normalizeVATNumber_keeps_verdict (vat party : string) :
  let n := toUpperCase (remove_whitespace vat) in
  validateVATNumberFormat (normalizeVATNumber vat) party
  = validateVATNumberFormat vat party
  ∧ (test_exact (replicate 10 Digit) n = true →
     normalizeVATNumber vat = "BE" +:+ n
     ∧ validateVATNumberFormat (normalizeVATNumber vat) party = None)
  ∧ toUpperCase (remove_whitespace (normalizeVATNumber vat))
    = normalizeVATNumber vat.
Proof.
  cbv zeta.
  assert (∀ (a b : ascii) (p : list cls) (n : string),
            test_prefix [Upper; Upper] n = false →
            test_exact p n = true →
            (a = "B"%char ∧ b = "E"%char ∧ p = replicate 10 Digit)
            ∨ (a = "N"%char ∧ b = "L"%char
               ∧ p = replicate 9 Digit ++ [Lit "B"] ++ replicate 2 Digit) →
            toUpperCase (remove_whitespace n) = n →
            validateVATNumberFormat (String a (String b n)) party = None
            ∧ validateVATNumberFormat n party = None)
    as Hadd.
  { intros a b p n Hp Hd Hab Hn. split.
    - unfold validateVATNumberFormat.
      assert (toUpperCase (remove_whitespace (String a (String b n)))
              = String a (String b n)) as ->.
      { destruct Hab as [(-> & -> & _)|(-> & -> & _)];
          by apply canonical_prefixed. }
      change (substring_from 2 (String a (String b n))) with n.
      destruct Hab as [(-> & -> & ->)|(-> & -> & ->)].
      + rewrite (startsWith_two "B" "E" n), Hd. cbn [negb andb].
        by rewrite startsWith_other.
      + rewrite (startsWith_other "B" "N") by done. cbn [andb].
        by rewrite (startsWith_two "N" "L" n), Hd.
    - unfold validateVATNumberFormat. rewrite Hn.
      by destruct (no_prefix_no_country n Hp) as [-> ->]. }
  pose proof (canonical_idem vat) as Hn.
  pose proof (validateVATNumberFormat_canonical vat party) as Hv.
  unfold normalizeVATNumber.
  set (n := toUpperCase (remove_whitespace vat)) in *.
  destruct (test_prefix [Upper; Upper] n) eqn:Hp; cbn [negb].
  { split; [exact Hv|]. split; [|exact Hn].
    intros Hd. apply digits_no_prefix in Hd. congruence. }
  destruct (test_exact (replicate 10 Digit) n) eqn:Hbe.
  { change ("BE" +:+ n) with (String "B" (String "E" n)).
    destruct (Hadd "B"%char "E"%char _ n Hp Hbe) as [H1 H2];
      [by left|exact Hn|].
    rewrite H1, <-Hv, H2. split; [done|]. split; [done|].
    by apply canonical_prefixed. }
  destruct (test_exact (replicate 9 Digit ++ [Lit "B"] ++ replicate 2 Digit) n)
    eqn:Hnl.
  { change ("NL" +:+ n) with (String "N" (String "L" n)).
    destruct (Hadd "N"%char "L"%char _ n Hp Hnl) as [H1 H2];
      [by right|exact Hn|].
    rewrite H1, <-Hv, H2. split; [done|]. split; [done|].
    by apply canonical_prefixed. }
  split; [exact Hv|]. by split.
Qed.

Lemma normalizeVATNumber_keeps_verdict_witness :
  normalizeVATNumber "0123 456 789" = "BE0123456789"
  ∧ validateVATNumberFormat (normalizeVATNumber "0123 456 789") "supplier"
    = None.
Proof.
  apply (normalizeVATNumber_keeps_verdict "0123 456 789" "supplier").
  reflexivity.
Defined.



End VatNumbers.

Section Report.
Import Normalize Rules.

Lemma filter_severity_perm (es : list ValidationError) :
  List.filter (has_severity error) es ++ List.filter (has_severity warning) es
  ≡ₚ es.
Proof.
  induction es as [|e es IH]; [done|]. cbn [List.filter].
  assert (has_severity error e = bool_decide (severity e = error)) as ->
    by done.
  assert (has_severity warning e = bool_decide (severity e = warning)) as ->
    by done.
  destruct (severity e); cbn.
  - apply perm_skip, IH.
  - etransitivity; [symmetry; apply Permutation_middle|]. apply perm_skip, IH.
Qed.

Lemma filter_severity_all (s : Severity) (es : list ValidationError) :
  Forall (λ e, severity e = s) (List.filter (has_severity s) es).
Proof.
  induction es as [|e es IH]; cbn; [constructor|].
  unfold has_severity at 1. case_bool_decide; [by constructor|done].
Qed.

Lemma filter_warning_id (es : list ValidationError) :
  List.filter (has_severity warning) es = es
  ↔ Forall (λ e, severity e = warning) es.
Proof.
  split.
  - intros <-. apply filter_severity_all.
  - induction 1 as [|e es He _ IH]; [done|]. cbn.
    unfold has_severity at 1. rewrite He. cbn. by rewrite IH.
Qed.

(** X8. [buildValidationReport] splits the findings by severity and
    loses none: the errors followed by the warnings are a permutation of
    the findings given; the errors all have severity error and the
    warnings severity warning; the report is valid exactly when it has no
    error, which is exactly when its warnings are the findings given. *)
Theorem buildValidationReport_partition (es : list ValidationError) :
  let r := buildValidationReport es in
  errors r ++ warnings r ≡ₚ es
  ∧ Forall (λ e, severity e = error) (errors r)
  ∧ Forall (λ e, severity e = warning) (warnings r)
  ∧ (isValid r = true ↔ errors r = [])
  ∧ (isValid r = true ↔ warnings r = es).
Proof.
  cbv zeta. split; [apply filter_severity_perm|].
  split; [apply filter_severity_all|]. split; [apply filter_severity_all|].
  split.
  - unfold buildValidationReport. cbn [isValid errors].
    rewrite Nat.eqb_eq. by rewrite length_zero_iff_nil.
  - rewrite buildValidationReport_isValid. symmetry. apply filter_warning_id.
Qed.

Section WithPlatform.
Variable Date_parse : string → Date.
Variable now : Date.

(** A finding's severity is [error] exactly when its code is one of the
    six error codes. *)
Local Abbreviation by_code :=
  (λ e : ValidationError, severity e = error ↔ code e ∈ errorCodes).

Ltac exact_code :=
  cbn [severity code];
  first [ split; [intros _; cbv [errorCodes];
                  repeat first [ apply list_elem_of_here
                               | apply list_elem_of_further ]
                 |done]
        | split; [discriminate|compute_done] ].

Ltac exact_list :=
  repeat match goal with |- context [if ?b then _ else _] => destruct b end;
  repeat first [ apply Forall_nil_2 | apply Forall_cons_2; [exact_code|] ].

Lemma finding_by_code (cond : bool) (c : string) (sev : Severity)
  (path : string) :
  (sev = error ↔ c ∈ errorCodes) → Forall by_code (finding cond c sev path).
Proof. intros H. destruct cond; constructor; [exact H|constructor]. Qed.

Lemma validateBusinessRules_by_code (invoice : InvoiceNormalized) :
  Forall by_code (validateBusinessRules Date_parse now invoice).
Proof.
  unfold validateBusinessRules.
  repeat (apply Forall_app; split).
  - unfold finding. exact_list.
  - unfold issueDateFindings. exact_list.
  - unfold finding. exact_list.
  - unfold finding. exact_list.
  - unfold finding. exact_list.
  - unfold finding. exact_list.
  - apply Forall_concat_imap. intros i line. unfold lineFindings, finding.
    apply Forall_app. split; [exact_list|].
    destruct (quantity line), (unitPrice line), (lineTotal line); exact_list.
  - unfold totalsFindings, finding. destruct (Nat.ltb 0 _); [|constructor].
    repeat (apply Forall_app; split).
    + destruct (subtotalExclVat invoice); exact_list.
    + destruct (vatTotal invoice); exact_list.
    + destruct (subtotalExclVat invoice), (vatTotal invoice),
        (totalInclVat invoice); exact_list.
  - unfold partyVatFindings.
    destruct (vatNumber_of (supplier invoice)) as [v|]; [|constructor].
    destruct (negb _); [|constructor]. unfold validateVATNumberFormat.
    cbn [option_list]. exact_list.
  - unfold partyVatFindings.
    destruct (vatNumber_of (customer invoice)) as [v|]; [|constructor].
    destruct (negb _); [|constructor]. unfold validateVATNumberFormat.
    cbn [option_list]. exact_list.
  - unfold finding. exact_list.
Qed.

(** X9. Among the findings of the business rules, the severity is
    [error] exactly for the six codes ERR_INVALID_ISSUE_DATE,
    ERR_INVALID_LINE_AMOUNT, ERR_INVALID_SUBTOTAL, ERR_INVALID_VAT_TOTAL,
    ERR_INVALID_TOTAL and ERR_INVALID_VAT_FORMAT; a finding with code
    ERR_FUTURE_ISSUE_DATE is a warning.  So the report built from them is
    valid exactly when none of the six codes is raised. *)
Theorem business_rule_errors_by_code (invoice : InvoiceNormalized) :
  let es := validateBusinessRules Date_parse now invoice in
  Forall (λ e, severity e = error ↔ code e ∈ errorCodes) es
  ∧ Forall (λ e, code e = "ERR_FUTURE_ISSUE_DATE" → severity e = warning) es
  ∧ (isValid (buildValidationReport es) = true
     ↔ ∀ c, c ∈ errorCodes → ¬ emits c es).
Proof.
  cbv zeta. pose proof (validateBusinessRules_by_code invoice) as Hex.
  split; [exact Hex|]. split.
  - eapply Forall_impl; [exact Hex|]. intros e He Hc.
    destruct (severity e) eqn:Hs; [|done].
    apply He in Hs. rewrite Hc in Hs. exfalso. revert Hs. compute_done.
  - rewrite buildValidationReport_isValid. rewrite Forall_forall in Hex.
    rewrite Forall_forall. split.
    + intros Hw c Hc Hem. unfold emits in Hem.
      apply list_elem_of_fmap in Hem as (e & -> & He).
      apply (Hex e He) in Hc. rewrite (Hw e He) in Hc. discriminate.
    + intros Hno e He. destruct (severity e) eqn:Hs; [|done].
      exfalso. apply (Hno (code e)).
      * by apply (Hex e He).
      * unfold emits. apply list_elem_of_fmap. eauto.
Qed.

End WithPlatform.
End Report.

(** ** The serializer on the normalizer's output *)

Section SerializerPipeline.
Import Normalize Rules ToUbl.

Variable Date_parse : string → Date.
Variable now nowUbl : Date.
Variable getFullYear getMonth getDate : Z → Z.

Ltac element :=
  unfold invoiceElement;
  cbn [get obj_get String.eqb Ascii.eqb Bool.eqb mbind option_bind app];
  rewrite ?obj_get_set_ne by discriminate;
  first [ apply obj_get_set_eq | reflexivity ].

(** The header elements of the document. *)
Lemma convertToUBL_header_elements (invoice : InvoiceNormalized) :
  date_ok (issueDate invoice) = true → date_ok (dueDate invoice) = true →
  ∃ doc,
    convertToUBL nowUbl getFullYear getMonth getDate invoice = Return doc
    ∧ invoiceElement doc "cbc:ID"
      = Some (JStr (str_default (invoiceNumber invoice) "UNKNOWN"))
    ∧ invoiceElement doc "cbc:IssueDate"
      = Some (JStr (formatDateForUBL getFullYear getMonth getDate
                      match issueDate invoice with
                      | Some (DateObj d) => d
                      | _ => nowUbl
                      end))
    ∧ invoiceElement doc "cbc:DocumentCurrencyCode"
      = Some (JStr (str_default (currency invoice) "EUR"))
    ∧ invoiceElement doc "cac:InvoiceLine"
      = Some (JArr (imap (λ index line,
                            buildInvoiceLine line (index + 1)
                              (str_default (currency invoice) "EUR"))
                      (lines invoice))).
Proof.
  intros Hi Hd. unfold convertToUBL.
  set (issue := if truthy_date (issueDate invoice)
                then default (DateObj nowUbl) (issueDate invoice)
                else DateObj nowUbl).
  assert (formatDateField getFullYear getMonth getDate issue
          = Return (formatDateForUBL getFullYear getMonth getDate
                      match issueDate invoice with
                      | Some (DateObj d) => d
                      | _ => nowUbl
                      end)) as ->.
  { subst issue. destruct (issueDate invoice) as [[d|s]|]; cbn; try done.
    cbn in Hi. by rewrite Hi. }
  cbn [mbind Exc_bind].
  destruct (truthy_date (dueDate invoice)) eqn:Ht.
  - destruct (formatDateField_ok nowUbl getFullYear getMonth getDate _ Hd Ht)
      as [dueText ->].
    cbn [mbind Exc_bind mret Exc_ret].
    eexists. split; [reflexivity|].
    split; [element|]. split; [element|]. split; element.
  - cbn [mbind Exc_bind mret Exc_ret].
    eexists. split; [reflexivity|].
    split; [element|]. split; [element|]. split; element.
Qed.

Lemma convertToUBL_throws (invoice : InvoiceNormalized) :
  date_ok (issueDate invoice) = false ∨ date_ok (dueDate invoice) = false →
  convertToUBL nowUbl getFullYear getMonth getDate invoice
  = Throw "date.getFullYear is not a function".
Proof.
  intros Hbad. unfold convertToUBL.
  destruct (date_ok (issueDate invoice)) eqn:Hi.
  - destruct Hbad as [[=]|Hd].
    set (issue := if truthy_date (issueDate invoice)
                  then default (DateObj nowUbl) (issueDate invoice)
                  else DateObj nowUbl).
    assert (∃ s, formatDateField getFullYear getMonth getDate issue
                 = Return s) as [issueText ->].
    { subst issue. destruct (truthy_date (issueDate invoice)) eqn:Ht.
      - by apply formatDateField_ok.
      - cbn. eauto. }
    cbn [mbind Exc_bind].
    destruct (dueDate invoice) as [[d|s]|]; try done. cbn in Hd.
    cbn [truthy_date]. rewrite Hd. reflexivity.
  - destruct (issueDate invoice) as [[d|s]|]; try done. cbn in Hi.
    cbn [truthy_date]. rewrite Hi. reflexivity.
Qed.

Lemma normalized_dates_ok (h : Store) (x : Invoice_ loc) :
  let r := normalizeInvoice Date_parse h x in
  date_ok (issueDate (deref r.1 r.2)) = true
  ∧ date_ok (dueDate (deref r.1 r.2)) = true.
Proof.
  cbv zeta.
  destruct (deref_fields (normalizeInvoice Date_parse h x).1
              (normalizeInvoice Date_parse h x).2) as (_ & -> & -> & _).
  destruct (normalized_header Date_parse h x) as (_ & -> & -> & _).
  split; apply coerceDate_ok.
Qed.

(** X10. The serializer raises exactly when one of the two date fields
    is a non-empty string instead of a [Date] (its [getFullYear] is
    missing); on the output of the normalizer, which turns such strings
    into [Date] objects, it always returns a document. *)
Theorem convertToUBL_throws_iff :
  (∀ invoice,
     (∃ e, convertToUBL nowUbl getFullYear getMonth getDate invoice = Throw e)
     ↔ date_ok (issueDate invoice) = false ∨ date_ok (dueDate invoice) = false)
  ∧ (∀ h x,
       let r := normalizeInvoice Date_parse h x in
       ∃ doc, convertToUBL nowUbl getFullYear getMonth getDate
                (deref r.1 r.2) = Return doc).
Proof.
  split.
  - intros invoice. split.
    + intros [e He].
      destruct (date_ok (issueDate invoice)) eqn:Hi; [|by left].
      destruct (date_ok (dueDate invoice)) eqn:Hd; [|by right].
      destruct (convertToUBL_elements nowUbl getFullYear getMonth getDate
                  invoice Hi Hd) as (doc & Hdoc & _).
      congruence.
    + intros Hbad. eexists. by apply convertToUBL_throws.
  - intros h x. cbv zeta.
    destruct (normalized_dates_ok h x) as [Hi Hd].
    destruct (convertToUBL_elements nowUbl getFullYear getMonth getDate
                _ Hi Hd) as (doc & Hdoc & _).
    eauto.
Qed.

(** X11. An issue date the platform cannot parse goes through the
    pipeline as an invalid [Date]: the normalizer turns the string into
    the invalid date, the business rules raise ERR_INVALID_ISSUE_DATE so
    that the report is not valid, and the serializer still returns a
    document, whose IssueDate reads NaN-NaN-NaN. *)
Theorem unparsable_issue_date (h : Store) (x : Invoice_ loc) (s : string) :
  issueDate x = Some (DateStr s) → s ≠ "" → Date_parse s = None →
  let r := normalizeInvoice Date_parse h x in
  let n := deref r.1 r.2 in
  issueDate n = Some (DateObj None)
  ∧ emits "ERR_INVALID_ISSUE_DATE" (validateBusinessRules Date_parse now n)
  ∧ isValid (buildValidationReport (validateBusinessRules Date_parse now n))
    = false
  ∧ ∃ doc,
      convertToUBL nowUbl getFullYear getMonth getDate n = Return doc
      ∧ invoiceElement doc "cbc:IssueDate" = Some (JStr "NaN-NaN-NaN").
Proof.
  intros Hx Hs Hp. cbv zeta.
  set (n := deref _ _).
  assert (issueDate n = Some (DateObj None)) as Hn.
  { subst n.
    destruct (deref_fields (normalizeInvoice Date_parse h x).1
                (normalizeInvoice Date_parse h x).2) as (_ & -> & _).
    destruct (normalized_header Date_parse h x) as (_ & -> & _).
    rewrite Hx. cbn. apply String.eqb_neq in Hs. by rewrite Hs, Hp. }
  assert (mkError "ERR_INVALID_ISSUE_DATE" error (Some "Invoice.IssueDate")
          ∈ validateBusinessRules Date_parse now n) as Hin.
  { unfold validateBusinessRules. rewrite !elem_of_app. right. left.
    unfold issueDateFindings. rewrite Hn. cbn. apply list_elem_of_here. }
  split; [exact Hn|]. split; [|split].
  - unfold emits. apply list_elem_of_fmap. eexists. by split; [|exact Hin].
  - apply not_true_is_false. rewrite buildValidationReport_isValid.
    rewrite Forall_forall. intros Hall. by apply Hall in Hin.
  - destruct (normalized_dates_ok h x) as [Hi Hd]. fold n in Hi, Hd.
    destruct (convertToUBL_header_elements n Hi Hd)
      as (doc & Hdoc & _ & Hissue & _).
    exists doc. split; [exact Hdoc|]. by rewrite Hissue, Hn.
Qed.



Lemma blank_spaces (s : string) : trim s = "" → blank (Some s) = true.
Proof.
  intros Hs. unfold blank. rewrite Hs. cbn. apply orb_true_r.
Qed.

(** X13. The invoice number in the document is the invoice's own
    whenever that is a non-empty string, and UNKNOWN otherwise.  A
    number made of whitespace only is reported by the validator as
    missing and is nevertheless written as it is. *)
Theorem invoice_number_default (invoice : InvoiceNormalized) :
  date_ok (issueDate invoice) = true → date_ok (dueDate invoice) = true →
  ∃ doc,
    convertToUBL nowUbl getFullYear getMonth getDate invoice = Return doc
    ∧ (truthy_str (invoiceNumber invoice) = false
       → invoiceElement doc "cbc:ID" = Some (JStr "UNKNOWN"))
    ∧ (∀ s, invoiceNumber invoice = Some s → s ≠ "" →
         invoiceElement doc "cbc:ID" = Some (JStr s)
         ∧ (trim s = "" →
            emits "WARN_MISSING_INVOICE_ID"
              (validateBusinessRules Date_parse now invoice))).
Proof.
  intros Hi Hd.
  destruct (convertToUBL_header_elements invoice Hi Hd)
    as (doc & Hdoc & Hid & _).
  exists doc. split; [exact Hdoc|]. rewrite Hid. split.
  - destruct (invoiceNumber invoice) as [s|]; cbn; [|done].
    by intros ->%negb_false_iff.
  - intros s Hn Hs. split.
    + rewrite Hn. cbn. by destruct (String.eqb_spec s "").
    + intros Ht. unfold validateBusinessRules.
      rewrite !emits_app, emits_finding. left. split; [|done].
      rewrite Hn. by apply blank_spaces.
Qed.

End SerializerPipeline.

(** The issue date "soon" with a parser that rejects every string. *)
Lemma unparsable_issue_date_witness :
  ∃ doc,
    ToUbl.convertToUBL Examples.epoch Examples.year1970 Examples.january
      Examples.firstDay
      (deref (Normalize.normalizeInvoice Examples.noDateParser ∅
                MoreExamples.soonInvoice).1
         (Normalize.normalizeInvoice Examples.noDateParser ∅
            MoreExamples.soonInvoice).2) = Return doc
    ∧ ToUbl.invoiceElement doc "cbc:IssueDate" = Some (ToUbl.JStr "NaN-NaN-NaN").
Proof.
  exact (proj2 (proj2 (proj2
    (unparsable_issue_date Examples.noDateParser Examples.epoch Examples.epoch
       Examples.year1970 Examples.january Examples.firstDay ∅
       MoreExamples.soonInvoice "soon" eq_refl
       ltac:(discriminate) eq_refl)))).
Defined.


(** The consulting invoice has no dates and the number INV-2024-001. *)
Lemma invoice_number_default_witness :
  ∃ doc,
    ToUbl.convertToUBL Examples.epoch Examples.year1970 Examples.january
      Examples.firstDay Examples.consultingInvoice = Return doc
    ∧ ToUbl.invoiceElement doc "cbc:ID" = Some (ToUbl.JStr "INV-2024-001").
Proof.
  destruct (invoice_number_default Examples.noDateParser Examples.epoch
              Examples.epoch Examples.year1970 Examples.january
              Examples.firstDay Examples.consultingInvoice eq_refl eq_refl)
    as (doc & Hdoc & _ & Hid).
  exists doc. split; [exact Hdoc|].
  apply (Hid "INV-2024-001"); [reflexivity|discriminate].
Defined.

Section VatGroups.
Import Normalize Rules ToUbl.

(** The step of the loop of [buildTaxTotals] over the lines. *)
Local Abbreviation group_step :=
  (λ (g : VatGroups) (line : InvoiceLine),
     match vatRate line, lineTotal line with
     | Some rate, Some taxable =>
         group_add rate taxable (roundTo2Decimals (taxable * rate / num 100)) g
     | _, _ => g
     end).

Local Abbreviation sum_of := (foldr Qcplus 0).













End VatGroups.

(** ** The merge of the AI answer *)

Section MergeMore.
Import Normalize AI Handler.

Variable Date_parse : string → Date.

Lemma addExisting_step (m : list MappingField) (p : gset string)
  (f : MappingField) :
  addExisting (m, p) f
  = if decide (field f ∈ p) then (m, p) else (m ++ [f], {[field f]} ∪ p).
Proof. reflexivity. Qed.

(** The second loop of [mergeAIMappingFields] keeps the paths of the
    merged list distinct. *)
Lemma fold_addExisting_inv (l m : list MappingField) (p : gset string) :
  NoDup (field <$> m) → (∀ x, x ∈ field <$> m → x ∈ p) →
  let r := fold_left addExisting l (m, p) in
  NoDup (field <$> r.1)
  ∧ (∀ x, x ∈ field <$> r.1 ↔ x ∈ field <$> m ∨ (x ∈ field <$> l ∧ x ∉ p))
  ∧ (NoDup (field <$> l) → (∀ x, x ∈ field <$> l → x ∉ p) → r.1 = m ++ l).
Proof.
  revert m p. induction l as [|f l IH]; intros m p Hm Hp; cbv zeta.
  { cbn [fold_left fst]. split; [done|]. split; [|by rewrite app_nil_r].
    intros x. split; [by left|]. intros [?|[[]%elem_of_nil _]]; done. }
  cbn [fold_left]. rewrite addExisting_step.
  destruct (decide (field f ∈ p)) as [Hin|Hout].
  - destruct (IH m p Hm Hp) as (Hnd & Hmem & Heq).
    split; [exact Hnd|]. split.
    + intros x. rewrite Hmem, fmap_cons, elem_of_cons. split.
      * intros [?|[? ?]]; [by left|right; split; [by right|done]].
      * intros [?|[[->|?] ?]]; [by left|done|by right].
    + intros _ Hfresh. exfalso. apply (Hfresh (field f)); [|done].
      rewrite fmap_cons. apply list_elem_of_here.
  - assert (NoDup (field <$> m ++ [f])) as Hm'.
    { rewrite fmap_app. apply NoDup_app. split; [done|].
      split; [|apply NoDup_singleton].
      intros x Hx Hx'%list_elem_of_singleton. subst. by apply Hout, Hp. }
    assert (∀ x, x ∈ field <$> m ++ [f] → x ∈ {[field f]} ∪ p) as Hp'.
    { intros x. rewrite fmap_app, elem_of_app, elem_of_union.
      intros [?|Hx%list_elem_of_singleton]; [right; by apply Hp|].
      left. by apply elem_of_singleton. }
    destruct (IH _ _ Hm' Hp') as (Hnd & Hmem & Heq).
    split; [exact Hnd|]. split.
    + intros x. rewrite Hmem, fmap_app, elem_of_app. cbn [fmap list_fmap].
      rewrite list_elem_of_singleton, elem_of_cons, elem_of_union,
        elem_of_singleton.
      split.
      * intros [[?| ->]|[? Hx]]; [by left| |].
        -- right. split; [by left|done].
        -- right. split; [by right|]. intros ?. apply Hx. by right.
      * intros [?|[[->|?] Hx]]; [by left; left|by left; right|].
        destruct (decide (x = field f)) as [->|Hne]; [by left; right|].
        right. split; [done|]. by intros [?|?].
    + rewrite fmap_cons, NoDup_cons. intros [Hf Hl] Hfresh.
      rewrite Heq, <-app_assoc; [done|done|].
      intros x Hx. rewrite elem_of_union, elem_of_singleton.
      intros [->|Hxp]; [done|]. apply (Hfresh x); [|done].
      by apply list_elem_of_further.
Qed.

Lemma fold_addExisting_length (l m kept : list MappingField)
  (p p' : gset string) :
  fold_left addExisting l (m, p) = (m ++ kept, p') →
  (length kept ≤ length l)%nat.
Proof.
  revert m p p' kept. induction l as [|f l IH]; intros m p p' kept Heq.
  - cbn in Heq. injection Heq as Heq _.
    rewrite <-(app_nil_r m) in Heq at 1. apply app_inv_head in Heq.
    by subst.
  - cbn [fold_left] in Heq. rewrite addExisting_step in Heq.
    destruct (decide (field f ∈ p)).
    + apply IH in Heq. cbn. lia.
    + destruct (fold_addExisting l (m ++ [f]) ({[field f]} ∪ p))
        as (kept' & p'' & Heq' & _).
      rewrite Heq' in Heq. injection Heq as Heq _.
      rewrite <-app_assoc in Heq. apply app_inv_head in Heq. subst kept.
      apply IH in Heq'. cbn. lia.
Qed.

Lemma aiFieldsOf_length (aiData : AIData) (src : string) :
  (length (aiFieldsOf aiData src) ≤ 4)%nat.
Proof.
  unfold aiFieldsOf, aiField. rewrite !length_app.
  repeat match goal with
         | |- context [match ?o with Some _ => _ | None => _ end] =>
             destruct o
         | |- context [if ?b then _ else _] => destruct b
         end; cbn; lia.
Qed.

(** X15. The merged list of mapping fields never holds two entries for
    one field path: its paths are distinct, they are the paths of the AI
    entries together with those of the initial entries, and there are at
    most four entries more than initial ones.  When the AI found none of
    the four header fields and the initial entries have distinct paths,
    the merged list is the initial list. *)
Theorem mergeAIMappingFields_paths (existing : list MappingField)
  (aiData : AIData) (src : string) :
  let merged := mergeAIMappingFields existing aiData src in
  NoDup (field <$> merged)
  ∧ (∀ p, p ∈ field <$> merged
       ↔ p ∈ field <$> aiFieldsOf aiData src ∨ p ∈ field <$> existing)
  ∧ (length merged ≤ length existing + 4)%nat
  ∧ (aiFieldsOf aiData src = [] → NoDup (field <$> existing)
     → merged = existing).
Proof.
  cbv zeta. unfold mergeAIMappingFields. rewrite fold_addAI.
  cbn [fst snd app].
  set (A := aiFieldsOf aiData src).
  set (P := list_to_set (field <$> A) ∪ (∅ : gset string)).
  assert (∀ x, x ∈ field <$> A ↔ x ∈ P) as HP.
  { intros x. subst P. rewrite elem_of_union, elem_of_list_to_set.
    split; [by left|]. intros [?|[]%elem_of_empty]; done. }
  destruct (fold_addExisting existing A P) as (kept & p' & Heq & Hk & Hsub).
  destruct (fold_addExisting_inv existing A P (aiFieldsOf_NoDup aiData src))
    as (Hnd & Hmem & Hid).
  { intros x. apply HP. }
  rewrite fold_addNewAI.
  2:{ rewrite Heq. cbn [snd]. apply Forall_forall. intros a Ha.
      apply Hsub, HP, list_elem_of_fmap. eauto. }
  split; [exact Hnd|]. split; [|split].
  - intros x. rewrite Hmem. split.
    + intros [?|[? _]]; [by left|by right].
    + intros [?|Hx]; [by left|].
      destruct (decide (x ∈ P)) as [Hin|Hout]; [left; by apply HP|by right].
  - rewrite Heq. cbn [fst]. rewrite length_app.
    pose proof (aiFieldsOf_length aiData src). fold A in H.
    pose proof (fold_addExisting_length _ _ _ _ _ Heq). lia.
  - intros HA Hex. rewrite Hid; [by rewrite HA|done|].
    intros x _ Hx%HP. rewrite HA in Hx. by apply elem_of_nil in Hx.
Qed.

(** [normalizeInvoice] on values: the record returned, with the two
    parties as the call leaves them. *)
Lemma normalizeValue_spec (x : InvoiceNormalized) :
  normalizeValue Date_parse x =
  calculateTotals
    (mkInvoice (invoiceNumber x) (coerceDate Date_parse (issueDate x))
       (coerceDate Date_parse (dueDate x)) (normalizedCurrency (currency x))
       (normalizedParty <$> supplier x) (normalizedParty <$> customer x)
       (paymentReference x) (normalizedIban (iban x))
       (bic x) ((λ line, normalizeLine line 0) <$> lines x)
       (subtotalExclVat x) (vatTotal x) (totalInclVat x)
       (sourceType x) (sourceFile x) (extractionConfidence x)).
Proof.
  unfold normalizeValue. cbv zeta. unfold deref.
  rewrite normalizeInvoice_fst, normalizeInvoice_snd.
  rewrite !calculateTotals_fields. cbv zeta. unfold alloc. fields.
  f_equal.
  - destruct (supplier x) as [s|]; [|done]. cbn [mbind option_bind].
    rewrite !normalizePartyVat_lookup.
    rewrite decide_False by (by destruct (customer x)).
    rewrite decide_True by done.
    destruct (customer x) as [c|].
    + by rewrite lookup_insert_ne, lookup_insert_eq.
    + by rewrite lookup_insert_eq.
  - destruct (customer x) as [c|]; [|done]. cbn [mbind option_bind].
    rewrite !normalizePartyVat_lookup.
    rewrite decide_True by done.
    rewrite decide_False by (by destruct (supplier x)).
    by rewrite lookup_insert_eq.
Qed.

Lemma normalizedCurrency_default (c : option string) :
  normalizedCurrency (str_or c (Some "EUR")) = normalizedCurrency c.
Proof.
  unfold normalizedCurrency, str_or.
  by destruct (truthy_str c) eqn:Hc; rewrite ?Hc.
Qed.

(** X16. An answer in which the service found nothing leaves the
    conversion as it was: when every header string and date of the
    answer is null or empty, both parties and all three totals are null
    and the line array is null or empty, the merged invoice is the
    candidate with its currency defaulted to EUR, no AI mapping entry is
    added, and the merged invoice normalizes to what the candidate
    normalizes to. *)
Theorem empty_answer_changes_nothing (existing : InvoiceNormalized)
  (aiData : AIData) (src : string) :
  truthy_str (ai_invoiceNumber aiData) = false →
  truthy_str (ai_issueDate aiData) = false →
  truthy_str (ai_dueDate aiData) = false →
  truthy_str (ai_currency aiData) = false →
  truthy_str (ai_iban aiData) = false →
  truthy_str (ai_paymentReference aiData) = false →
  ai_supplier aiData = None → ai_customer aiData = None →
  ai_lines aiData = None ∨ ai_lines aiData = Some [] →
  ai_subtotalExclVat aiData = None → ai_vatTotal aiData = None →
  ai_totalInclVat aiData = None →
  mergeAIResults Date_parse existing aiData
  = set_currency existing (str_or (currency existing) (Some "EUR"))
  ∧ aiFieldsOf aiData src = []
  ∧ normalizeValue Date_parse (mergeAIResults Date_parse existing aiData)
    = normalizeValue Date_parse existing.
Proof.
  intros Hn Hi Hd Hc Hib Hp Hs Hcu Hl Hst Hvt Htt.
  assert (mergeAIResults Date_parse existing aiData
          = set_currency existing (str_or (currency existing) (Some "EUR")))
    as Hm.
  { unfold mergeAIResults, date_override, set_currency.
    rewrite (str_or_falsy _ _ Hn), (str_or_falsy _ _ Hc),
      (str_or_falsy _ _ Hib), (str_or_falsy _ _ Hp).
    rewrite Hi, Hd, Hs, Hcu, Hst, Hvt, Htt.
    cbn [num_override].
    assert (mergeParty (supplier existing) None = supplier existing) as ->
      by by destruct (supplier existing).
    assert (mergeParty (customer existing) None = customer existing) as ->
      by by destruct (customer existing).
    by destruct Hl as [-> | ->]. }
  split; [exact Hm|]. split.
  - unfold aiFieldsOf, aiField. rewrite Hs, Hcu. cbn [mbind option_bind].
    destruct (ai_invoiceNumber aiData) as [a|]; cbn in Hn; rewrite ?Hn;
      destruct (ai_issueDate aiData) as [b|]; cbn in Hi; rewrite ?Hi; done.
  - rewrite Hm, !normalizeValue_spec. unfold set_currency. fields.
    by rewrite normalizedCurrency_default.
Qed.

(** X17. The issue date of the merge.  An answer without issue date,
    or with an empty one, keeps the date of the candidate, and an answer
    the platform parses replaces it.  An answer that is the string null,
    or any other non-empty string [parseDate] cannot read, discards the
    date of the candidate: the merged invoice has no issue date. *)
Theorem ai_issue_date_merge (existing : InvoiceNormalized)
  (aiData : AIData) :
  let merged := mergeAIResults Date_parse existing aiData in
  (truthy_str (ai_issueDate aiData) = false
   → issueDate merged = issueDate existing)
  ∧ (∀ s t, ai_issueDate aiData = Some s → s ≠ "" → s ≠ "null" →
       Date_parse s = Some t → issueDate merged = Some (DateObj (Some t)))
  ∧ (ai_issueDate aiData = Some "null" → issueDate merged = None)
  ∧ (∀ s, ai_issueDate aiData = Some s → s ≠ "" →
       parseDate Date_parse (Some s) = None → issueDate merged = None).
Proof.
  cbv zeta. unfold mergeAIResults, date_override. fields.
  split; [|split; [|split]].
  - by intros ->.
  - intros s t Ha Hs Hn Hp. rewrite Ha, truthy_str_Some by done.
    unfold parseDate. apply String.eqb_neq in Hs, Hn.
    by rewrite Hs, Hn, Hp.
  - by intros ->.
  - intros s Ha Hs Hp. by rewrite Ha, truthy_str_Some, Hp.
Qed.

End MergeMore.

(** The candidate has an issue date; the answer says null. *)
Lemma ai_issue_date_merge_witness :
  issueDate
    (AI.mergeAIResults Examples.noDateParser
       (set_issueDate Examples.candidateInvoice
          (Some (DateObj Examples.epoch)))
       (AI.mkAIData None (Some "null") None None None None None None None
          None None None)) = None.
Proof.
  exact (proj1 (proj2 (proj2
    (ai_issue_date_merge Examples.noDateParser
       (set_issueDate Examples.candidateInvoice
          (Some (DateObj Examples.epoch)))
       (AI.mkAIData None (Some "null") None None None None None None None
          None None None)))) eq_refl).
Defined.

(** The answer with nothing in it, merged into the candidate OLD-1. *)
Lemma empty_answer_changes_nothing_witness :
  AI.mergeAIResults Examples.noDateParser Examples.candidateInvoice
    Examples.aiNothing
  = set_currency Examples.candidateInvoice (Some "EUR")
  ∧ AI.aiFieldsOf Examples.aiNothing "ai-gemini" = []
  ∧ Handler.normalizeValue Examples.noDateParser
      (AI.mergeAIResults Examples.noDateParser Examples.candidateInvoice
         Examples.aiNothing)
    = Handler.normalizeValue Examples.noDateParser Examples.candidateInvoice.
Proof.
  apply (empty_answer_changes_nothing Examples.noDateParser
           Examples.candidateInvoice Examples.aiNothing "ai-gemini");
    first [reflexivity | by left].
Defined.

(** ** The data-quality check and the quality score *)

Section Quality.
Import Rules DataQuality.

Local Abbreviation is_error := (λ e : ValidationError, severity e = error).

Lemma Exists_finding (cond : bool) (c : string) (sev : Severity)
  (path : string) :
  Exists is_error (finding cond c sev path) ↔ cond = true ∧ sev = error.
Proof.
  unfold finding. destruct cond.
  - rewrite Exists_cons, Exists_nil. cbn. tauto.
  - rewrite Exists_nil. split; [done|]. by intros [? _].
Qed.

Lemma Exists_warning (cond : bool) (c path : string) :
  ¬ Exists is_error (finding cond c warning path).
Proof. rewrite Exists_finding. by intros [_ ?]. Qed.

Lemma Exists_concat_imap {A : Type} (f : nat → A → list ValidationError)
  (Q : A → Prop) (l : list A) :
  (∀ i x, Exists is_error (f i x) ↔ Q x) →
  Exists is_error (concat (imap f l)) ↔ ∃ x, x ∈ l ∧ Q x.
Proof.
  revert f. induction l as [|x l IH]; intros f Hf; cbn.
  - rewrite Exists_nil. split; [done|]. by intros (x & []%elem_of_nil & _).
  - rewrite Exists_app, Hf, (IH (f ∘ S)) by (intros; apply Hf). split.
    + intros [?|(y & ? & ?)].
      * exists x. split; [apply list_elem_of_here|done].
      * exists y. split; [by apply list_elem_of_further|done].
    + intros (y & [->|?]%elem_of_cons & ?); [by left|right; eauto].
Qed.

Lemma lt_true (x y : Number) : lt x y = true ↔ x < y.
Proof. unfold lt. by rewrite bool_decide_eq_true. Qed.

(** A line with a negative quantity, unit price or line total, or with a
    VAT rate outside 0..100. *)
Local Abbreviation bad_line :=
  (λ line : InvoiceLine,
     (∃ q, quantity line = Some q ∧ q < 0)
     ∨ (∃ p, unitPrice line = Some p ∧ p < 0)
     ∨ (∃ t, lineTotal line = Some t ∧ t < 0)
     ∨ (∃ r, vatRate line = Some r ∧ (r < 0 ∨ num 100 < r))).

Lemma lineQuality_error (index : nat) (line : InvoiceLine) :
  Exists is_error (lineQuality index line) ↔ bad_line line.
Proof.
  unfold lineQuality. cbv zeta. rewrite !Exists_app. split.
  - intros [H|[H|[H|[H|[H|H]]]]].
    + destruct (quantity line) as [q|]; [|by apply Exists_nil in H].
      apply Exists_finding in H as [H%lt_true _]. left. eauto.
    + destruct (unitPrice line) as [p|]; [|by apply Exists_nil in H].
      apply Exists_finding in H as [H%lt_true _]. right; left. eauto.
    + destruct (lineTotal line) as [t|]; [|by apply Exists_nil in H].
      apply Exists_finding in H as [H%lt_true _]. right; right; left. eauto.
    + destruct (lineTotal line) as [t|]; [|by apply Exists_nil in H].
      by apply Exists_warning in H.
    + destruct (lineTotal line), (quantity line), (unitPrice line);
        try (by apply Exists_nil in H). by apply Exists_warning in H.
    + destruct (vatRate line) as [r|]; [|by apply Exists_nil in H].
      destruct (lt r 0 || gt r (num 100)) eqn:Hr;
        [|by apply Exists_warning in H].
      right; right; right. exists r. split; [done|].
      apply orb_true_iff in Hr as [Hr%lt_true|Hr%gt_true]; tauto.
  - intros [(q & -> & Hq)|[(p & -> & Hp)|[(t & -> & Ht)|(r & -> & Hr)]]].
    + left. apply Exists_finding. by rewrite lt_true.
    + right; left. apply Exists_finding. by rewrite lt_true.
    + right; right; left. apply Exists_finding. by rewrite lt_true.
    + do 5 right.
      assert (lt r 0 || gt r (num 100) = true) as ->.
      { apply orb_true_iff. rewrite lt_true, gt_true. tauto. }
      by apply Exists_cons_hd.
Qed.

Lemma confidenceFindings_warning (mappingFields : list MappingField) :
  ¬ Exists is_error (confidenceFindings mappingFields).
Proof.
  unfold confidenceFindings, criticalFields. cbn [fmap list_fmap concat].
  rewrite !Exists_app, Exists_nil.
  intros [H|[H|[H|[H|[]]]]];
    match type of H with
    | context [findField ?fs ?f] => destruct (findField fs f)
    end; first [by apply Exists_warning in H | by apply Exists_nil in H].
Qed.

Section WithPlatform.
Variable Date_parse : string → Date.
Variable now : Z.
Variable getFullYear getMonth getDate : Z → Z.
Variable Date_of : Z → Z → Z → Date.

(** X18. The data-quality check raises a finding of severity error
    exactly when some line has a negative quantity, unit price or line
    total or a VAT rate below 0 or above 100, or the grand total is
    negative; low confidence, suspicious names and numbers, dates far
    away, unknown country codes and large amounts only ever give
    warnings. *)
Theorem data_quality_errors (invoice : InvoiceNormalized)
  (mappingFields : list MappingField) :
  Exists (λ e, severity e = error)
    (validateDataQuality Date_parse now getFullYear getMonth getDate Date_of
       invoice mappingFields)
  ↔ (∃ line, line ∈ lines invoice
       ∧ ((∃ q, quantity line = Some q ∧ q < 0)
          ∨ (∃ p, unitPrice line = Some p ∧ p < 0)
          ∨ (∃ t, lineTotal line = Some t ∧ t < 0)
          ∨ (∃ r, vatRate line = Some r ∧ (r < 0 ∨ num 100 < r))))
    ∨ (∃ t, totalInclVat invoice = Some t ∧ t < 0).
Proof.
  unfold validateDataQuality. rewrite !Exists_app.
  assert (Exists is_error
            (if Nat.ltb 0 (length (lines invoice))
             then concat (imap lineQuality (lines invoice)) else [])
          ↔ ∃ line, line ∈ lines invoice ∧ bad_line line) as Hlines.
  { destruct (lines invoice) as [|l ls] eqn:Hl.
    - cbn. rewrite Exists_nil. split; [done|].
      by intros (x & []%elem_of_nil & _).
    - cbn [length Nat.ltb Nat.leb].
      apply Exists_concat_imap. intros i x. apply lineQuality_error. }
  assert (Exists is_error (totalQuality invoice)
          ↔ ∃ t, totalInclVat invoice = Some t ∧ t < 0) as Htotal.
  { unfold totalQuality. destruct (totalInclVat invoice) as [t|].
    - cbv zeta. rewrite Exists_app, Exists_finding, lt_true. split.
      + intros [[? _]|H]; [eauto|by apply Exists_warning in H].
      + intros (t' & [= <-] & ?). by left.
    - rewrite Exists_nil. split; [done|]. by intros (? & [=] & _). }
  rewrite Hlines, Htotal. split; [|tauto].
  intros [H|[H|[H|[H|[H|[H|[H|[H|[H|H]]]]]]]]]; try tauto; exfalso.
  - by apply confidenceFindings_warning in H.
  - unfold invoiceNumberFindings in H.
    destruct (invoiceNumber invoice); [|by apply Exists_nil in H].
    destruct (negb _); [by apply Exists_warning in H|by apply Exists_nil in H].
  - unfold dateQuality in H.
    destruct (truthy_date _); [|by apply Exists_nil in H].
    destruct (negb _); [|by apply Exists_nil in H].
    apply Exists_app in H as [H|H]; by apply Exists_warning in H.
  - unfold nameQuality in H.
    destruct (name_of _); [|by apply Exists_nil in H].
    destruct (negb _); [by apply Exists_warning in H|by apply Exists_nil in H].
  - unfold nameQuality in H.
    destruct (name_of _); [|by apply Exists_nil in H].
    destruct (negb _); [by apply Exists_warning in H|by apply Exists_nil in H].
  - unfold countryQuality in H.
    destruct (countryCode_of _); [|by apply Exists_nil in H].
    destruct (negb _); [by apply Exists_warning in H|by apply Exists_nil in H].
  - unfold countryQuality in H.
    destruct (countryCode_of _); [|by apply Exists_nil in H].
    destruct (negb _); [by apply Exists_warning in H|by apply Exists_nil in H].
  - destruct (Nat.ltb 0 _); [by apply Exists_warning in H|].
    by apply Exists_nil in H.
Qed.

End WithPlatform.
(** *** The score *)

Lemma Math_clamp (x : Number) :
  0 ≤ Math_max 0 (Math_min 1 x) ∧ Math_max 0 (Math_min 1 x) ≤ 1
  ∧ (x ≤ 0 → Math_max 0 (Math_min 1 x) = 0)
  ∧ (∀ b, x ≤ b → 0 ≤ b → Math_max 0 (Math_min 1 x) ≤ b)
  ∧ (∀ y, y ≤ x → Math_max 0 (Math_min 1 y) ≤ Math_max 0 (Math_min 1 x)).
Proof.
  unfold Math_max, Math_min.
  split; [|split; [|split; [|split]]].
  - repeat case_decide; qc2q; lra.
  - repeat case_decide; qc2q; lra.
  - intros Hx. repeat case_decide; try done; apply Qc_is_canon; qc2q; lra.
  - intros b Hb Hb0. repeat case_decide; qc2q; lra.
  - intros y Hy. repeat case_decide; qc2q; lra.
Qed.

(** The loop over the critical fields only ever lowers the score, by at
    most 0.15 a field, and adds at most one issue a field. *)
Lemma scoreField_step (mappingFields : list MappingField)
  (st : Number * list string) (fld : string) :
  let st' := scoreField mappingFields st fld in
  st'.1 ≤ st.1 ∧ st.1 - num 0.15 ≤ st'.1
  ∧ (length st'.2 ≤ length st.2 + 1)%nat
  ∧ (findField mappingFields fld = None → st'.1 = st.1 - num 0.1).
Proof.
  cbv zeta. unfold scoreField. destruct st as [sc iss]. cbn [fst snd].
  destruct (findField mappingFields fld) as [m|].
  - destruct (lt (confidence m) (num 0.5)); [|destruct (lt _ _)];
      cbn [fst snd]; rewrite ?length_app; cbn [length];
      (split; [qc2q; lra|split; [qc2q; lra|split; [lia|done]]]).
  - cbn [fst snd]. rewrite length_app. cbn [length].
    split; [qc2q; lra|split; [qc2q; lra|split; [lia|done]]].
Qed.

Lemma Qc_of_nat_0 : Qc_of_nat 0 = 0.
Proof. by apply Qc_is_canon. Qed.

Lemma Qc_of_nat_S (n : nat) : Qc_of_nat (S n) = Qc_of_nat n + 1.
Proof.
  unfold Qc_of_nat. rewrite Nat2Z.inj_succ. unfold Z.succ.
  generalize (Z.of_nat n). intros k.
  apply Qc_is_canon. qc2q. rewrite inject_Z_plus. qc2q. lra.
Qed.

Lemma scoreFields_fold (mappingFields : list MappingField)
  (fs : list string) (st : Number * list string) :
  let st' := fold_left (scoreField mappingFields) fs st in
  st'.1 ≤ st.1
  ∧ (length st'.2 ≤ length st.2 + length fs)%nat
  ∧ (Forall (λ f, findField mappingFields f = None) fs →
     st'.1 = st.1 - Qc_of_nat (length fs) * num 0.1).
Proof.
  revert st. induction fs as [|f fs IH]; intros st; cbv zeta.
  { cbn [fold_left length]. split; [qc2q; lra|]. split; [lia|].
    intros _. rewrite Qc_of_nat_0. apply Qc_is_canon. qc2q. lra. }
  cbn [fold_left].
  destruct (scoreField_step mappingFields st f) as (H1 & _ & H3 & H4).
  destruct (IH (scoreField mappingFields st f)) as (I1 & I2 & I3).
  split; [|split].
  - revert H1 I1. generalize (scoreField mappingFields st f).1.
    generalize (fold_left (scoreField mappingFields) fs
                  (scoreField mappingFields st f)).1.
    generalize st.1. intros a b c. qc2q. lra.
  - cbn [length]. lia.
  - intros [Hf Hfs]%Forall_cons. rewrite (I3 Hfs), (H4 Hf).
    cbn [length]. rewrite Qc_of_nat_S.
    generalize (Qc_of_nat (length fs)) st.1. intros k a.
    apply Qc_is_canon. qc2q. lra.
Qed.

Lemma Qc_of_nat_le (n m : nat) : (n ≤ m)%nat → Qc_of_nat n ≤ Qc_of_nat m.
Proof. intros H. apply Qc_of_Z_le. lia. Qed.

Lemma Qc_of_nat_nonneg (n : nat) : 0 ≤ Qc_of_nat n.
Proof. apply (Qc_of_nat_le 0 n). lia. Qed.

Lemma minus_zero (x : Number) : x - 0 = x.
Proof. apply Qc_is_canon. qc2q. lra. Qed.

Lemma raw_antitone_error (b E W p : Number) :
  b - (E + 1) * num 0.1 - W * num 0.02 - p
  ≤ b - E * num 0.1 - W * num 0.02 - p.
Proof. qc2q. lra. Qed.

Lemma raw_antitone_warning (b E W p : Number) :
  b - E * num 0.1 - (W + 1) * num 0.02 - p
  ≤ b - E * num 0.1 - W * num 0.02 - p.
Proof. qc2q. lra. Qed.

Lemma raw_with_error_and_warning (b E W p : Number) :
  1 ≤ E → 1 ≤ W → 0 ≤ p → b ≤ 1 →
  b - E * num 0.1 - W * num 0.02 - p ≤ num 0.88.
Proof. intros. qc2q. lra. Qed.

Lemma raw_with_ten_errors (b E W p : Number) :
  num 10 ≤ E → 0 ≤ W → 0 ≤ p → b ≤ 1 →
  b - E * num 0.1 - W * num 0.02 - p ≤ 0.
Proof. intros. qc2q. lra. Qed.

Lemma raw_without_mappings (E W p : Number) :
  0 ≤ E → 0 ≤ W → 0 ≤ p →
  num 0.6 - E * num 0.1 - W * num 0.02 - p ≤ num 0.6.
Proof. intros. qc2q. lra. Qed.

(** The score before it is clamped, in terms of the counts. *)
Lemma raw_score (invoice : InvoiceNormalized)
  (mappingFields : list MappingField)
  (validationErrors : list ValidationError) :
  let errorCount :=
    length (List.filter (has_severity error) validationErrors) in
  let warningCount :=
    length (List.filter (has_severity warning) validationErrors) in
  ∃ base penalty : Number,
    base ≤ 1 ∧ 0 ≤ penalty
    ∧ ((∀ f, f ∈ fst ∘ fst <$> criticalFields
             → findField mappingFields f = None)
       → base = num 0.6)
    ∧ (∀ es,
         score (calculateDataQualityScore invoice mappingFields es)
         = Math_max 0
             (Math_min 1
                (base
                 - Qc_of_nat (length (List.filter (has_severity error) es))
                   * num 0.1
                 - Qc_of_nat (length (List.filter (has_severity warning) es))
                   * num 0.02
                 - penalty))).
Proof.
  cbv zeta.
  set (st := fold_left (scoreField mappingFields)
               ["invoiceNumber"; "issueDate"; "supplier.name";
                "customer.name"] (1, [])).
  destruct (scoreFields_fold mappingFields
              ["invoiceNumber"; "issueDate"; "supplier.name"; "customer.name"]
              (1, [])) as (Hle & _ & Hnone).
  fold st in Hle, Hnone. cbn [fst] in Hle, Hnone.
  set (suspicious :=
         match invoiceNumber invoice with
         | Some n =>
             negb (String.eqb n "")
             && (String.eqb (toUpperCase n) "UNKNOWN"
                 || Nat.ltb (String.length n) 3)
         | None => false
         end).
  exists st.1, (if suspicious then num 0.1 else 0).
  split; [exact Hle|]. split; [by destruct suspicious|]. split.
  - intros Hall. rewrite Hnone.
    + apply Qc_is_canon. vm_compute. reflexivity.
    + apply Forall_forall. intros f Hf. apply Hall.
      revert Hf. cbv [criticalFields]. cbn [fmap list_fmap compose fst].
      done.
  - intros es. unfold calculateDataQualityScore. cbv zeta. fold st.
    subst suspicious. destruct (invoiceNumber invoice) as [n|].
    + destruct (negb (String.eqb n "")
                && (String.eqb (toUpperCase n) "UNKNOWN"
                    || Nat.ltb (String.length n) 3)); cbn [score fst];
        by rewrite ?minus_zero.
    + cbn [score fst]. by rewrite minus_zero.
Qed.

Lemma levelOf_below (sc b : Number) :
  sc ≤ b → b < num 0.9 → levelOf sc ≠ excellent.
Proof.
  intros Hs Hb. unfold levelOf, ge.
  rewrite bool_decide_eq_false_2.
  - repeat case_bool_decide; done.
  - intros H. revert Hs Hb H. generalize sc b. intros x y. qc2q. lra.
Qed.

Lemma levelOf_fair (sc b : Number) :
  sc ≤ b → b < num 0.7 → levelOf sc = fair ∨ levelOf sc = poor.
Proof.
  intros Hs Hb. unfold levelOf, ge.
  rewrite (bool_decide_eq_false_2 (num 0.9 ≤ sc)),
    (bool_decide_eq_false_2 (num 0.7 ≤ sc)).
  - case_bool_decide; tauto.
  - intros H. revert Hs Hb H. generalize sc b. intros x y. qc2q. lra.
  - intros H. revert Hs Hb H. generalize sc b. intros x y. qc2q. lra.
Qed.

Lemma count_cons (s : Severity) (e : ValidationError)
  (es : list ValidationError) :
  length (List.filter (has_severity s) (e :: es))
  = (length (List.filter (has_severity s) es)
     + if bool_decide (severity e = s) then 1 else 0)%nat.
Proof.
  cbn [List.filter].
  assert (has_severity s e = bool_decide (severity e = s)) as -> by done.
  case_bool_decide; cbn [length]; lia.
Qed.


(** X19. The quality score lies between 0 and 1 and never rises when a
    finding is added.  With at least one error and one warning among the
    findings the level is not excellent; with ten errors or more the
    score is 0 and the level poor; when none of the four critical fields
    has a mapping entry the level is at best fair; and no more than five
    issues are listed. *)
Theorem quality_score_bounds (invoice : InvoiceNormalized)
  (mappingFields : list MappingField) (es : list ValidationError) :
  let r := calculateDataQualityScore invoice mappingFields es in
  let errorCount := length (List.filter (has_severity error) es) in
  let warningCount := length (List.filter (has_severity warning) es) in
  0 ≤ score r ∧ score r ≤ 1
  ∧ (∀ e, score (calculateDataQualityScore invoice mappingFields (e :: es))
          ≤ score r)
  ∧ ((1 ≤ errorCount)%nat → (1 ≤ warningCount)%nat → level r ≠ excellent)
  ∧ ((10 ≤ errorCount)%nat → score r = 0 ∧ level r = poor)
  ∧ ((∀ f, f ∈ fst ∘ fst <$> criticalFields
           → findField mappingFields f = None)
     → level r = fair ∨ level r = poor)
  ∧ (length (issues r) ≤ 5)%nat.
Proof.
  cbv zeta.
  destruct (raw_score invoice mappingFields es)
    as (base & penalty & Hb & Hp & Hnone & Hscore).
  assert (∀ es', level (calculateDataQualityScore invoice mappingFields es')
                 = levelOf (score (calculateDataQualityScore invoice
                                     mappingFields es'))) as Hlevel by done.
  rewrite Hlevel, !Hscore.
  pose proof (Qc_of_nat_nonneg (length (List.filter (has_severity error) es)))
    as HE.
  pose proof (Qc_of_nat_nonneg
                (length (List.filter (has_severity warning) es))) as HW.
  set (raw := base
              - Qc_of_nat (length (List.filter (has_severity error) es))
                * num 0.1
              - Qc_of_nat (length (List.filter (has_severity warning) es))
                * num 0.02
              - penalty).
  destruct (Math_clamp raw) as (H0 & H1 & Hzero & Hup & Hmono).
  split; [exact H0|]. split; [exact H1|].
  split; [|split; [|split; [|split]]].
  - intros e. rewrite Hscore. apply Hmono. subst raw.
    rewrite !count_cons.
    destruct (severity e);
      rewrite ?bool_decide_eq_true_2, ?bool_decide_eq_false_2 by done;
      rewrite ?Nat.add_0_r, ?Nat.add_1_r, ?Qc_of_nat_S.
    + apply raw_antitone_error.
    + apply raw_antitone_warning.
  - intros He Hw. apply (levelOf_below _ (num 0.88)); [|compute_done].
    apply Hup; [|compute_done]. subst raw.
    apply Qc_of_nat_le in He, Hw.
    assert (Qc_of_nat 1 = 1) as Hone by by apply Qc_is_canon.
    rewrite Hone in He, Hw. by apply raw_with_error_and_warning.
  - intros He.
    assert (raw ≤ 0) as Hraw.
    { subst raw. apply Qc_of_nat_le in He.
      assert (Qc_of_nat 10 = num 10) as Hten by by apply Qc_is_canon.
      rewrite Hten in He. by apply raw_with_ten_errors. }
    rewrite (Hzero Hraw). split; [done|]. compute_done.
  - intros Hall. apply (levelOf_fair _ (num 0.6)); [|compute_done].
    apply Hup; [|compute_done]. subst raw. rewrite (Hnone Hall).
    by apply raw_without_mappings.
  - unfold calculateDataQualityScore. cbv zeta. cbn [issues].
    destruct (scoreFields_fold mappingFields
                ["invoiceNumber"; "issueDate"; "supplier.name";
                 "customer.name"] (1, [])) as (_ & Hlen & _).
    cbn [length snd] in Hlen.
    destruct (invoiceNumber invoice) as [n|]; [|cbn [snd]; lia].
    destruct (negb _ && _); cbn [snd]; rewrite ?length_app; cbn [length]; lia.
Qed.

End Quality.

(** ** The request handlers *)

Section Preview.
Import Handler.

Lemma split_nl_cons (s : string) : ∃ l ls, split_nl s = l :: ls.
Proof.
  induction s as [|c r (l & ls & IH)]; cbn; [by eauto|].
  destruct (Ascii.eqb c AI.newline); [by eauto|]. rewrite IH. eauto.
Qed.

Lemma join_nl_cons (x y : string) (l : list string) :
  join_nl (x :: y :: l) = x +:+ String AI.newline (join_nl (y :: l)).
Proof. reflexivity. Qed.

Lemma append_cons (c : ascii) (a b : string) :
  String c a +:+ b = String c (a +:+ b).
Proof. reflexivity. Qed.

Lemma append_nil_r (a : string) : a +:+ "" = a.
Proof. induction a as [|c a IH]; [done|]. by rewrite append_cons, IH. Qed.

Lemma join_nl_char (c : ascii) (l : string) (ls : list string) :
  join_nl (String c l :: ls) = String c (join_nl (l :: ls)).
Proof. destruct ls; reflexivity. Qed.

(** Joining the lines of a text gives the text back. *)
Lemma join_split (s : string) : join_nl (split_nl s) = s.
Proof.
  induction s as [|c r IH]; [done|]. cbn [split_nl].
  destruct (Ascii.eqb_spec c AI.newline) as [->|Hc].
  - destruct (split_nl_cons r) as (l & ls & Hr). rewrite Hr in *.
    rewrite join_nl_cons, IH. reflexivity.
  - destruct (split_nl_cons r) as (l & ls & Hr). rewrite Hr in *.
    by rewrite join_nl_char, IH.
Qed.

(** A line of a text holds no line break: it is its own single line. *)
Lemma split_nl_lines (s : string) :
  Forall (λ l, split_nl l = [l]) (split_nl s).
Proof.
  induction s as [|c r IH]; cbn [split_nl]; [by repeat constructor|].
  destruct (Ascii.eqb c AI.newline) eqn:Hc; [by constructor|].
  destruct (split_nl_cons r) as (l & ls & Hr). rewrite Hr in *.
  apply Forall_cons in IH as [Hl Hls]. constructor; [|done].
  cbn [split_nl]. by rewrite Hc, Hl.
Qed.

Lemma split_nl_append (a b : string) :
  split_nl (a +:+ String AI.newline b) = split_nl a ++ split_nl b.
Proof.
  induction a as [|c r IH].
  - change ("" +:+ String AI.newline b) with (String AI.newline b).
    cbn [split_nl]. by rewrite Ascii.eqb_refl.
  - rewrite append_cons. cbn [split_nl].
    destruct (Ascii.eqb c AI.newline); [by rewrite IH|].
    rewrite IH. destruct (split_nl_cons r) as (l & ls & ->). reflexivity.
Qed.

Lemma split_join (l : list string) :
  l ≠ [] → Forall (λ x, split_nl x = [x]) l → split_nl (join_nl l) = l.
Proof.
  induction l as [|x [|y l] IH]; intros Hne Hl; [done| |].
  - apply Forall_cons in Hl as [Hx _]. exact Hx.
  - apply Forall_cons in Hl as [Hx Hl].
    rewrite join_nl_cons, split_nl_append, Hx, IH; done.
Qed.

(** X20. The preview of a document: joining the lines of the XML gives
    the XML back, so a document of at most 50 lines is its own preview; a
    longer one is cut to its first 50 lines followed by one line that
    marks the cut, 51 lines in all. *)
Theorem preview_lines (xml : string) :
  let xmlLines := split_nl xml in
  join_nl xmlLines = xml
  ∧ ((length xmlLines ≤ 50)%nat → previewOf xml = xml)
  ∧ ((50 < length xmlLines)%nat →
     split_nl (previewOf xml)
     = take 50 xmlLines ++ ["<!-- ... truncated ... -->"]
     ∧ length (split_nl (previewOf xml)) = 51%nat).
Proof.
  cbv zeta. split; [apply join_split|]. unfold previewOf. split.
  - intros Hlen. rewrite take_ge by done.
    rewrite (proj2 (Nat.ltb_ge _ _)) by done.
    by rewrite append_nil_r, join_split.
  - intros Hlen. rewrite (proj2 (Nat.ltb_lt _ _)) by done.
    assert (split_nl (join_nl (take 50 (split_nl xml))
                      +:+ String AI.newline "<!-- ... truncated ... -->")
            = take 50 (split_nl xml) ++ ["<!-- ... truncated ... -->"])
      as Hsplit.
    { rewrite split_nl_append, split_join.
      - reflexivity.
      - assert (length (take 50 (split_nl xml)) = 50%nat) as Hfifty
          by (rewrite length_take; lia).
        by destruct (take 50 (split_nl xml)).
      - apply Forall_take, split_nl_lines. }
    split; [exact Hsplit|].
    rewrite Hsplit, length_app, length_take. cbn [length]. lia.
Qed.

End Preview.

Section Update.
Import Normalize Rules ToUbl Handler.

Variable Date_parse : string → Date.
Variable render : JV → Exc string.
Variable nowUbl nowRules : Date.
Variable getFullYear getMonth getDate : Z → Z.


End Update.

Section MissingRequired.
Import Normalize Rules ToUbl DataQuality Handler.

Variable Date_parse : string → Date.
Variable nowRules : Date.
Variable nowQuality : Z.
Variable getFullYear getMonth getDate : Z → Z.
Variable Date_of : Z → Z → Z → Date.

(** The test of [findMissingRequiredFields] on a finding, and what it
    pushes. *)
Local Abbreviation missing_code :=
  (λ e : ValidationError,
     startsWith "WARN_MISSING_" (code e) || startsWith "ERR_MISSING_" (code e)).
Local Abbreviation reported :=
  (λ e : ValidationError, str_default (fieldPath e) (code e)).
Local Abbreviation paths_of :=
  (λ es : list ValidationError, reported <$> List.filter missing_code es).

Lemma findMissing_fold (es : list ValidationError) (acc : list string) :
  fold_left
    (λ missing e,
       if startsWith "WARN_MISSING_" (code e)
          || startsWith "ERR_MISSING_" (code e)
       then missing ++ [str_default (fieldPath e) (code e)]
       else missing) es acc
  = acc ++ paths_of es.
Proof.
  revert acc. induction es as [|e es IH]; intros acc;
    cbn [fold_left List.filter]; [by rewrite app_nil_r|].
  rewrite IH.
  destruct (startsWith "WARN_MISSING_" (code e)
            || startsWith "ERR_MISSING_" (code e)); [|done].
  by rewrite fmap_cons, <- app_assoc.
Qed.

Lemma paths_of_app (a b : list ValidationError) :
  paths_of (a ++ b) = paths_of a ++ paths_of b.
Proof. cbv beta. by rewrite List.filter_app, fmap_app. Qed.

Lemma paths_of_finding (cond : bool) (c : string) (sev : Severity)
  (path : string) :
  paths_of (finding cond c sev path)
  = if cond && (startsWith "WARN_MISSING_" c || startsWith "ERR_MISSING_" c)
    then [str_default (Some path) c] else [].
Proof.
  unfold finding. destruct cond; [|done]. cbn [List.filter code andb].
  by destruct (startsWith "WARN_MISSING_" c || startsWith "ERR_MISSING_" c).
Qed.

Lemma paths_of_none (es : list ValidationError) :
  Forall (λ e, missing_code e = false) es → paths_of es = [].
Proof.
  induction 1 as [|e es He _ IH]; [done|]. cbn [List.filter].
  cbv beta in He. by rewrite He.
Qed.

Lemma paths_of_concat_imap {A : Type} (f : nat → A → list ValidationError)
  (l : list A) :
  paths_of (concat (imap f l)) = concat (imap (λ i x, paths_of (f i x)) l).
Proof.
  revert f. induction l as [|x l IH]; intros f; [done|].
  cbn [imap concat]. rewrite paths_of_app. f_equal. apply (IH (f ∘ S)).
Qed.

(** In a report only the warnings can carry a missing-field code when
    every finding with such a code is a warning. *)
Lemma missing_errors (es : list ValidationError) :
  Forall (λ e, missing_code e = true → severity e = warning) es →
  List.filter missing_code (List.filter (has_severity error) es) = [].
Proof.
  induction 1 as [|e es He _ IH]; [done|]. cbn [List.filter].
  unfold has_severity at 1. cbv beta in He.
  destruct (severity e) eqn:Hs; cbn [bool_decide decide_rel].
  - rewrite bool_decide_eq_true_2 by done. cbn [List.filter].
    destruct (startsWith "WARN_MISSING_" (code e)
              || startsWith "ERR_MISSING_" (code e)); [|exact IH].
    by specialize (He eq_refl).
  - rewrite bool_decide_eq_false_2 by done. exact IH.
Qed.

Lemma missing_warnings (es : list ValidationError) :
  Forall (λ e, missing_code e = true → severity e = warning) es →
  List.filter missing_code (List.filter (has_severity warning) es)
  = List.filter missing_code es.
Proof.
  induction 1 as [|e es He _ IH]; [done|]. cbn [List.filter].
  unfold has_severity at 1. cbv beta in He.
  destruct (severity e) eqn:Hs; cbn [bool_decide decide_rel].
  - rewrite bool_decide_eq_false_2 by done.
    destruct (startsWith "WARN_MISSING_" (code e)
              || startsWith "ERR_MISSING_" (code e)); [|exact IH].
    by specialize (He eq_refl).
  - rewrite bool_decide_eq_true_2 by done. cbn [List.filter].
    by rewrite IH.
Qed.

Lemma Forall_finding (P : ValidationError → Prop) (cond : bool) (c : string)
  (sev : Severity) (path : string) :
  P (mkError c sev (Some path)) → Forall P (finding cond c sev path).
Proof. intros HP. unfold finding. destruct cond; by repeat constructor. Qed.

Ltac each_finding :=
  cbv zeta;
  repeat first
    [ apply Forall_nil_2
    | apply Forall_app_2
    | apply Forall_finding; cbv beta; first [reflexivity|done]
    | apply Forall_cons_2; [cbv beta; first [reflexivity|done]|]
    | match goal with
      | |- Forall _ (match ?x with _ => _ end) => destruct x
      end ].

Lemma businessRules_missing_are_warnings (invoice : InvoiceNormalized) :
  Forall (λ e, missing_code e = true → severity e = warning)
    (validateBusinessRules Date_parse nowRules invoice).
Proof.
  unfold validateBusinessRules, issueDateFindings, totalsFindings,
    partyVatFindings.
  each_finding; try (apply Forall_concat_imap; intros i line;
                     unfold lineFindings; each_finding).
  all: unfold validateVATNumberFormat; cbv zeta;
    repeat match goal with
           | |- Forall _ (option_list (if ?c then _ else _)) => destruct c
           end; cbn [option_list]; each_finding.
Qed.

Lemma dataQuality_no_missing (invoice : InvoiceNormalized)
  (mappingFields : list MappingField) :
  Forall (λ e, missing_code e = false)
    (validateDataQuality Date_parse nowQuality getFullYear getMonth getDate
       Date_of invoice mappingFields).
Proof.
  unfold validateDataQuality, confidenceFindings, invoiceNumberFindings,
    dateQuality, totalQuality, nameQuality, countryQuality.
  cbv [criticalFields]. cbn [fmap list_fmap concat].
  each_finding; try (apply Forall_concat_imap; intros i line;
                     unfold lineQuality; each_finding).
Qed.

Lemma totals_no_missing (invoice : InvoiceNormalized) :
  Forall (λ e, missing_code e = false) (totalsFindings invoice).
Proof. unfold totalsFindings. each_finding. Qed.

Lemma partyVat_no_missing (p : option Party) (party : string) :
  Forall (λ e, missing_code e = false) (partyVatFindings p party).
Proof.
  unfold partyVatFindings, validateVATNumberFormat. each_finding.
  all: cbv zeta;
    repeat match goal with
           | |- Forall _ (option_list (if ?c then _ else _)) => destruct c
           end; cbn [option_list]; each_finding.
Qed.

Lemma paths_of_issueDate (invoice : InvoiceNormalized) :
  paths_of (issueDateFindings Date_parse nowRules invoice)
  = if negb (truthy_date (issueDate invoice))
    then ["Invoice.IssueDate"] else [].
Proof.
  unfold issueDateFindings.
  destruct (negb (truthy_date (issueDate invoice))); [reflexivity|].
  cbv zeta. destruct (Date_isNaN _); [reflexivity|].
  by destruct (Date_gt _ _).
Qed.

Lemma paths_of_line (index : nat) (line : InvoiceLine) :
  paths_of (lineFindings index line)
  = if blank (description line)
    then [("InvoiceLine[" +:+ String_of_nat index +:+ "]")
          +:+ ".Item.Description"]
    else [].
Proof.
  unfold lineFindings. cbv zeta.
  rewrite paths_of_app, paths_of_finding, paths_of_none by each_finding.
  rewrite app_nil_r. by destruct (blank (description line)).
Qed.

Ltac closed_tests :=
  repeat match goal with
  | |- context [startsWith ?a ?c || startsWith ?b ?c] =>
      let v := eval vm_compute in (startsWith a c || startsWith b c) in
      change (startsWith a c || startsWith b c) with v
  | |- context [str_default (Some ?p) ?c] =>
      let v := eval vm_compute in (str_default (Some p) c) in
      change (str_default (Some p) c) with v
  end.

(** X22. The missing required fields of a conversion are the paths of
    the business-rule warnings for a blank invoice number, an absent
    issue date, a blank supplier name, an absent supplier country, a
    blank customer name and each blank line description, in that order.
    An invoice without lines adds no entry, and neither do the findings
    of the data-quality check or of the XSD placeholder. *)
Theorem missing_required_fields (invoice : InvoiceNormalized)
  (mappingFields : list MappingField) (xml : string) :
  findMissingRequiredFields invoice
    (buildValidationReport
       (validateBusinessRules Date_parse nowRules invoice
        ++ validateDataQuality Date_parse nowQuality getFullYear getMonth
             getDate Date_of invoice mappingFields
        ++ validateXSD xml))
  = (if blank (invoiceNumber invoice) then ["Invoice.ID"] else [])
    ++ (if negb (truthy_date (issueDate invoice))
        then ["Invoice.IssueDate"] else [])
    ++ (if blank (name_of (supplier invoice))
        then ["Invoice.AccountingSupplierParty.Party.PartyName.Name"]
        else [])
    ++ (if negb (truthy_str (countryCode_of (supplier invoice)))
        then ["Invoice.AccountingSupplierParty.Party.PostalAddress.Country.IdentificationCode"]
        else [])
    ++ (if blank (name_of (customer invoice))
        then ["Invoice.AccountingCustomerParty.Party.PartyName.Name"]
        else [])
    ++ concat
         (imap
            (λ index line,
               if blank (description line)
               then [("InvoiceLine[" +:+ String_of_nat index +:+ "]")
                     +:+ ".Item.Description"]
               else [])
            (lines invoice)).
Proof.
  unfold findMissingRequiredFields. rewrite findMissing_fold.
  cbn [app]. unfold buildValidationReport. cbn [errors warnings].
  rewrite List.filter_app, missing_errors, missing_warnings.
  2, 3: apply Forall_app_2; [apply businessRules_missing_are_warnings|];
    apply Forall_app_2;
    [ eapply Forall_impl; [apply dataQuality_no_missing|];
      cbv beta; intros e -> [=]
    | by apply Forall_cons_2; [|apply Forall_nil_2] ].
  cbn [app]. rewrite !paths_of_app.
  rewrite (paths_of_none (validateDataQuality _ _ _ _ _ _ _ _))
    by apply dataQuality_no_missing.
  rewrite (paths_of_none (validateXSD xml))
    by (apply Forall_cons_2; [reflexivity|apply Forall_nil_2]).
  rewrite !app_nil_r.
  unfold validateBusinessRules. rewrite !paths_of_app, !paths_of_finding.
  rewrite paths_of_concat_imap, paths_of_issueDate.
  rewrite (paths_of_none (totalsFindings _)) by apply totals_no_missing.
  rewrite (paths_of_none (partyVatFindings _ "supplier")),
    (paths_of_none (partyVatFindings _ "customer"))
    by apply partyVat_no_missing.
  closed_tests. rewrite !andb_true_r, !andb_false_r. cbn [app].
  rewrite app_nil_r. do 5 f_equal. f_equal.
  apply imap_ext. intros i line _. apply paths_of_line.
Qed.

End MissingRequired.
Section Convert.
Import Normalize Rules AI ToUbl DataQuality Handler.

Variable Date_parse : string → Date.
Variable w : AI.World.
Variable render : JV → Exc string.
Variable nowUbl nowRules : Date.
Variable nowQuality : Z.
Variable getFullYear getMonth getDate : Z → Z.
Variable Date_of : Z → Z → Z → Date.




End Convert.

(** ** The order of the document *)

Section DocumentOrder.
Import ToUbl Shape.

Variable now : Date.
Variable getFullYear getMonth getDate : Z → Z.

(** X24. The children of the root element come in the order in which
    the serializer sets them: the three namespace attributes, then
    CustomizationID, ProfileID, ID, IssueDate, DocumentCurrencyCode,
    InvoiceTypeCode, the two parties, TaxTotal, LegalMonetaryTotal and
    InvoiceLine, and the due date, when the invoice has one, after all of
    them.  The lines are numbered from 1 in the order of the invoice. *)
Theorem document_element_order (invoice : InvoiceNormalized) :
  date_ok (issueDate invoice) = true → date_ok (dueDate invoice) = true →
  ∃ doc items,
    convertToUBL now getFullYear getMonth getDate invoice = Return doc
    ∧ invoiceKeys doc
      = ["@xmlns"; "@xmlns:cac"; "@xmlns:cbc"; "cbc:CustomizationID";
         "cbc:ProfileID"; "cbc:ID"; "cbc:IssueDate";
         "cbc:DocumentCurrencyCode"; "cbc:InvoiceTypeCode";
         "cac:AccountingSupplierParty"; "cac:AccountingCustomerParty";
         "cac:TaxTotal"; "cac:LegalMonetaryTotal"; "cac:InvoiceLine"]
        ++ (if truthy_date (dueDate invoice) then ["cbc:DueDate"] else [])
    ∧ invoiceElement doc "cac:InvoiceLine" = Some (JArr items)
    ∧ get "cbc:ID" <$> items
      = imap (λ index _, Some (JStr (String_of_nat (index + 1))))
          (lines invoice).
Proof.
  intros Hi Hd. unfold convertToUBL.
  set (issue := if truthy_date (issueDate invoice)
                then default (DateObj now) (issueDate invoice)
                else DateObj now).
  assert (∃ s, formatDateField getFullYear getMonth getDate issue = Return s)
    as [issueText ->].
  { subst issue. destruct (truthy_date (issueDate invoice)) eqn:Ht.
    - by apply formatDateField_ok.
    - cbn. eauto. }
  cbn [mbind Exc_bind].
  assert (∀ cur,
            get "cbc:ID"
            <$> imap (λ index line, buildInvoiceLine line (index + 1) cur)
                  (lines invoice)
            = imap (λ index _, Some (JStr (String_of_nat (index + 1))))
                (lines invoice)) as Hids.
  { intros cur. rewrite fmap_imap. by apply imap_ext. }
  destruct (truthy_date (dueDate invoice)) eqn:Ht.
  - destruct (formatDateField_ok now getFullYear getMonth getDate _ Hd Ht)
      as [dueText ->].
    cbn [mbind Exc_bind mret Exc_ret].
    eexists _, _. split; [reflexivity|]. split; [reflexivity|].
    split; [|apply Hids]. reflexivity.
  - cbn [mbind Exc_bind mret Exc_ret].
    eexists _, _. split; [reflexivity|]. split; [reflexivity|].
    split; [|apply Hids]. reflexivity.
Qed.

End DocumentOrder.

(** The consulting invoice has one line and no due date. *)
Lemma document_element_order_witness :
  ∃ doc,
    ToUbl.convertToUBL Examples.epoch Examples.year1970 Examples.january
      Examples.firstDay Examples.consultingInvoice = Return doc
    ∧ last (Shape.invoiceKeys doc) = Some "cac:InvoiceLine".
Proof.
  destruct (document_element_order Examples.epoch Examples.year1970
              Examples.january Examples.firstDay Examples.consultingInvoice
              eq_refl eq_refl) as (doc & items & Hdoc & Hkeys & _).
  exists doc. split; [exact Hdoc|]. by rewrite Hkeys.
Defined.

(** ** The fences around an answer *)

Section Fences.
Import AI.

Lemma append_assoc3 (a b c : string) : (a +:+ b) +:+ c = a +:+ (b +:+ c).
Proof.
  induction a as [|x a IH]; [done|]. by rewrite !append_cons, IH.
Qed.

Lemma rev_app_append (a b t : string) :
  String.rev_app (a +:+ b) t = String.rev_app b (String.rev_app a t).
Proof.
  revert t. induction a as [|x a IH]; intros t; [done|].
  rewrite append_cons. cbn [String.rev_app]. apply IH.
Qed.

Lemma rev_app_rev_app (a t u : string) :
  String.rev_app (String.rev_app a t) u = String.rev_app t (a +:+ u).
Proof.
  revert t u. induction a as [|x a IH]; intros t u; [done|].
  cbn [String.rev_app]. rewrite IH. reflexivity.
Qed.

Lemma rev_rev (s : string) : String.rev (String.rev s) = s.
Proof.
  unfold String.rev. rewrite rev_app_rev_app. cbn [String.rev_app].
  apply append_nil_r.
Qed.

Lemma rev_snoc (a : string) (c : ascii) :
  String.rev (a +:+ String c "") = String c (String.rev a).
Proof. unfold String.rev. by rewrite rev_app_append. Qed.

(** Trimming leaves a text alone that neither starts nor ends with
    white space. *)
Lemma trim_tight (c1 c2 : ascii) (mid : string) :
  is_whitespace c1 = false → is_whitespace c2 = false →
  trim (String c1 (mid +:+ String c2 "")) = String c1 (mid +:+ String c2 "").
Proof.
  intros H1 H2. unfold trim. cbn [trimStart]. rewrite H1.
  rewrite <- append_cons, rev_snoc. cbn [trimStart]. rewrite H2.
  rewrite <- rev_snoc. apply rev_rev.
Qed.

Lemma trimStart_snoc (b : string) :
  trimStart (b +:+ String newline "")
  = match trimStart b with
    | "" => ""
    | String c r => String c r +:+ String newline ""
    end.
Proof.
  induction b as [|c r IH]; [done|].
  rewrite append_cons. cbn [trimStart].
  by destruct (is_whitespace c).
Qed.

Lemma trim_trailing_newline (b : string) :
  trim (b +:+ String newline "") = trim b.
Proof.
  unfold trim. rewrite trimStart_snoc.
  destruct (trimStart b) as [|c r]; [done|].
  by rewrite rev_snoc.
Qed.

(** A text without a backtick holds no fence. *)
Lemma remove_fence_plain (pat body rest : string) :
  Forall (λ c, c ≠ "`"%char) (list_ascii_of_string body) →
  remove_fence (String "`" pat) 0 (body +:+ rest)
  = body +:+ remove_fence (String "`" pat) 0 rest.
Proof.
  induction body as [|c r IH]; intros Hb; [done|].
  cbn [list_ascii_of_string] in Hb. apply Forall_cons in Hb as [Hc Hr].
  rewrite !append_cons. cbn [remove_fence String.prefix].
  destruct (ascii_dec "`" c) as [Heq|_]; [by symmetry in Heq|].
  by rewrite IH.
Qed.

(** X25. A fenced answer is unwrapped to what is inside: for a text
    without a backtick, put between an opening fence, with or without
    the word json, and a closing fence, each on a line of its own, the
    text handed to the JSON parser is the inner text, trimmed. *)
Theorem stripFences_unwraps (body : string) :
  Forall (λ c, c ≠ "`"%char) (list_ascii_of_string body) →
  stripFences ("```json" +:+ String newline (body +:+ String newline "```"))
  = trim body
  ∧ stripFences ("```" +:+ String newline (body +:+ String newline "```"))
    = trim body.
Proof.
  intros Hb.
  assert (∀ open,
            trim (String "`" (open +:+ String newline
                                (body +:+ String newline "```")))
            = String "`" (open +:+ String newline
                            (body +:+ String newline "```"))) as Htrim.
  { intros open.
    assert (open +:+ String newline (body +:+ String newline "```")
            = (open +:+ String newline (body +:+ String newline "``"))
              +:+ String "`" "") as ->.
    { rewrite append_assoc3. f_equal. rewrite append_cons.
      f_equal. by rewrite append_assoc3. }
    by apply trim_tight. }
  assert (remove_fence "```" 0 (body +:+ String newline "```")
          = body +:+ String newline "") as Hclose
    by (by rewrite remove_fence_plain).
  split.
  - unfold stripFences. cbv zeta.
    change ("```json" +:+ String newline (body +:+ String newline "```"))
      with (String "`" ("``json" +:+ String newline
                          (body +:+ String newline "```"))).
    rewrite Htrim.
    change (startsWith "```json"
              (String "`" ("``json" +:+ String newline
                             (body +:+ String newline "```")))) with true.
    cbv iota.
    change (remove_fence "```json" 0
              (String "`" ("``json" +:+ String newline
                             (body +:+ String newline "```"))))
      with (remove_fence "```json" 0 (body +:+ String newline "```")).
    rewrite remove_fence_plain by done.
    change (remove_fence "```json" 0 (String newline "```"))
      with (String newline "```").
    by rewrite Hclose, trim_trailing_newline.
  - unfold stripFences. cbv zeta.
    change ("```" +:+ String newline (body +:+ String newline "```"))
      with (String "`" ("``" +:+ String newline
                          (body +:+ String newline "```"))).
    rewrite Htrim.
    change (startsWith "```json"
              (String "`" ("``" +:+ String newline
                             (body +:+ String newline "```")))) with false.
    change (startsWith "```"
              (String "`" ("``" +:+ String newline
                             (body +:+ String newline "```")))) with true.
    cbv iota.
    change (remove_fence "```" 0
              (String "`" ("``" +:+ String newline
                             (body +:+ String newline "```"))))
      with (remove_fence "```" 0 (body +:+ String newline "```")).
    by rewrite Hclose, trim_trailing_newline.
Qed.

End Fences.

(** The answer [{}] between fences. *)
Lemma stripFences_unwraps_witness :
  AI.stripFences
    ("```json" +:+ String AI.newline ("{}" +:+ String AI.newline "```"))
  = "{}".
Proof.
  apply (stripFences_unwraps "{}").
  by repeat (apply Forall_cons_2; [|]); [..|apply Forall_nil_2].
Defined.
